(** * AI2talk: the per-user session registry and the rate limiter

    A shallow embedding of
      - [components/user_data_manager.py] (sessions, durable store, trust
        reconciliation, [get_user_data]),
      - [components/rate_limiter.py] ([check_rate_limits],
        [is_user_blocked]),
      - [components/settings_config.py] (the [TRUSTED_USERS_SET] property),
      - the state changes made by the owner and payment handlers
        ([handlers/owner_handlers.py], [handlers/payment_handlers.py]),
    followed by the properties of the specification that concern them.

    Conventions of the embedding.
      - A [datetime] is an integer number of microseconds (the resolution of
        Python's [datetime]) counted from 1970-01-01T00:00:00Z; a [timedelta]
        is a difference of two of them.  [(a - b).total_seconds() < n] for an
        integer [n] of seconds is [a - b < n * 10^6].
      - Every reading of the clock ([datetime.now]) is an explicit argument.
        A reading is an instant of the present age: adding or subtracting
        the fixed spans of the code (a minute, 24 hours, 100 years) stays
        within the range of [datetime].  The configured block duration has
        no upper bound, and the [OverflowError] that [datetime] raises when
        [now + timedelta(hours=USER_BLOCK_DURATION_HOURS)] lies past
        [datetime.max] is modelled.
      - A function that can raise returns an [Outcome]; an exception leaves
        the state as it was when it was raised.
      - The SQLite tables are finite maps; a failing store is not modelled
        (every [sqlite3.Error] is caught and logged by the source).
      - Python objects that are mutated through a reference held in
        [user_data_store] are written back to the registry slot they were
        read from at every mutation.
      - Logging is dropped; messages sent through [_send_message_rl] are
        recorded as (recipient, translation key). *)

From Stdlib Require Import ZArith Lia.
From stdpp Require Import base option list gmap strings.

Local Open Scope Z_scope.

(** ** Time *)

Definition usec_per_second : Z := 1000000.
Definition timedelta_seconds (n : Z) : Z := n * usec_per_second.
Definition timedelta_minutes (n : Z) : Z := n * 60 * usec_per_second.
Definition timedelta_hours (n : Z) : Z := n * 3600 * usec_per_second.
Definition timedelta_days (n : Z) : Z := n * 86400 * usec_per_second.

(** [datetime.max], 9999-12-31T23:59:59.999999: a sum of a [datetime] and a
    [timedelta] that lies past it raises [OverflowError]. *)
Definition datetime_max : Z := 253402300799999999.

(** What a call yields: the value it returns, or the exception it raises. *)
Inductive Outcome (A : Type) : Type :=
| Returns (a : A)
| OverflowError.

Arguments Returns {A} a.
Arguments OverflowError {A}.

#[global] Instance Outcome_eq_dec {A} `{EqDecision A} : EqDecision (Outcome A).
Proof. solve_decision. Defined.

(** ** Data model ([user_data_manager.py], lines 16-45) *)

Inductive BotState : Set :=
| NONE
| GEMINI_MODE
| FLUX_PROMPT
| FLUX_DIMENSIONS
| MISTRAL_MODE
| WAITING_FOR_FORWARD
| DONATE_CUSTOM_AMOUNT_INPUT.

Record UserPersistentSettings : Type := mkPersistent {
  language : string;
  gemini_model : string
}.

Record UserData : Type := mkUserData {
  user_id : Z;
  persistent_settings : UserPersistentSettings;
  state : BotState;
  gemini_chat : option nat;                      (* opaque chat handle *)
  requests_timestamps : list Z;
  last_request_timestamp : option Z;
  violations : Z;
  blocked_until_timestamp : option Z;
  session_start_timestamp : option Z;
  mistral_chat_history : list (string * string); (* role, content *)
  last_rate_request_timestamp : option Z;
  flux_data : gmap string string;
  custom_donation_prompt_msg_id : option Z;
  processed_media_group_ids : gset string
}.

(** Field assignments on a session object. *)

Definition set_state (v : BotState) (s : UserData) : UserData :=
  mkUserData (user_id s) (persistent_settings s) v (gemini_chat s)
    (requests_timestamps s) (last_request_timestamp s) (violations s)
    (blocked_until_timestamp s) (session_start_timestamp s)
    (mistral_chat_history s) (last_rate_request_timestamp s) (flux_data s)
    (custom_donation_prompt_msg_id s) (processed_media_group_ids s).

Definition set_gemini_chat (v : option nat) (s : UserData) : UserData :=
  mkUserData (user_id s) (persistent_settings s) (state s) v
    (requests_timestamps s) (last_request_timestamp s) (violations s)
    (blocked_until_timestamp s) (session_start_timestamp s)
    (mistral_chat_history s) (last_rate_request_timestamp s) (flux_data s)
    (custom_donation_prompt_msg_id s) (processed_media_group_ids s).

Definition set_requests_timestamps (v : list Z) (s : UserData) : UserData :=
  mkUserData (user_id s) (persistent_settings s) (state s) (gemini_chat s)
    v (last_request_timestamp s) (violations s)
    (blocked_until_timestamp s) (session_start_timestamp s)
    (mistral_chat_history s) (last_rate_request_timestamp s) (flux_data s)
    (custom_donation_prompt_msg_id s) (processed_media_group_ids s).

Definition set_last_request_timestamp (v : option Z) (s : UserData) : UserData :=
  mkUserData (user_id s) (persistent_settings s) (state s) (gemini_chat s)
    (requests_timestamps s) v (violations s)
    (blocked_until_timestamp s) (session_start_timestamp s)
    (mistral_chat_history s) (last_rate_request_timestamp s) (flux_data s)
    (custom_donation_prompt_msg_id s) (processed_media_group_ids s).

Definition set_violations (v : Z) (s : UserData) : UserData :=
  mkUserData (user_id s) (persistent_settings s) (state s) (gemini_chat s)
    (requests_timestamps s) (last_request_timestamp s) v
    (blocked_until_timestamp s) (session_start_timestamp s)
    (mistral_chat_history s) (last_rate_request_timestamp s) (flux_data s)
    (custom_donation_prompt_msg_id s) (processed_media_group_ids s).

Definition set_blocked_until_timestamp (v : option Z) (s : UserData) : UserData :=
  mkUserData (user_id s) (persistent_settings s) (state s) (gemini_chat s)
    (requests_timestamps s) (last_request_timestamp s) (violations s)
    v (session_start_timestamp s)
    (mistral_chat_history s) (last_rate_request_timestamp s) (flux_data s)
    (custom_donation_prompt_msg_id s) (processed_media_group_ids s).

Definition set_mistral_chat_history (v : list (string * string)) (s : UserData) : UserData :=
  mkUserData (user_id s) (persistent_settings s) (state s) (gemini_chat s)
    (requests_timestamps s) (last_request_timestamp s) (violations s)
    (blocked_until_timestamp s) (session_start_timestamp s)
    v (last_rate_request_timestamp s) (flux_data s)
    (custom_donation_prompt_msg_id s) (processed_media_group_ids s).

Definition set_last_rate_request_timestamp (v : option Z) (s : UserData) : UserData :=
  mkUserData (user_id s) (persistent_settings s) (state s) (gemini_chat s)
    (requests_timestamps s) (last_request_timestamp s) (violations s)
    (blocked_until_timestamp s) (session_start_timestamp s)
    (mistral_chat_history s) v (flux_data s)
    (custom_donation_prompt_msg_id s) (processed_media_group_ids s).

(** ** Settings ([settings_config.py]) *)

(** [PositiveInt] fields are [positive], [NonNegativeInt] fields are [N]:
    pydantic rejects any other value when the settings are loaded.
    [BOT_OWNER_USER_ID] and [TRUSTED_USERS_ENV] are the parsed forms of
    [BOT_OWNER_ID] and [TRUSTED_USERS]. *)
Record BotSettings : Type := mkSettings {
  DEFAULT_LANGUAGE : string;
  DEFAULT_GEMINI_MODEL : string;
  MAX_REQUESTS_PER_DAY : positive;
  MAX_REQUESTS_PER_USER_PER_DAY : positive;
  MAX_REQUESTS_PER_MINUTE : positive;
  REQUEST_COOLDOWN_SECONDS : N;
  USER_BLOCK_DURATION_HOURS : positive;
  LIMIT_VIOLATIONS_BEFORE_BLOCK : positive;
  BOT_OWNER_USER_ID : option Z;
  TRUSTED_USERS_ENV : gset Z;
  _trusted_users_set_cache : option (gset Z)
}.

Definition set_trusted_cache (v : option (gset Z)) (st : BotSettings) : BotSettings :=
  mkSettings (DEFAULT_LANGUAGE st) (DEFAULT_GEMINI_MODEL st)
    (MAX_REQUESTS_PER_DAY st) (MAX_REQUESTS_PER_USER_PER_DAY st)
    (MAX_REQUESTS_PER_MINUTE st) (REQUEST_COOLDOWN_SECONDS st)
    (USER_BLOCK_DURATION_HOURS st) (LIMIT_VIOLATIONS_BEFORE_BLOCK st)
    (BOT_OWNER_USER_ID st) (TRUSTED_USERS_ENV st) v.

(** ** The process state: settings object, durable store, registry, ledger *)

Record World : Type := mkWorld {
  settings : BotSettings;
  (* table user_settings: user_id -> (language, gemini_model) *)
  db_user_settings : gmap Z UserPersistentSettings;
  (* table trusted_users *)
  db_trusted_users : gset Z;
  (* table blocked_users: user_id -> (blocked_until_iso or NULL, violations) *)
  db_blocked_users : gmap Z (option Z * Z);
  (* user_data_manager.user_data_store *)
  user_data_store : gmap Z UserData;
  (* rate_limiter.total_daily_requests_rl *)
  total_daily_requests_rl : list Z;
  (* messages handed to _send_message_rl, oldest first *)
  sent_rl : list (Z * string)
}.

Definition with_settings (v : BotSettings) (w : World) : World :=
  mkWorld v (db_user_settings w) (db_trusted_users w) (db_blocked_users w)
    (user_data_store w) (total_daily_requests_rl w) (sent_rl w).
Definition with_db_user_settings (v : gmap Z UserPersistentSettings) (w : World) : World :=
  mkWorld (settings w) v (db_trusted_users w) (db_blocked_users w)
    (user_data_store w) (total_daily_requests_rl w) (sent_rl w).
Definition with_db_trusted_users (v : gset Z) (w : World) : World :=
  mkWorld (settings w) (db_user_settings w) v (db_blocked_users w)
    (user_data_store w) (total_daily_requests_rl w) (sent_rl w).
Definition with_db_blocked_users (v : gmap Z (option Z * Z)) (w : World) : World :=
  mkWorld (settings w) (db_user_settings w) (db_trusted_users w) v
    (user_data_store w) (total_daily_requests_rl w) (sent_rl w).
Definition with_user_data_store (v : gmap Z UserData) (w : World) : World :=
  mkWorld (settings w) (db_user_settings w) (db_trusted_users w) (db_blocked_users w)
    v (total_daily_requests_rl w) (sent_rl w).
Definition with_total_daily_requests_rl (v : list Z) (w : World) : World :=
  mkWorld (settings w) (db_user_settings w) (db_trusted_users w) (db_blocked_users w)
    (user_data_store w) v (sent_rl w).
Definition with_sent_rl (v : list (Z * string)) (w : World) : World :=
  mkWorld (settings w) (db_user_settings w) (db_trusted_users w) (db_blocked_users w)
    (user_data_store w) (total_daily_requests_rl w) v.

(** ** A state monad over [World] *)

Definition M (A : Type) : Type := World -> A * World.

Definition ret {A} (a : A) : M A := fun w => (a, w).
Definition bind {A B} (c : M A) (k : A -> M B) : M B :=
  fun w => let (a, w1) := c w in k a w1.
Definition gets {A} (f : World -> A) : M A := fun w => (f w, w).
Definition modify (f : World -> World) : M unit := fun w => (tt, f w).

Notation "x <~ c ;; k" := (bind c (fun x => k))
  (at level 100, c at next level, right associativity).
Notation "c ;;; k" := (bind c (fun _ => k))
  (at level 100, right associativity).

(** The world after, and the value of, a computation. *)
Definition exec {A} (c : M A) (w : World) : World := snd (c w).
Definition eval {A} (c : M A) (w : World) : A := fst (c w).

Local Open Scope string_scope.
Local Open Scope list_scope.

(** ** Durable store ([user_data_manager.py], lines 133-228) *)

Definition _load_user_persistent_settings_from_db (uid : Z)
  : M (option UserPersistentSettings) :=
  gets (fun w => db_user_settings w !! uid).

(* INSERT OR REPLACE INTO user_settings *)
Definition _save_user_persistent_settings_to_db (uid : Z)
    (p_settings : UserPersistentSettings) : M unit :=
  modify (fun w => with_db_user_settings (<[uid := p_settings]> (db_user_settings w)) w).

(* INSERT OR IGNORE INTO trusted_users *)
Definition add_trusted_user_db (uid : Z) : M unit :=
  modify (fun w => with_db_trusted_users ({[uid]} ∪ db_trusted_users w) w).

Definition remove_trusted_user_db (uid : Z) : M unit :=
  modify (fun w => with_db_trusted_users (db_trusted_users w ∖ {[uid]}) w).

Definition get_all_trusted_users_db : M (gset Z) := gets db_trusted_users.

(* INSERT OR REPLACE INTO blocked_users *)
Definition block_user_db (uid : Z) (blocked_until : option Z) (viol : Z) : M unit :=
  modify (fun w => with_db_blocked_users (<[uid := (blocked_until, viol)]> (db_blocked_users w)) w).

Definition unblock_user_db (uid : Z) : M unit :=
  modify (fun w => with_db_blocked_users (delete uid (db_blocked_users w)) w).

Definition get_blocked_user_info_db (uid : Z) : M (option (option Z * Z)) :=
  gets (fun w => db_blocked_users w !! uid).

(** ** [settings.TRUSTED_USERS_SET] ([settings_config.py], lines 123-150)

    The union of the durable list, the configured list and the owner,
    computed when the cache is empty and cached until an administrative
    command resets [_trusted_users_set_cache]. *)
Definition TRUSTED_USERS_SET : M (gset Z) :=
  st <~ gets settings ;;
  match _trusted_users_set_cache st with
  | Some cached => ret cached
  | None =>
      db_trusted <~ get_all_trusted_users_db ;;
      let combined_set := db_trusted ∪ TRUSTED_USERS_ENV st in
      let combined_set :=
        match BOT_OWNER_USER_ID st with
        | Some owner_id => {[owner_id]} ∪ combined_set
        | None => combined_set
        end in
      modify (fun w => with_settings (set_trusted_cache (Some combined_set) (settings w)) w) ;;;
      ret combined_set
  end.

(** ** Session objects *)

(** A mutation of the session object held in slot [slot] of the registry. *)
Definition store_user (slot : Z) (s : UserData) : M unit :=
  modify (fun w => with_user_data_store (<[slot := s]> (user_data_store w)) w).

(* UserData.reset_chat_histories, lines 67-70 *)
Definition reset_chat_histories (s : UserData) : UserData :=
  let s := set_gemini_chat None s in
  match mistral_chat_history s with
  | [] => s
  | _ :: _ => set_mistral_chat_history [] s
  end.

(* UserData.unblock, lines 100-103; [slot] is where the registry holds [s] *)
Definition unblock (slot : Z) (s : UserData) : M UserData :=
  let s := set_blocked_until_timestamp None s in
  let s := set_violations 0 s in
  store_user slot s ;;;
  unblock_user_db (user_id s) ;;;
  ret s.

(** ** Trust reconciliation and the registry fetch (lines 263-322) *)

Definition check_and_unblock_if_trusted (now_utc : Z) (uid : Z)
    (current_trusted_set : gset Z) : M unit :=
  if decide (uid ∉ current_trusted_set) then ret tt else
  ud <~ gets (fun w => user_data_store w !! uid) ;;
  db_block_info <~ get_blocked_user_info_db uid ;;
  (* elif db_block_info: the block is in the store but not in the cache *)
  let store_only : M unit :=
    match db_block_info with
    | Some (unblock_time, _) =>
        match unblock_time with
        | None => unblock_user_db uid
        | Some ut => if decide (now_utc < ut) then unblock_user_db uid else ret tt
        end
    | None => ret tt
    end in
  match ud with
  | Some s =>
      match blocked_until_timestamp s with
      | Some _ =>
          store_user uid (set_violations 0 (set_blocked_until_timestamp None s)) ;;;
          match db_block_info with
          | Some _ => unblock_user_db uid
          | None => ret tt
          end
      | None => store_only
      end
  | None => store_only
  end.

Definition get_user_data (now_utc : Z) (uid : Z) : M UserData :=
  cached <~ gets (fun w => user_data_store w !! uid) ;;
  match cached with
  | Some s0 =>
      trusted <~ TRUSTED_USERS_SET ;;
      check_and_unblock_if_trusted now_utc uid trusted ;;;
      (* return user_data_store[user_id]: the slot is still filled *)
      gets (fun w => default s0 (user_data_store w !! uid))
  | None =>
      loaded <~ _load_user_persistent_settings_from_db uid ;;
      p_settings <~
        match loaded with
        | Some p => ret p
        | None =>
            st <~ gets settings ;;
            let p := mkPersistent (DEFAULT_LANGUAGE st) (DEFAULT_GEMINI_MODEL st) in
            _save_user_persistent_settings_to_db uid p ;;;
            ret p
        end ;;
      trusted <~ TRUSTED_USERS_SET ;;
      (* ud_kwargs.update: blocked_until_timestamp, violations *)
      block_kwargs <~
        (if decide (uid ∉ trusted) then
           blocked_info <~ get_blocked_user_info_db uid ;;
           match blocked_info with
           | Some (blocked_until_dt, violations_count) =>
               match blocked_until_dt with
               | None => ret (blocked_until_dt, violations_count)
               | Some bu =>
                   if decide (now_utc < bu)
                   then ret (blocked_until_dt, violations_count)
                   else unblock_user_db uid ;;; ret (None, 0)
               end
           | None => ret (None, 0)
           end
         else unblock_user_db uid ;;; ret (None, 0)) ;;
      let new_user_data :=
        mkUserData uid p_settings NONE None [] None (snd block_kwargs)
          (fst block_kwargs) None [] None ∅ None ∅ in
      store_user uid new_user_data ;;;
      ret new_user_data
  end.

(** ** Rate limiter ([rate_limiter.py]) *)

(* _send_message_rl, with the translation key standing for the text *)
Definition _send_message_rl (uid : Z) (key : string) : M unit :=
  modify (fun w => with_sent_rl (sent_rl w ++ [(uid, key)]) w).

(** The closure [handle_limit_violation] (lines 67-89); [now], [uid] and the
    session object are the variables it captures.  Its [limit] argument
    only fills the text of the message.  The sum of line 75 raises
    [OverflowError] when it lies past [datetime.max]: the violation has
    been counted and its message sent by then, and nothing of the block has
    been written. *)
Definition handle_limit_violation (now uid : Z) (user_s_data : UserData)
    (reason_key : string) : M (Outcome (bool * UserData)) :=
  let s := set_violations (violations user_s_data + 1) user_s_data in
  store_user uid s ;;;
  _send_message_rl uid reason_key ;;;
  st <~ gets settings ;;
  if decide (Z.pos (LIMIT_VIOLATIONS_BEFORE_BLOCK st) <= violations s) then
    let block_until := now + timedelta_hours (Z.pos (USER_BLOCK_DURATION_HOURS st)) in
    if decide (datetime_max < block_until) then ret OverflowError else
    let s := set_blocked_until_timestamp (Some block_until) s in
    store_user uid s ;;;
    block_user_db uid (Some block_until) (violations s) ;;;
    _send_message_rl uid "user_blocked" ;;;
    let s := reset_chat_histories (set_state NONE s) in
    store_user uid s ;;;
    ret (Returns (true, s))
  else ret (Returns (false, s)).

(** [if handle_limit_violation(...): return False] followed by
    [return False] (lines 91-106): the check returns false whatever the
    closure returns, and raises what it raises. *)
Definition refuse {A} (r : Outcome A) : Outcome bool :=
  match r with
  | Returns _ => Returns false
  | OverflowError => OverflowError
  end.

(** Lines 50-59: the specialized check of the "rate" command. *)
Definition check_rate_command (now uid : Z) (s : UserData) : M (Outcome bool) :=
  let pass : M (Outcome bool) :=
    store_user uid (set_last_rate_request_timestamp (Some now) s) ;;;
    ret (Returns true) in
  match last_rate_request_timestamp s with
  | Some last =>
      if decide (now - last < timedelta_seconds 60)
      then _send_message_rl uid "rate_limit_minute" ;;; ret (Returns false)
      else pass
  | None => pass
  end.

(** Lines 61-122: the general path. *)
Definition check_general (now uid : Z) (increment_request_count : bool)
    (s : UserData) : M (Outcome bool) :=
  let day_ago := now - timedelta_hours 24 in
  let s := set_requests_timestamps
             (filter (fun req => day_ago < req) (requests_timestamps s)) s in
  store_user uid s ;;;
  modify (fun w => with_total_daily_requests_rl
                     (filter (fun req => day_ago < req) (total_daily_requests_rl w)) w) ;;;
  st <~ gets settings ;;
  ledger <~ gets total_daily_requests_rl ;;
  if decide (Z.pos (MAX_REQUESTS_PER_DAY st) <= Z.of_nat (length ledger)) then
    r <~ handle_limit_violation now uid s "rate_limit_total_daily" ;; ret (refuse r)
  else if decide (Z.pos (MAX_REQUESTS_PER_USER_PER_DAY st)
                  <= Z.of_nat (length (requests_timestamps s))) then
    r <~ handle_limit_violation now uid s "rate_limit_daily" ;; ret (refuse r)
  else
    let minute_ago := now - timedelta_minutes 1 in
    let requests_last_minute :=
      length (filter (fun req => minute_ago < req) (requests_timestamps s)) in
    if decide (Z.pos (MAX_REQUESTS_PER_MINUTE st) <= Z.of_nat requests_last_minute) then
      r <~ handle_limit_violation now uid s "rate_limit_minute" ;; ret (refuse r)
    else
      let pass : M (Outcome bool) :=
        if increment_request_count then
          store_user uid
            (set_last_request_timestamp (Some now)
               (set_requests_timestamps (requests_timestamps s ++ [now]) s)) ;;;
          modify (fun w => with_total_daily_requests_rl
                             (total_daily_requests_rl w ++ [now]) w) ;;;
          ret (Returns true)
        else ret (Returns true) in
      match last_request_timestamp s with
      | Some last =>
          if decide (now - last
                     < timedelta_seconds (Z.of_N (REQUEST_COOLDOWN_SECONDS st)))
          then _send_message_rl uid "rate_limit_cooldown" ;;; ret (Returns false)
          else pass
      | None => pass
      end.

(** [check_rate_limits] (lines 37-122).  [now_fetch] is the clock reading
    taken inside [get_user_data], [now] the one of line 42. *)
Definition check_rate_limits (now_fetch now : Z) (uid : Z)
    (command_type : string) (increment_request_count : bool) : M (Outcome bool) :=
  user_s_data <~ get_user_data now_fetch uid ;;
  trusted <~ TRUSTED_USERS_SET ;;
  if decide (uid ∈ trusted) then ret (Returns true) else
  let continue (s : UserData) : M (Outcome bool) :=
    if decide (command_type = "rate")
    then check_rate_command now uid s
    else check_general now uid increment_request_count s in
  match blocked_until_timestamp user_s_data with
  | Some blocked_until =>
      if decide (now < blocked_until) then ret (Returns false)
      else s <~ unblock uid user_s_data ;; continue s
  | None => continue user_s_data
  end.

(** [is_user_blocked] (lines 124-139). *)
Definition is_user_blocked (now_fetch now : Z) (uid : Z) : M bool :=
  user_s_data <~ get_user_data now_fetch uid ;;
  match blocked_until_timestamp user_s_data with
  | Some blocked_until =>
      if decide (now < blocked_until)
      then _send_message_rl uid "user_blocked" ;;; ret true
      else unblock uid user_s_data ;;; ret false
  | None => ret false
  end.

(** ** State changes of the administrative and payment handlers

    Replies sent through the transport and the parsing of the command text
    are left out; [caller] and [target] are the parsed identifiers.  An
    exception raised inside a handler's [try] block ends the handler with
    the state reached so far. *)

(* app.owner_only *)
Definition owner_only (now_fetch : Z) (caller : Z) (func : M unit) : M unit :=
  st <~ gets settings ;;
  match BOT_OWNER_USER_ID st with
  | Some owner_id =>
      if decide (caller = owner_id) then func
      else get_user_data now_fetch caller ;;; ret tt
  | None => get_user_data now_fetch caller ;;; ret tt
  end.

(* owner_handlers.add_trusted_command_handler, lines 36-61 *)
Definition add_trusted_command_handler (now_caller now_recon : Z)
    (caller target : Z) : M unit :=
  get_user_data now_caller caller ;;;
  trusted <~ TRUSTED_USERS_SET ;;
  if decide (target ∈ trusted) then ret tt else
  add_trusted_user_db target ;;;
  modify (fun w => with_settings (set_trusted_cache None (settings w)) w) ;;;
  trusted <~ TRUSTED_USERS_SET ;;
  if decide (target ∈ trusted) then
    trusted <~ TRUSTED_USERS_SET ;;
    check_and_unblock_if_trusted now_recon target trusted
  else ret tt.

(* owner_handlers.remove_trusted_command_handler, lines 73-98 *)
Definition remove_trusted_command_handler (now_caller : Z)
    (caller target : Z) : M unit :=
  get_user_data now_caller caller ;;;
  st <~ gets settings ;;
  if decide (Some target = BOT_OWNER_USER_ID st) then ret tt else
  trusted <~ TRUSTED_USERS_SET ;;
  if decide (target ∈ trusted) then
    remove_trusted_user_db target ;;;
    modify (fun w => with_settings (set_trusted_cache None (settings w)) w) ;;;
    TRUSTED_USERS_SET ;;; ret tt
  else ret tt.

(* owner_handlers.ban_user_command_handler, lines 111-145.  The three
   clock readings are those of lines 133, 138 and of get_user_data(target);
   comparing a NULL blocked-until with the clock raises TypeError. *)
Definition ban_user_command_handler (now_caller now_check now_ban now_target : Z)
    (caller target : Z) : M unit :=
  get_user_data now_caller caller ;;;
  st <~ gets settings ;;
  if decide (Some target = BOT_OWNER_USER_ID st) then ret tt else
  if decide (target = caller) then ret tt else
  existing_block_info <~ get_blocked_user_info_db target ;;
  let ban : M unit :=
    let blocked_until := now_ban + timedelta_days (365 * 100) in
    block_user_db target (Some blocked_until) (-1) ;;;
    target_user_s_data <~ get_user_data now_target target ;;
    let s := set_blocked_until_timestamp (Some blocked_until) target_user_s_data in
    let s := set_violations (-1) s in
    let s := set_state NONE s in
    let s := reset_chat_histories s in
    store_user target s in
  match existing_block_info with
  | Some (until, viol) =>
      if decide (viol = -1) then
        match until with
        | Some u => if decide (now_check < u) then ret tt else ban
        | None => ret tt (* TypeError, caught by the handler *)
        end
      else ban
  | None => ban
  end.

(* owner_handlers.unban_user_command_handler, lines 160-184 *)
Definition unban_user_command_handler (now_caller now_check now_target : Z)
    (caller target : Z) : M unit :=
  get_user_data now_caller caller ;;;
  existing_block_info <~ get_blocked_user_info_db target ;;
  let not_banned : M unit :=
    unblock_user_db target ;;;
    cached <~ gets (fun w => user_data_store w !! target) ;;
    match cached with
    | Some s => unblock target s ;;; ret tt
    | None => ret tt
    end in
  match existing_block_info with
  | None => not_banned
  | Some (None, _) => ret tt (* TypeError, caught by the handler *)
  | Some (Some u, _) =>
      if decide (u < now_check) then not_banned
      else
        target_user_s_data <~ get_user_data now_target target ;;
        unblock target target_user_s_data ;;; ret tt
  end.

(* payment_handlers.success_payment_handler, lines 278-322, for a message
   that carries a payment *)
Definition success_payment_handler (now_fetch now_recon now_note : Z)
    (uid : Z) : M unit :=
  user_data <~ get_user_data now_fetch uid ;;
  TRUSTED_USERS_SET ;;; (* was_trusted *)
  match blocked_until_timestamp user_data with
  | Some _ => unblock uid user_data ;;; ret tt
  | None => ret tt
  end ;;;
  trusted <~ TRUSTED_USERS_SET ;;
  (if decide (uid ∉ trusted) then
     add_trusted_user_db uid ;;;
     modify (fun w => with_settings (set_trusted_cache None (settings w)) w)
   else ret tt) ;;;
  trusted <~ TRUSTED_USERS_SET ;;
  check_and_unblock_if_trusted now_recon uid trusted ;;;
  (* _create_owner_notification fetches the session once more *)
  st <~ gets settings ;;
  match BOT_OWNER_USER_ID st with
  | Some owner_id =>
      if decide (owner_id = 0) then ret tt
      else get_user_data now_note uid ;;; TRUSTED_USERS_SET ;;; ret tt
  | None => ret tt
  end.

(** The property setters [UserData.language] and [UserData.gemini_model]
    (lines 51-65): write-through to the durable store. *)
Definition set_persistent_settings (v : UserPersistentSettings) (s : UserData) : UserData :=
  mkUserData (user_id s) v (state s) (gemini_chat s)
    (requests_timestamps s) (last_request_timestamp s) (violations s)
    (blocked_until_timestamp s) (session_start_timestamp s)
    (mistral_chat_history s) (last_rate_request_timestamp s) (flux_data s)
    (custom_donation_prompt_msg_id s) (processed_media_group_ids s).

Definition set_language (slot : Z) (value : string) (s : UserData) : M UserData :=
  if decide (language (persistent_settings s) = value) then ret s else
  let s := set_persistent_settings
             (mkPersistent value (gemini_model (persistent_settings s))) s in
  store_user slot s ;;;
  _save_user_persistent_settings_to_db (user_id s) (persistent_settings s) ;;;
  ret s.

Definition set_gemini_model (slot : Z) (value : string) (s : UserData) : M UserData :=
  if decide (gemini_model (persistent_settings s) = value) then ret s else
  let s := set_persistent_settings
             (mkPersistent (language (persistent_settings s)) value) s in
  store_user slot s ;;;
  _save_user_persistent_settings_to_db (user_id s) (persistent_settings s) ;;;
  ret s.

(** What the remaining handlers do to a session: they fetch it and assign
    the mode-related fields; none of them assigns the counters, the
    timestamps of the rate limiter or the block. *)
Definition handler_session_update (now_fetch uid : Z) (st : BotState)
    (chat : option nat) (session_start : option Z)
    (history : list (string * string)) (flux : gmap string string)
    (prompt_msg_id : option Z) (media_groups : gset string) : M unit :=
  s <~ get_user_data now_fetch uid ;;
  store_user uid
    (mkUserData (user_id s) (persistent_settings s) st chat
       (requests_timestamps s) (last_request_timestamp s) (violations s)
       (blocked_until_timestamp s) session_start history
       (last_rate_request_timestamp s) flux prompt_msg_id media_groups).

(** A restart of the process keeps the durable store and loses the
    registry, the ledger and the cache of the trusted set. *)
Definition restart (w : World) : World :=
  mkWorld (set_trusted_cache None (settings w)) (db_user_settings w)
    (db_trusted_users w) (db_blocked_users w) ∅ [] (sent_rl w).

(** ** Operations of the process and the states it reaches

    A call of [check_rate_limits] is one operation whether it returns or
    raises: the state it leaves is the state of the process afterwards. *)

Inductive Op : Type :=
| OpGetUserData (now_utc uid : Z)
| OpCheckRateLimits (now_fetch now uid : Z) (command_type : string) (increment : bool)
| OpIsUserBlocked (now_fetch now uid : Z)
| OpAddTrusted (now_deny now_caller now_recon caller target : Z)
| OpRemoveTrusted (now_deny now_caller caller target : Z)
| OpBan (now_deny now_caller now_check now_ban now_target caller target : Z)
| OpUnban (now_deny now_caller now_check now_target caller target : Z)
| OpSuccessfulPayment (now_fetch now_recon now_note uid : Z)
| OpSetLanguage (now_fetch uid : Z) (value : string)
| OpSetGeminiModel (now_fetch uid : Z) (value : string)
| OpHandlerUpdate (now_fetch uid : Z) (st : BotState) (chat : option nat)
    (session_start : option Z) (history : list (string * string))
    (flux : gmap string string) (prompt_msg_id : option Z)
    (media_groups : gset string)
| OpRestart.

Definition run (o : Op) : M unit :=
  match o with
  | OpGetUserData t uid => get_user_data t uid ;;; ret tt
  | OpCheckRateLimits t0 now uid ct inc => check_rate_limits t0 now uid ct inc ;;; ret tt
  | OpIsUserBlocked t0 now uid => is_user_blocked t0 now uid ;;; ret tt
  | OpAddTrusted td t1 t2 caller target =>
      owner_only td caller (add_trusted_command_handler t1 t2 caller target)
  | OpRemoveTrusted td t1 caller target =>
      owner_only td caller (remove_trusted_command_handler t1 caller target)
  | OpBan td t1 t2 t3 t4 caller target =>
      owner_only td caller (ban_user_command_handler t1 t2 t3 t4 caller target)
  | OpUnban td t1 t2 t3 caller target =>
      owner_only td caller (unban_user_command_handler t1 t2 t3 caller target)
  | OpSuccessfulPayment t1 t2 t3 uid => success_payment_handler t1 t2 t3 uid
  | OpSetLanguage t uid v => s <~ get_user_data t uid ;; set_language uid v s ;;; ret tt
  | OpSetGeminiModel t uid v => s <~ get_user_data t uid ;; set_gemini_model uid v s ;;; ret tt
  | OpHandlerUpdate t uid st chat sst hist flux pm mg =>
      handler_session_update t uid st chat sst hist flux pm mg
  | OpRestart => modify restart
  end.

(** The state of a first start: empty tables, empty registry and ledger. *)
Definition initial (st : BotSettings) : World :=
  mkWorld (set_trusted_cache None st) ∅ ∅ ∅ ∅ [] [].

Inductive reachable : World -> Prop :=
| reachable_initial st : reachable (initial st)
| reachable_step o w : reachable w -> reachable (exec (run o) w).

Fixpoint run_all (ops : list Op) (w : World) : World :=
  match ops with
  | [] => w
  | o :: ops' => run_all ops' (exec (run o) w)
  end.

(** ** Notions used by the statements *)

(** The trusted set as [settings.TRUSTED_USERS_SET] yields it, and the
    state in which that property leaves the settings object. *)
Definition trusted_of (w : World) : gset Z := eval TRUSTED_USERS_SET w.
Definition fill_cache (w : World) : World := exec TRUSTED_USERS_SET w.

(** The trailing windows of lines 61-65 and 101-102. *)
Definition within_day (now : Z) (l : list Z) : list Z :=
  filter (fun req => now - timedelta_hours 24 < req) l.
Definition within_minute (now : Z) (l : list Z) : list Z :=
  filter (fun req => now - timedelta_minutes 1 < req) l.

(** Every session sits in the slot of its own identifier. *)
Definition slots_wf (w : World) : Prop :=
  forall uid s, user_data_store w !! uid = Some s -> user_id s = uid.

(** Every block record of the store carries a timestamp. *)
Definition db_until_set (w : World) : Prop :=
  forall uid r, db_blocked_users w !! uid = Some r -> is_Some (fst r).

(** A cached session without a block has no block record in the store. *)
Definition cache_store_agree (w : World) : Prop :=
  forall uid s, user_data_store w !! uid = Some s ->
    blocked_until_timestamp s = None -> db_blocked_users w !! uid = None.

(** A block comes with at least one violation or with the sentinel of the
    manual ban, in the registry and in the store. *)
Definition block_has_violations (w : World) : Prop :=
  (forall uid s u, user_data_store w !! uid = Some s ->
     blocked_until_timestamp s = Some u ->
     1 <= violations s \/ violations s = -1) /\
  (forall uid u v, db_blocked_users w !! uid = Some (Some u, v) ->
     1 <= v \/ v = -1).

Definition consistent (w : World) : Prop :=
  slots_wf w /\ db_until_set w /\ cache_store_agree w /\ block_has_violations w.

(** The same, slot by slot: [os] and [orec] are what the registry and the
    store hold for [uid]. *)
Definition slot_ok (uid : Z) (os : option UserData)
    (orec : option (option Z * Z)) : Prop :=
  (forall s, os = Some s ->
     user_id s = uid /\
     (blocked_until_timestamp s = None -> orec = None) /\
     (forall u, blocked_until_timestamp s = Some u ->
        1 <= violations s \/ violations s = -1)) /\
  (forall until v, orec = Some (until, v) ->
     is_Some until /\ (1 <= v \/ v = -1)).

(** A cached session that is either blocked or has no violation left. *)
Definition settled (os : option UserData) : Prop :=
  exists s, os = Some s /\
    (blocked_until_timestamp s = None -> violations s = 0).

(** The invariant carried through the operations; [tracked] names a user
    whose session is to stay [settled]. *)
Definition Inv (tracked : option Z) (w : World) : Prop :=
  consistent w /\
  forall uid, tracked = Some uid -> settled (user_data_store w !! uid).

(** Hoare triples over the state monad. *)
Definition hoare {A} (P : World -> Prop) (c : M A) (Q : A -> World -> Prop) : Prop :=
  forall w, P w -> Q (fst (c w)) (snd (c w)).

(** The pass condition of the general path, in the words of the
    specification: the three caps are not reached in their windows and the
    cooldown since the last general request has elapsed. *)
Definition general_checks_pass (st : BotSettings) (now : Z) (ledger : list Z)
    (s : UserData) : Prop :=
  Z.of_nat (length (within_day now ledger)) < Z.pos (MAX_REQUESTS_PER_DAY st) /\
  Z.of_nat (length (within_day now (requests_timestamps s)))
    < Z.pos (MAX_REQUESTS_PER_USER_PER_DAY st) /\
  Z.of_nat (length (within_minute now (requests_timestamps s)))
    < Z.pos (MAX_REQUESTS_PER_MINUTE st) /\
  (forall last, last_request_timestamp s = Some last ->
     timedelta_seconds (Z.of_N (REQUEST_COOLDOWN_SECONDS st)) <= now - last).

(** A failed quota check: one of the three caps is reached. *)
Definition quota_exceeded (st : BotSettings) (now : Z) (ledger : list Z)
    (s : UserData) : Prop :=
  Z.pos (MAX_REQUESTS_PER_DAY st) <= Z.of_nat (length (within_day now ledger)) \/
  Z.pos (MAX_REQUESTS_PER_USER_PER_DAY st)
    <= Z.of_nat (length (within_day now (requests_timestamps s))) \/
  Z.pos (MAX_REQUESTS_PER_MINUTE st)
    <= Z.of_nat (length (within_minute now (requests_timestamps s))).

(** The session after the pruning of line 62, and after the closure
    [handle_limit_violation] has run on it. *)
Definition pruned (now : Z) (s : UserData) : UserData :=
  set_requests_timestamps (within_day now (requests_timestamps s)) s.

Definition escalated (st : BotSettings) (now : Z) (s : UserData) : UserData :=
  let s1 := set_violations (violations s + 1) s in
  if decide (Z.pos (LIMIT_VIOLATIONS_BEFORE_BLOCK st) <= violations s1) then
    if decide (datetime_max
               < now + timedelta_hours (Z.pos (USER_BLOCK_DURATION_HOURS st)))
    then s1
    else
      reset_chat_histories
        (set_state NONE
           (set_blocked_until_timestamp
              (Some (now + timedelta_hours (Z.pos (USER_BLOCK_DURATION_HOURS st)))) s1))
  else s1.

(** The end of a block set at [now] is a [datetime]: the sum of line 75
    does not lie past [datetime.max]. *)
Definition block_end_representable (st : BotSettings) (now : Z) : Prop :=
  now + timedelta_hours (Z.pos (USER_BLOCK_DURATION_HOURS st)) <= datetime_max.

#[global] Instance block_end_representable_dec st now :
  Decision (block_end_representable st now) := Z.le_dec _ _.

(** The session after a passed general check. *)
Definition counted (now : Z) (increment : bool) (s : UserData) : UserData :=
  if increment then
    set_last_request_timestamp (Some now)
      (set_requests_timestamps (within_day now (requests_timestamps s) ++ [now]) s)
  else pruned now s.

(** The session after [UserData.unblock], and the session on which the
    checks of lines 50-122 run: an expired block has been cleared by then. *)
Definition cleared (s : UserData) : UserData :=
  set_violations 0 (set_blocked_until_timestamp None s).

Definition at_checks (s : UserData) : UserData :=
  match blocked_until_timestamp s with
  | Some _ => cleared s
  | None => s
  end.

(** No block is in force at [now]. *)
Definition not_blocked_at (now : Z) (s : UserData) : Prop :=
  forall u, blocked_until_timestamp s = Some u -> u <= now.

(** The session built by [get_user_data] on a cache miss. *)
Definition fresh_session (uid : Z) (p : UserPersistentSettings)
    (blocked_until : option Z) (viol : Z) : UserData :=
  mkUserData uid p NONE None [] None viol blocked_until None [] None ∅ None ∅.

(** Two worlds with the same registry and the same block records. *)
Definition same_blocks (w w' : World) : Prop :=
  user_data_store w' = user_data_store w /\
  db_blocked_users w' = db_blocked_users w.

(** The invariant, with [s] known to be the session in slot [u]. *)
Definition InvAt (tr : option Z) (u : Z) (s : UserData) (w : World) : Prop :=
  Inv tr w /\ user_data_store w !! u = Some s.

(** The operations under which a [settled] session stays so: all but a
    restart, which empties the registry, and a rate-limit check of the
    user's own, which may count a new violation. *)
Definition keeps_settled (uid : Z) (o : Op) : Prop :=
  match o with
  | OpRestart => False
  | OpCheckRateLimits _ _ u _ _ => u <> uid
  | _ => True
  end.

(** ** Concrete configurations and runs, used as instances below *)

(** The defaults of [settings_config.py], with owner 1. *)
Definition default_settings : BotSettings :=
  mkSettings "en" "gemini-2.5-flash-preview-05-20" 200 20 6 2 1 5 (Some 1) ∅ None.

(** The same, with user 7 in the configured list [TRUSTED_USERS]. *)
Definition settings_trusting_7 : BotSettings :=
  mkSettings "en" "gemini-2.5-flash-preview-05-20" 200 20 6 2 1 5 (Some 1) {[7]} None.

Definition sec (n : Z) : Z := timedelta_seconds n.

(** 199 other users have each made one general request at time 0. *)
Definition crowded_world : World :=
  run_all
    (map (fun i => OpCheckRateLimits 0 0 (Z.of_nat i) "gemini" true) (seq 100 199))
    (initial default_settings).

(** User 7 is in the configured trusted list, has a session, and the owner
    (user 1) bans it with [/ban 7]. *)
Definition banned_trusted_world : World :=
  run_all [OpGetUserData 0 7; OpBan 0 0 0 0 0 1 7] (initial settings_trusting_7).

(** User 7 makes six general requests two seconds apart and a seventh
    within the same minute, which is a per-minute violation; the owner then
    grants trust with [/addtrusted 7]. *)
Definition one_violation_world : World :=
  run_all
    (map (fun i => OpCheckRateLimits (sec (2 * i)) (sec (2 * i)) 7 "gemini" true)
         [0; 1; 2; 3; 4; 5; 6])
    (initial default_settings).

Definition trusted_after_violation_world : World :=
  exec (run (OpAddTrusted (sec 20) (sec 20) (sec 20) 1 7)) one_violation_world.

(** Under the default settings the owner bans user 7 and user 7 selects
    another language; later the operator adds 7 to [TRUSTED_USERS]. *)
Definition banned_world : World :=
  run_all [OpBan 0 0 0 0 0 1 7; OpSetLanguage (sec 1) 7 "ru"]
    (initial default_settings).

Definition banned_world_now_trusting_7 : World :=
  with_settings settings_trusting_7 banned_world.

(** User 7 makes twenty counted requests ten seconds apart (the per-user
    daily maximum), then four more attempts, each a violation. *)
Definition four_violations_world : World :=
  run_all
    (map (fun i => OpCheckRateLimits (sec i) (sec i) 7 "gemini" true)
         [0; 10; 20; 30; 40; 50; 60; 70; 80; 90; 100; 110; 120; 130; 140;
          150; 160; 170; 180; 190; 200; 201; 202; 203])
    (initial default_settings).

(** The same twenty requests and four violations under a block duration of
    10^8 hours, which no [datetime] can hold as the end of a block. *)
Definition long_block_settings : BotSettings :=
  mkSettings "en" "gemini-2.5-flash-preview-05-20" 200 20 6 2 100000000 5 (Some 1) ∅ None.

Definition four_violations_long_block_world : World :=
  run_all
    (map (fun i => OpCheckRateLimits (sec i) (sec i) 7 "gemini" true)
         [0; 10; 20; 30; 40; 50; 60; 70; 80; 90; 100; 110; 120; 130; 140;
          150; 160; 170; 180; 190; 200; 201; 202; 203])
    (initial long_block_settings).

(** The fifth violation, at second 204, blocks the user for one hour. *)
Definition blocked_over_quota_world : World :=
  exec (check_rate_limits (sec 204) (sec 204) 7 "gemini" true) four_violations_world.

(** The run of [blocked_over_quota_world], as a list of operations. *)
Definition blocked_by_escalation_world : World :=
  run_all
    (map (fun i => OpCheckRateLimits (sec i) (sec i) 7 "gemini" true)
         [0; 10; 20; 30; 40; 50; 60; 70; 80; 90; 100; 110; 120; 130; 140;
          150; 160; 170; 180; 190; 200; 201; 202; 203; 204])
    (initial default_settings).

(** ** Further methods of the session object ([user_data_manager.py], lines 73-98) *)

Definition set_session_start_timestamp (v : option Z) (s : UserData) : UserData :=
  mkUserData (user_id s) (persistent_settings s) (state s) (gemini_chat s)
    (requests_timestamps s) (last_request_timestamp s) (violations s)
    (blocked_until_timestamp s) v
    (mistral_chat_history s) (last_rate_request_timestamp s) (flux_data s)
    (custom_donation_prompt_msg_id s) (processed_media_group_ids s).

Definition set_flux_data (v : gmap string string) (s : UserData) : UserData :=
  mkUserData (user_id s) (persistent_settings s) (state s) (gemini_chat s)
    (requests_timestamps s) (last_request_timestamp s) (violations s)
    (blocked_until_timestamp s) (session_start_timestamp s)
    (mistral_chat_history s) (last_rate_request_timestamp s) v
    (custom_donation_prompt_msg_id s) (processed_media_group_ids s).

Definition set_custom_donation_prompt_msg_id (v : option Z) (s : UserData) : UserData :=
  mkUserData (user_id s) (persistent_settings s) (state s) (gemini_chat s)
    (requests_timestamps s) (last_request_timestamp s) (violations s)
    (blocked_until_timestamp s) (session_start_timestamp s)
    (mistral_chat_history s) (last_rate_request_timestamp s) (flux_data s)
    v (processed_media_group_ids s).

Definition set_processed_media_group_ids (v : gset string) (s : UserData) : UserData :=
  mkUserData (user_id s) (persistent_settings s) (state s) (gemini_chat s)
    (requests_timestamps s) (last_request_timestamp s) (violations s)
    (blocked_until_timestamp s) (session_start_timestamp s)
    (mistral_chat_history s) (last_rate_request_timestamp s) (flux_data s)
    (custom_donation_prompt_msg_id s) v.

(* UserData.clear_flux_data, lines 73-75 *)
Definition clear_flux_data (s : UserData) : UserData :=
  if decide (flux_data s = ∅) then s else set_flux_data ∅ s.

(* UserData.clear_custom_donation_prompt, lines 78-80 *)
Definition clear_custom_donation_prompt (s : UserData) : UserData :=
  match custom_donation_prompt_msg_id s with
  | Some _ => set_custom_donation_prompt_msg_id None s
  | None => s
  end.

(* UserData.reset_session_specific_data, lines 83-96; the flag [changed]
   is never read *)
Definition reset_session_specific_data (s : UserData) : UserData :=
  let s := match state s with
           | NONE => s
           | _ => set_state NONE s
           end in
  let s := reset_chat_histories s in
  let s := match session_start_timestamp s with
           | Some _ => set_session_start_timestamp None s
           | None => s
           end in
  let s := clear_flux_data s in
  let s := clear_custom_donation_prompt s in
  if decide (processed_media_group_ids s = ∅) then s
  else set_processed_media_group_ids ∅ s.

(** ** The list of active blocks ([user_data_manager.py], lines 230-261)

    [get_all_blocked_users_info_db] reads every row of [blocked_users] and
    keeps those without a timestamp or with a timestamp after the clock.  The
    result maps a user to (unblock_time, violations). *)
Definition get_all_blocked_users_info_db (now_utc : Z) : M (gmap Z (option Z * Z)) :=
  rows <~ gets (fun w => map_to_list (db_blocked_users w)) ;;
  ret (foldl
         (fun (blocked_users_info : gmap Z (option Z * Z)) row_data =>
            let '(uid, (unblock_time_utc, violations_val)) := row_data in
            match unblock_time_utc with
            | None => <[uid := (None, violations_val)]> blocked_users_info
            | Some ut =>
                if decide (now_utc < ut)
                then <[uid := (Some ut, violations_val)]> blocked_users_info
                else blocked_users_info
            end)
         ∅ rows).

(** ** Session expiry ([core.py], lines 181-209)

    [SESSION_LIFETIME_MINUTES] is the setting of that name, [now_fetch] the
    clock reading inside [get_user_data], [now_utc] the one of line 191.  The
    notice of the expiry goes out through the transport. *)
Definition check_session_expiry_core (SESSION_LIFETIME_MINUTES : positive)
    (now_fetch now_utc : Z) (uid : Z) : M bool :=
  trusted <~ TRUSTED_USERS_SET ;;
  if decide (uid ∈ trusted) then ret true else
  user_s_data <~ get_user_data now_fetch uid ;;
  match session_start_timestamp user_s_data with
  | None => ret true
  | Some session_start =>
      if decide (now_utc - session_start
                 <= timedelta_seconds (Z.pos SESSION_LIFETIME_MINUTES * 60))
      then ret true
      else
        let s := reset_chat_histories user_s_data in
        let s := set_state NONE s in
        let s := set_session_start_timestamp None s in
        store_user uid s ;;;
        ret false
  end.

(** ** The guard of the user-facing handlers ([core.py], lines 118-120, and
    [app.py], lines 68-80)

    [command_text] is the lower-cased first word of a message that starts
    with a slash, and the empty string for any other message or callback. *)
Definition ALLOWED_COMMANDS_WHEN_BLOCKED : gset string :=
  {[ "/start"; "/donate"; "/paysupport"; "/user"; "/lang" ]}.

Definition block_checked (now_fetch now : Z) (uid : Z) (command_text : string)
    (func : M unit) : M unit :=
  let is_command_allowed := bool_decide (command_text ∈ ALLOWED_COMMANDS_WHEN_BLOCKED) in
  if is_command_allowed then func else
  blocked <~ is_user_blocked now_fetch now uid ;;
  if blocked then ret tt else func.

(** ** Further notions used by the statements *)

(** A relation between the state before and after that every step of a
    computation respects. *)
Definition keeps {A} (R : World -> World -> Prop) (c : M A) : Prop :=
  forall w, R w (snd (c w)).

(** The configuration: every field of the settings object but the cache of
    the trusted set. *)
Definition same_config (st st' : BotSettings) : Prop :=
  set_trusted_cache None st' = set_trusted_cache None st.

Definition config_kept (w w' : World) : Prop :=
  same_config (settings w) (settings w').

(** The owner, as a set. *)
Definition owner_set (st : BotSettings) : gset Z :=
  match BOT_OWNER_USER_ID st with
  | Some owner_id => {[owner_id]}
  | None => ∅
  end.

(** The cache of the trusted set, when filled, is the union of the durable
    list, the configured list and the owner as they are now. *)
Definition cache_fresh (w : World) : Prop :=
  forall T, _trusted_users_set_cache (settings w) = Some T ->
    T = owner_set (settings w) ∪ (db_trusted_users w ∪ TRUSTED_USERS_ENV (settings w)).

(** The global ledger is as before. *)
Definition ledger_kept (w w' : World) : Prop :=
  total_daily_requests_rl w' = total_daily_requests_rl w.

(** The global ledger holds no more entries than the global daily maximum. *)
Definition ledger_bounded (w : World) : Prop :=
  Z.of_nat (length (total_daily_requests_rl w))
    <= Z.pos (MAX_REQUESTS_PER_DAY (settings w)).

(** The durable list of trusted users is as before. *)
Definition trust_list_kept (w w' : World) : Prop :=
  db_trusted_users w' = db_trusted_users w.

(** The trusted set in force is as before. *)
Definition trust_kept (w w' : World) : Prop :=
  trusted_of w' = trusted_of w.

(** What the registry and the store hold for [uid] is as before. *)
Definition user_kept (uid : Z) (w w' : World) : Prop :=
  user_data_store w' !! uid = user_data_store w !! uid /\
  db_blocked_users w' !! uid = db_blocked_users w !! uid /\
  db_user_settings w' !! uid = db_user_settings w !! uid.

(** An active block in the fetched session. *)
Definition blocked_at (now : Z) (s : UserData) : Prop :=
  exists u, blocked_until_timestamp s = Some u /\ now < u.

(** The session after an expiry. *)
Definition expired (s : UserData) : UserData :=
  set_session_start_timestamp None (set_state NONE (reset_chat_histories s)).

(** The permanent ban of [/ban]: a hundred years from [now_ban]. *)
Definition ban_until (now_ban : Z) : Z := now_ban + timedelta_days (365 * 100).

(** User 7 opens a chat at time 0: the handler records the session start. *)
Definition chatting_world : World :=
  run_all
    [OpHandlerUpdate 0 7 GEMINI_MODE (Some 1%nat) (Some 0) [("user", "hello")] ∅ None ∅]
    (initial default_settings).

(** Write-through of the persisted settings: every cached session sits in
    the slot of its own identifier, and its language and model are the row
    of [user_settings] for that identifier. *)
Definition written_through (w : World) : Prop :=
  forall uid s, user_data_store w !! uid = Some s ->
    user_id s = uid /\ db_user_settings w !! uid = Some (persistent_settings s).

(** The registry and the table of persisted settings are as before. *)
Definition rows_kept (w w' : World) : Prop :=
  user_data_store w' = user_data_store w /\
  db_user_settings w' = db_user_settings w.

(** The same, with [s] a session of [u] whose settings are the row of [u]. *)
Definition written_through_at (u : Z) (s : UserData) (w : World) : Prop :=
  written_through w /\ user_id s = u /\
  db_user_settings w !! u = Some (persistent_settings s).

(** The owner [o] is configured, is in the cached trusted set when that is
    filled, and is not blocked: neither in its cached session nor in the
    store. *)
Definition owner_clear (o : Z) (w : World) : Prop :=
  BOT_OWNER_USER_ID (settings w) = Some o /\
  (forall T, _trusted_users_set_cache (settings w) = Some T -> o ∈ T) /\
  (forall s, user_data_store w !! o = Some s -> blocked_until_timestamp s = None) /\
  db_blocked_users w !! o = None.


(** * Part II: properties *)

Global Arguments fill_cache : simpl never.
Global Arguments trusted_of : simpl never.

(** ** Symbolic execution of the monadic code *)

Ltac run_m :=
  cbv [bind ret gets modify get_blocked_user_info_db unblock_user_db
       block_user_db store_user _send_message_rl
       _load_user_persistent_settings_from_db
       _save_user_persistent_settings_to_db add_trusted_user_db
       remove_trusted_user_db get_all_trusted_users_db];
  cbn.

Ltac steps :=
  run_m; repeat (first [case_decide | case_match]; simplify_eq; run_m).

Ltac open_world w :=
  destruct w as [[?dl ?dm ?maxd ?maxu ?maxm ?cool ?dur ?lim ?owner ?env ?cache]
                   ?dbs ?dbt ?dbb ?store ?ledger ?sent];
  unfold trusted_of, fill_cache, eval, exec, TRUSTED_USERS_SET in *; cbn in *.

Ltac use_lookups :=
  repeat match goal with
         | H : ?m !! ?k = _ |- context [?m !! ?k] => rewrite H
         end.

Ltac slot_case x u :=
  destruct (decide (x = u)) as [->|?];
  rewrite ?lookup_insert_eq, ?lookup_delete_eq;
  rewrite ?lookup_insert_ne, ?lookup_delete_ne by done.

Ltac frame_solve :=
  cbn; use_lookups; cbn; rewrite ?lookup_insert_eq; repeat split; try done;
  intros; rewrite ?lookup_insert_ne, ?lookup_delete_ne by done; done.

(** ** The trusted set *)

Lemma TRUSTED_USERS_SET_eq w : TRUSTED_USERS_SET w = (trusted_of w, fill_cache w).
Proof. unfold trusted_of, fill_cache, eval, exec. by destruct (TRUSTED_USERS_SET w). Qed.

Lemma fill_cache_eq w :
  fill_cache w = with_settings (set_trusted_cache (Some (trusted_of w)) (settings w)) w.
Proof. open_world w. destruct cache; cbn; [done|]. by destruct owner. Qed.

Lemma TRUSTED_USERS_SET_cached w T :
  _trusted_users_set_cache (settings w) = Some T -> TRUSTED_USERS_SET w = (T, w).
Proof. intros H. open_world w. by rewrite H. Qed.

Lemma trusted_of_cached w T :
  _trusted_users_set_cache (settings w) = Some T -> trusted_of w = T.
Proof. intros H. unfold trusted_of, eval. by rewrite (TRUSTED_USERS_SET_cached _ _ H). Qed.

Lemma fill_cache_cached w T :
  _trusted_users_set_cache (settings w) = Some T -> fill_cache w = w.
Proof. intros H. unfold fill_cache, exec. by rewrite (TRUSTED_USERS_SET_cached _ _ H). Qed.

Lemma cache_fill_cache w :
  _trusted_users_set_cache (settings (fill_cache w)) = Some (trusted_of w).
Proof. rewrite fill_cache_eq. by destruct w. Qed.

Lemma trusted_of_fill_cache w : trusted_of (fill_cache w) = trusted_of w.
Proof. apply trusted_of_cached, cache_fill_cache. Qed.

Lemma fill_cache_store w : user_data_store (fill_cache w) = user_data_store w.
Proof. rewrite fill_cache_eq. by destruct w. Qed.

Lemma fill_cache_blocked w : db_blocked_users (fill_cache w) = db_blocked_users w.
Proof. rewrite fill_cache_eq. by destruct w. Qed.

Lemma fill_cache_ledger w :
  total_daily_requests_rl (fill_cache w) = total_daily_requests_rl w.
Proof. rewrite fill_cache_eq. by destruct w. Qed.

Lemma fill_cache_sent w : sent_rl (fill_cache w) = sent_rl w.
Proof. rewrite fill_cache_eq. by destruct w. Qed.

(** With an empty cache the trusted set is the union of its three sources. *)
Lemma trusted_of_uncached w uid :
  _trusted_users_set_cache (settings w) = None ->
  uid ∈ trusted_of w <->
    uid ∈ db_trusted_users w \/ uid ∈ TRUSTED_USERS_ENV (settings w)
    \/ BOT_OWNER_USER_ID (settings w) = Some uid.
Proof.
  intros H. open_world w. rewrite H. cbn.
  destruct owner as [o|]; rewrite ?elem_of_union, ?elem_of_singleton;
    intuition congruence.
Qed.

(** ** The registry fetch *)

Lemma get_user_data_cached_untrusted t uid w s :
  user_data_store w !! uid = Some s -> uid ∉ trusted_of w ->
  get_user_data t uid w = (s, fill_cache w).
Proof.
  intros Hs Hn. unfold get_user_data, bind at 1, gets at 1. rewrite Hs.
  unfold bind at 1. rewrite TRUSTED_USERS_SET_eq.
  unfold check_and_unblock_if_trusted. rewrite decide_True by done.
  cbn. unfold gets. by rewrite fill_cache_store, Hs.
Qed.

(** What a fetch leaves alone, whatever the path taken. *)
Lemma get_user_data_frame t uid w s w0 :
  get_user_data t uid w = (s, w0) ->
  user_data_store w0 !! uid = Some s /\
  settings w0 = set_trusted_cache (Some (trusted_of w)) (settings w) /\
  total_daily_requests_rl w0 = total_daily_requests_rl w /\
  sent_rl w0 = sent_rl w /\
  db_trusted_users w0 = db_trusted_users w /\
  (forall u, u <> uid -> user_data_store w0 !! u = user_data_store w !! u) /\
  (forall u, u <> uid -> db_blocked_users w0 !! u = db_blocked_users w !! u) /\
  (forall u, u <> uid -> db_user_settings w0 !! u = db_user_settings w !! u).
Proof.
  unfold get_user_data, check_and_unblock_if_trusted.
  open_world w; steps; intros [= <- <-]; frame_solve.
Qed.

Lemma get_user_data_trusted_of t uid w s w0 :
  get_user_data t uid w = (s, w0) ->
  trusted_of w0 = trusted_of w /\ TRUSTED_USERS_SET w0 = (trusted_of w, w0).
Proof.
  intros H. apply get_user_data_frame in H as (_ & Hst & _).
  assert (Hc : _trusted_users_set_cache (settings w0) = Some (trusted_of w)).
  { rewrite Hst. by destruct (settings w). }
  split; [by apply trusted_of_cached | by apply TRUSTED_USERS_SET_cached].
Qed.

(** ** The rate limiter, for a user who is not trusted *)

(** After the fetch and the trust test, the check depends on the block of
    the fetched session only. *)
Lemma check_rate_limits_untrusted t0 now uid ct inc w s w0 :
  get_user_data t0 uid w = (s, w0) ->
  uid ∉ trusted_of w ->
  check_rate_limits t0 now uid ct inc w =
    let continue (s : UserData) : M (Outcome bool) :=
      if decide (ct = "rate") then check_rate_command now uid s
      else check_general now uid inc s in
    match blocked_until_timestamp s with
    | Some blocked_until =>
        if decide (now < blocked_until) then (Returns false, w0)
        else (s' <~ unblock uid s ;; continue s') w0
    | None => continue s w0
    end.
Proof.
  intros Hg Hn. unfold check_rate_limits, bind at 1. rewrite Hg.
  unfold bind at 1.
  rewrite (proj2 (get_user_data_trusted_of _ _ _ _ _ Hg)).
  rewrite decide_False by (intros ?; done).
  cbv zeta. destruct (blocked_until_timestamp s); [|done].
  by case_decide.
Qed.

Lemma check_rate_limits_trusted t0 now uid ct inc w :
  uid ∈ trusted_of w ->
  check_rate_limits t0 now uid ct inc w = (Returns true, snd (get_user_data t0 uid w)).
Proof.
  intros Hn. unfold check_rate_limits, bind at 1.
  destruct (get_user_data t0 uid w) as [s w0] eqn:Hg.
  unfold bind at 1.
  rewrite (proj2 (get_user_data_trusted_of _ _ _ _ _ Hg)).
  by rewrite decide_True.
Qed.

(** ** Windows *)

Lemma elem_of_within_day now l t :
  t ∈ within_day now l <-> now - timedelta_hours 24 < t /\ t ∈ l.
Proof. unfold within_day. apply list_elem_of_filter. Qed.

Lemma elem_of_within_minute now l t :
  t ∈ within_minute now l <-> now - timedelta_minutes 1 < t /\ t ∈ l.
Proof. unfold within_minute. apply list_elem_of_filter. Qed.

(** Counting the last minute in the pruned list or in the list as it was
    gives the same number: the minute lies inside the day. *)
Lemma within_minute_within_day now l :
  within_minute now (within_day now l) = within_minute now l.
Proof.
  unfold within_minute, within_day.
  induction l as [|x l IH]; [done|].
  rewrite !filter_cons. repeat case_decide; rewrite ?filter_cons;
    repeat case_decide; try (by f_equal); try done.
  unfold timedelta_minutes, timedelta_hours, usec_per_second in *. lia.
Qed.

Lemma within_day_idem now l : within_day now (within_day now l) = within_day now l.
Proof.
  unfold within_day. induction l as [|x l IH]; [done|].
  rewrite filter_cons. case_decide; [|done].
  rewrite filter_cons, decide_True by done. by f_equal.
Qed.

(** ** The closure [handle_limit_violation] *)

Lemma handle_limit_violation_spec now uid s key w :
  let st := settings w in
  let s' := escalated st now s in
  let reached := bool_decide (Z.pos (LIMIT_VIOLATIONS_BEFORE_BLOCK st) <= violations s + 1) in
  let fits := bool_decide (block_end_representable st now) in
  let hit := reached && fits in
  let r := handle_limit_violation now uid s key w in
  fst r = (if reached && negb fits
           then OverflowError else Returns (hit, s')) /\
  user_data_store (snd r) !! uid = Some s' /\
  (forall u, u <> uid -> user_data_store (snd r) !! u = user_data_store w !! u) /\
  db_blocked_users (snd r) =
    (if hit
     then <[uid := (Some (now + timedelta_hours (Z.pos (USER_BLOCK_DURATION_HOURS st))),
                    violations s + 1)]> (db_blocked_users w)
     else db_blocked_users w) /\
  sent_rl (snd r) =
    sent_rl w ++ (uid, key) :: (if hit then [(uid, "user_blocked")] else []) /\
  total_daily_requests_rl (snd r) = total_daily_requests_rl w /\
  settings (snd r) = settings w.
Proof.
  unfold handle_limit_violation, escalated, block_end_representable.
  destruct w. steps.
  all: repeat case_bool_decide; try lia; cbn.
  all: rewrite <- ?app_assoc; frame_solve.
Qed.

(** ** The general path and the "rate" command, from a given session *)

Ltac check_case :=
  repeat split; rewrite ?lookup_insert_eq, <- ?app_assoc, ?app_nil_r; cbn;
  try done; try lia;
  try (intros; simplify_eq; lia);
  try (intros [?|[?|?]]; lia);
  try (eexists; split; [|done]; rewrite !elem_of_cons; tauto);
  try (eexists; split; [done|lia]).

Lemma check_general_spec now uid inc s w :
  let st := settings w in
  let ledger := total_daily_requests_rl w in
  let reached := bool_decide (Z.pos (LIMIT_VIOLATIONS_BEFORE_BLOCK st) <= violations s + 1) in
  let fits := bool_decide (block_end_representable st now) in
  let hit := reached && fits in
  let r := check_general now uid inc s w in
  (forall u, u <> uid -> user_data_store (snd r) !! u = user_data_store w !! u) /\
  settings (snd r) = settings w /\
  db_user_settings (snd r) = db_user_settings w /\
  ((general_checks_pass st now ledger s /\
    fst r = Returns true /\
    user_data_store (snd r) !! uid = Some (counted now inc s) /\
    total_daily_requests_rl (snd r)
      = within_day now ledger ++ (if inc then [now] else []) /\
    db_blocked_users (snd r) = db_blocked_users w /\
    sent_rl (snd r) = sent_rl w)
   \/
   (quota_exceeded st now ledger s /\
    fst r = (if reached && negb fits
             then OverflowError else Returns false) /\
    user_data_store (snd r) !! uid = Some (escalated st now (pruned now s)) /\
    total_daily_requests_rl (snd r) = within_day now ledger /\
    db_blocked_users (snd r) =
      (if hit
       then <[uid := (Some (now + timedelta_hours (Z.pos (USER_BLOCK_DURATION_HOURS st))),
                      violations s + 1)]> (db_blocked_users w)
       else db_blocked_users w) /\
    exists key,
      key ∈ ["rate_limit_total_daily"; "rate_limit_daily"; "rate_limit_minute"] /\
      sent_rl (snd r) =
        sent_rl w ++ (uid, key) :: (if hit then [(uid, "user_blocked")] else []))
   \/
   (~ quota_exceeded st now ledger s /\
    (exists last, last_request_timestamp s = Some last /\
       now - last < timedelta_seconds (Z.of_N (REQUEST_COOLDOWN_SECONDS st))) /\
    fst r = Returns false /\
    user_data_store (snd r) !! uid = Some (pruned now s) /\
    total_daily_requests_rl (snd r) = within_day now ledger /\
    db_blocked_users (snd r) = db_blocked_users w /\
    sent_rl (snd r) = sent_rl w ++ [(uid, "rate_limit_cooldown")])).
Proof.
  unfold check_general, handle_limit_violation, refuse.
  pose proof (within_minute_within_day now (requests_timestamps s)) as Hm.
  unfold general_checks_pass, quota_exceeded, escalated, counted, pruned,
    block_end_representable in *.
  unfold within_minute, within_day in *.
  destruct w as [st dbs dbt dbb store ledger sent]. cbn.
  rewrite Hm. clear Hm. destruct inc.
  all: steps.
  all: repeat case_bool_decide; try lia; cbn.
  all: (split; [intros; rewrite !lookup_insert_ne by done; done|]).
  all: (split; [done|]); (split; [done|]).
  all: first
    [ left; solve [check_case]
    | right; left; solve [check_case]
    | right; right; solve [check_case] ].
Qed.

Lemma check_rate_command_spec now uid s w :
  let r := check_rate_command now uid s w in
  let refused := exists last, last_rate_request_timestamp s = Some last /\
                   now - last < timedelta_seconds 60 in
  (forall u, u <> uid -> user_data_store (snd r) !! u = user_data_store w !! u) /\
  settings (snd r) = settings w /\
  db_user_settings (snd r) = db_user_settings w /\
  db_blocked_users (snd r) = db_blocked_users w /\
  total_daily_requests_rl (snd r) = total_daily_requests_rl w /\
  ((refused /\ fst r = Returns false /\ user_data_store (snd r) = user_data_store w /\
    sent_rl (snd r) = sent_rl w ++ [(uid, "rate_limit_minute")])
   \/
   (~ refused /\ fst r = Returns true /\
    user_data_store (snd r) !! uid = Some (set_last_rate_request_timestamp (Some now) s) /\
    sent_rl (snd r) = sent_rl w)).
Proof.
  unfold check_rate_command. destruct w. steps.
  all: (split; [intros; rewrite ?lookup_insert_ne by done; done|]).
  all: repeat (split; [done|]).
  - left. repeat split; eauto.
  - right. rewrite lookup_insert_eq. repeat split; try done.
    intros (l & ? & ?). simplify_eq. lia.
  - right. rewrite lookup_insert_eq. repeat split; try done.
    intros (l & ? & ?). simplify_eq.
Qed.

Lemma unblock_spec slot s w :
  let r := unblock slot s w in
  fst r = cleared s /\
  user_data_store (snd r) = <[slot := cleared s]> (user_data_store w) /\
  db_blocked_users (snd r) = delete (user_id s) (db_blocked_users w) /\
  settings (snd r) = settings w /\
  total_daily_requests_rl (snd r) = total_daily_requests_rl w /\
  sent_rl (snd r) = sent_rl w /\
  db_user_settings (snd r) = db_user_settings w.
Proof. unfold unblock, cleared. destruct w. by steps. Qed.

(** The world in which the checks of lines 50-122 start. *)
Lemma check_rate_limits_at_checks t0 now uid ct inc w s w0 :
  get_user_data t0 uid w = (s, w0) ->
  uid ∉ trusted_of w ->
  not_blocked_at now s ->
  exists w1,
    check_rate_limits t0 now uid ct inc w =
      (if decide (ct = "rate") then check_rate_command now uid (at_checks s) w1
       else check_general now uid inc (at_checks s) w1) /\
    user_data_store w1 !! uid = Some (at_checks s) /\
    (forall u, u <> uid -> user_data_store w1 !! u = user_data_store w0 !! u) /\
    db_blocked_users w1 =
      match blocked_until_timestamp s with
      | Some _ => delete (user_id s) (db_blocked_users w0)
      | None => db_blocked_users w0
      end /\
    settings w1 = settings w0 /\
    total_daily_requests_rl w1 = total_daily_requests_rl w /\
    sent_rl w1 = sent_rl w /\
    db_user_settings w1 = db_user_settings w0.
Proof.
  intros Hg Hn Hb.
  rewrite (check_rate_limits_untrusted _ _ _ _ _ _ _ _ Hg Hn). cbv zeta.
  destruct (get_user_data_frame _ _ _ _ _ Hg) as (Hs & _ & Hl & Hm & _).
  unfold at_checks. destruct (blocked_until_timestamp s) as [bu|] eqn:Hbu.
  - rewrite decide_False by (specialize (Hb bu Hbu); lia).
    destruct (unblock_spec uid s w0) as (Hr & Hst & Hdb & Hse & Hle & Hsn & Hus).
    unfold bind at 1. destruct (unblock uid s w0) as [s' w1].
    cbn [fst snd] in Hr, Hst, Hdb, Hse, Hle, Hsn, Hus |- *. subst s'.
    exists w1. rewrite Hst, lookup_insert_eq.
    split; [by case_decide|]. split; [done|].
    split; [intros u Hu; by rewrite lookup_insert_ne|].
    repeat split; congruence.
  - exists w0. split; [by case_decide|]. repeat split; try done.
Qed.

(** The limits do not depend on the cache of the trusted set. *)
Lemma general_checks_pass_cache c st now ledger s :
  general_checks_pass (set_trusted_cache c st) now ledger s
  <-> general_checks_pass st now ledger s.
Proof. done. Qed.

Lemma quota_exceeded_cache c st now ledger s :
  quota_exceeded (set_trusted_cache c st) now ledger s
  <-> quota_exceeded st now ledger s.
Proof. done. Qed.

Lemma escalated_cache c st now s :
  escalated (set_trusted_cache c st) now s = escalated st now s.
Proof. done. Qed.

Lemma pass_excludes_quota st now ledger s :
  general_checks_pass st now ledger s -> ~ quota_exceeded st now ledger s.
Proof. unfold general_checks_pass, quota_exceeded. lia. Qed.

(** The general path of [check_rate_limits], for a user who is not trusted
    and not under a block at [now]: the three outcomes, with the world each
    leaves.  [s] is the session the fetch yields. *)
Lemma check_rate_limits_general t0 now uid ct inc w s w0 :
  get_user_data t0 uid w = (s, w0) ->
  uid ∉ trusted_of w ->
  ct <> "rate" ->
  not_blocked_at now s ->
  let st := settings w in
  let ledger := total_daily_requests_rl w in
  let s1 := at_checks s in
  let reached := bool_decide (Z.pos (LIMIT_VIOLATIONS_BEFORE_BLOCK st) <= violations s1 + 1) in
  let fits := bool_decide (block_end_representable st now) in
  let hit := reached && fits in
  let db1 := match blocked_until_timestamp s with
             | Some _ => delete (user_id s) (db_blocked_users w0)
             | None => db_blocked_users w0
             end in
  let r := eval (check_rate_limits t0 now uid ct inc) w in
  let w' := exec (check_rate_limits t0 now uid ct inc) w in
  (forall u, u <> uid -> user_data_store w' !! u = user_data_store w0 !! u) /\
  settings w' = settings w0 /\
  db_user_settings w' = db_user_settings w0 /\
  ((general_checks_pass st now ledger s /\
    r = Returns true /\
    user_data_store w' !! uid = Some (counted now inc s1) /\
    total_daily_requests_rl w' = within_day now ledger ++ (if inc then [now] else []) /\
    db_blocked_users w' = db1 /\
    sent_rl w' = sent_rl w)
   \/
   (quota_exceeded st now ledger s /\
    r = (if reached && negb fits
         then OverflowError else Returns false) /\
    user_data_store w' !! uid = Some (escalated st now (pruned now s1)) /\
    total_daily_requests_rl w' = within_day now ledger /\
    db_blocked_users w' =
      (if hit
       then <[uid := (Some (now + timedelta_hours (Z.pos (USER_BLOCK_DURATION_HOURS st))),
                      violations s1 + 1)]> db1
       else db1) /\
    exists key,
      key ∈ ["rate_limit_total_daily"; "rate_limit_daily"; "rate_limit_minute"] /\
      sent_rl w' =
        sent_rl w ++ (uid, key) :: (if hit then [(uid, "user_blocked")] else []))
   \/
   (~ quota_exceeded st now ledger s /\
    (exists last, last_request_timestamp s = Some last /\
       now - last < timedelta_seconds (Z.of_N (REQUEST_COOLDOWN_SECONDS st))) /\
    r = Returns false /\
    user_data_store w' !! uid = Some (pruned now s1) /\
    total_daily_requests_rl w' = within_day now ledger /\
    db_blocked_users w' = db1 /\
    sent_rl w' = sent_rl w ++ [(uid, "rate_limit_cooldown")])).
Proof.
  intros Hg Hn Hct Hnb st ledger s1 reached fits hit db1 r w'. subst r w'. unfold eval, exec.
  destruct (check_rate_limits_at_checks _ now _ ct inc _ _ _ Hg Hn Hnb)
    as (w1 & -> & Hs1 & Hfr & Hdb & Hset & Hl & Hsn & Hus).
  rewrite decide_False by done.
  destruct (get_user_data_frame _ _ _ _ _ Hg) as (_ & Hst0 & _).
  assert (Hst1 : settings w1 = set_trusted_cache (Some (trusted_of w)) st)
    by (rewrite Hset; exact Hst0).
  pose proof (check_general_spec now uid inc (at_checks s) w1) as H.
  cbv zeta in H. rewrite Hst1, Hl, Hsn, Hdb in H.
  assert (Hreq : requests_timestamps (at_checks s) = requests_timestamps s)
    by (unfold at_checks; by destruct (blocked_until_timestamp s)).
  assert (Hlast : last_request_timestamp (at_checks s) = last_request_timestamp s)
    by (unfold at_checks; by destruct (blocked_until_timestamp s)).
  unfold general_checks_pass, quota_exceeded in *.
  cbn [MAX_REQUESTS_PER_DAY MAX_REQUESTS_PER_USER_PER_DAY MAX_REQUESTS_PER_MINUTE
       REQUEST_COOLDOWN_SECONDS LIMIT_VIOLATIONS_BEFORE_BLOCK
       USER_BLOCK_DURATION_HOURS set_trusted_cache] in H.
  rewrite Hreq, Hlast in H. rewrite escalated_cache in H.
  destruct H as (H1 & H2 & H3 & H4).
  split; [intros u Hu; rewrite H1 by done; by apply Hfr|].
  split; [congruence|]. split; [congruence|]. exact H4.
Qed.

(** ** Fields of the derived sessions *)

Lemma reset_chat_histories_fields s :
  let s' := reset_chat_histories s in
  user_id s' = user_id s /\
  persistent_settings s' = persistent_settings s /\
  state s' = state s /\
  requests_timestamps s' = requests_timestamps s /\
  last_request_timestamp s' = last_request_timestamp s /\
  last_rate_request_timestamp s' = last_rate_request_timestamp s /\
  violations s' = violations s /\
  blocked_until_timestamp s' = blocked_until_timestamp s /\
  gemini_chat s' = None /\
  mistral_chat_history s' = [].
Proof. unfold reset_chat_histories. cbn. by case_match. Qed.

Lemma escalated_fields st now s :
  let s' := escalated st now s in
  user_id s' = user_id s /\
  persistent_settings s' = persistent_settings s /\
  requests_timestamps s' = requests_timestamps s /\
  last_request_timestamp s' = last_request_timestamp s /\
  last_rate_request_timestamp s' = last_rate_request_timestamp s /\
  violations s' = violations s + 1.
Proof.
  unfold escalated. cbn. case_decide; [|done]. case_decide; [done|].
  destruct (reset_chat_histories_fields
    (set_state NONE
       (set_blocked_until_timestamp
          (Some (now + timedelta_hours (Z.pos (USER_BLOCK_DURATION_HOURS st))))
          (set_violations (violations s + 1) s))))
    as (-> & -> & _ & -> & -> & -> & -> & _). done.
Qed.

Lemma escalated_block st now s :
  blocked_until_timestamp s = None ->
  let s' := escalated st now s in
  if decide (Z.pos (LIMIT_VIOLATIONS_BEFORE_BLOCK st) <= violations s + 1 /\
             block_end_representable st now)
  then blocked_until_timestamp s' =
         Some (now + timedelta_hours (Z.pos (USER_BLOCK_DURATION_HOURS st))) /\
       state s' = NONE /\ gemini_chat s' = None /\ mistral_chat_history s' = []
  else blocked_until_timestamp s' = None /\ state s' = state s /\
       gemini_chat s' = gemini_chat s /\
       mistral_chat_history s' = mistral_chat_history s.
Proof.
  intros Hb. unfold escalated, block_end_representable. cbn.
  repeat case_decide; try lia; try done.
  destruct (reset_chat_histories_fields
    (set_state NONE
       (set_blocked_until_timestamp
          (Some (now + timedelta_hours (Z.pos (USER_BLOCK_DURATION_HOURS st))))
          (set_violations (violations s + 1) s))))
    as (_ & _ & -> & _ & _ & _ & _ & -> & -> & ->). done.
Qed.

Lemma at_checks_fields s :
  user_id (at_checks s) = user_id s /\
  persistent_settings (at_checks s) = persistent_settings s /\
  requests_timestamps (at_checks s) = requests_timestamps s /\
  last_request_timestamp (at_checks s) = last_request_timestamp s /\
  last_rate_request_timestamp (at_checks s) = last_rate_request_timestamp s /\
  blocked_until_timestamp (at_checks s) = None /\
  violations (at_checks s) =
    match blocked_until_timestamp s with Some _ => 0 | None => violations s end.
Proof. unfold at_checks. by destruct (blocked_until_timestamp s) eqn:E. Qed.

Lemma escalated_hit st now s :
  Z.pos (LIMIT_VIOLATIONS_BEFORE_BLOCK st) <= violations s + 1 ->
  block_end_representable st now ->
  let s' := escalated st now s in
  blocked_until_timestamp s' =
    Some (now + timedelta_hours (Z.pos (USER_BLOCK_DURATION_HOURS st))) /\
  state s' = NONE /\ gemini_chat s' = None /\ mistral_chat_history s' = [].
Proof.
  intros Hl Hf. unfold escalated. cbn. rewrite decide_True by done.
  rewrite decide_False by (unfold block_end_representable in Hf; lia).
  destruct (reset_chat_histories_fields
    (set_state NONE
       (set_blocked_until_timestamp
          (Some (now + timedelta_hours (Z.pos (USER_BLOCK_DURATION_HOURS st))))
          (set_violations (violations s + 1) s))))
    as (_ & _ & -> & _ & _ & _ & _ & -> & -> & ->). done.
Qed.

Lemma escalated_miss st now s :
  ~ Z.pos (LIMIT_VIOLATIONS_BEFORE_BLOCK st) <= violations s + 1 ->
  escalated st now s = set_violations (violations s + 1) s.
Proof. intros Hl. unfold escalated. cbn. by rewrite decide_False. Qed.

Lemma escalated_overflow st now s :
  ~ block_end_representable st now ->
  escalated st now s = set_violations (violations s + 1) s.
Proof.
  intros Hf. unfold escalated, block_end_representable in *. cbn.
  repeat case_decide; try done; lia.
Qed.

(** ** The fetch for a trusted user *)

Lemma get_user_data_trusted t uid w :
  uid ∈ trusted_of w ->
  let s := eval (get_user_data t uid) w in
  let w' := exec (get_user_data t uid) w in
  match user_data_store w !! uid with
  | Some s0 =>
      s = at_checks s0 /\
      match blocked_until_timestamp s0 with
      | Some _ => db_blocked_users w' !! uid = None
      | None =>
          db_blocked_users w' !! uid = None \/
          (exists ut v, db_blocked_users w !! uid = Some (Some ut, v) /\
             ut <= t /\ db_blocked_users w' !! uid = Some (Some ut, v))
      end
  | None =>
      (exists p, s = fresh_session uid p None 0) /\
      db_blocked_users w' !! uid = None
  end.
Proof.
  intros Ht. unfold get_user_data, check_and_unblock_if_trusted, at_checks, cleared.
  open_world w; steps;
    cbv [bind ret gets modify get_all_trusted_users_db] in Ht; cbn in Ht;
    try done;
    rewrite ?lookup_insert_eq, ?lookup_delete_eq; use_lookups; cbn;
    try solve [repeat split; eauto | split; [done|]; right; eauto with lia].
Qed.

(** ** Hoare rules *)

Lemma hoare_bind {A B} (P : World -> Prop) (Q : A -> World -> Prop)
    (R : B -> World -> Prop) (c : M A) (k : A -> M B) :
  hoare P c Q -> (forall a, hoare (Q a) (k a) R) -> hoare P (bind c k) R.
Proof.
  intros Hc Hk w HP. unfold bind. specialize (Hc w HP).
  destruct (c w) as [a w1]. by apply Hk.
Qed.

Lemma hoare_ret {A} (P : World -> Prop) (Q : A -> World -> Prop) (a : A) :
  (forall w, P w -> Q a w) -> hoare P (ret a) Q.
Proof. intros H w HP. by apply H. Qed.

Lemma hoare_weaken {A} (P P' : World -> Prop) (Q Q' : A -> World -> Prop) (c : M A) :
  hoare P' c Q' -> (forall w, P w -> P' w) -> (forall a w, Q' a w -> Q a w) ->
  hoare P c Q.
Proof. intros H HP HQ w Hw. apply HQ, H, HP, Hw. Qed.

Lemma hoare_gets {A} (P : World -> Prop) (f : World -> A) :
  hoare P (gets f) (fun a w => P w /\ a = f w).
Proof. by intros w HP. Qed.

Lemma hoare_false {A} (c : M A) (Q : A -> World -> Prop) :
  hoare (fun _ => False) c Q.
Proof. by intros w []. Qed.

(** ** The invariant, slot by slot *)

Lemma consistent_pointwise w :
  consistent w <->
  forall uid, slot_ok uid (user_data_store w !! uid) (db_blocked_users w !! uid).
Proof.
  unfold consistent, slots_wf, db_until_set, cache_store_agree,
    block_has_violations, slot_ok. split.
  - intros (Hw & Hu & Ha & Hb1 & Hb2) uid. split.
    + intros s Hs. eauto 6.
    + intros bu v Hr. split; [apply (Hu _ _ Hr)|].
      destruct (Hu _ _ Hr) as [u Hu']. cbn in Hu'. subst. eauto.
  - intros H. repeat split.
    + intros uid s Hs. by apply (proj1 (H uid)).
    + intros uid [bu v] Hr. by apply (proj2 (H uid) bu v).
    + intros uid s Hs. by apply (proj1 (H uid)).
    + intros uid s u Hs. by apply (proj1 (H uid)).
    + intros uid u v Hr. by apply (proj2 (H uid) (Some u) v).
Qed.

(** The invariant reads the registry and the block records only. *)

Lemma Inv_same_blocks tr w w' : same_blocks w w' -> Inv tr w -> Inv tr w'.
Proof.
  intros [Hs Hd] [Hc Ht]. split.
  - apply consistent_pointwise. intros uid. rewrite Hs, Hd.
    by apply consistent_pointwise.
  - intros uid E. rewrite Hs. by apply Ht.
Qed.

Lemma hoare_same_blocks {A} tr (c : M A) (R : World -> Prop) :
  (forall w, same_blocks w (snd (c w))) ->
  (forall w w', same_blocks w w' -> R w -> R w') ->
  hoare (fun w => Inv tr w /\ R w) c (fun _ w => Inv tr w /\ R w).
Proof.
  intros Hc HR w [HI HRw]. split.
  - eapply Inv_same_blocks; [apply Hc|done].
  - eapply HR; [apply Hc|done].
Qed.

Lemma TRUSTED_USERS_SET_same_blocks w : same_blocks w (snd (TRUSTED_USERS_SET w)).
Proof. rewrite TRUSTED_USERS_SET_eq. split; [apply fill_cache_store|apply fill_cache_blocked]. Qed.

Lemma lookup_same_blocks u (s : UserData) w w' :
  same_blocks w w' -> user_data_store w !! u = Some s -> user_data_store w' !! u = Some s.
Proof. intros [-> _]. done. Qed.

(** ** Leaves: functions that keep the invariant *)

Ltac inv_solve u Hc Ht :=
  first
  [ apply consistent_pointwise; cbn; intros ?x;
    match goal with |- slot_ok ?x _ _ =>
      slot_case x u;
      [ pose proof (Hc u); unfold slot_ok in *; cbn; naive_solver | apply Hc ] end
  | let x := fresh "x" in let Hx := fresh "Hx" in
    intros x ->; cbn; pose proof (Ht x eq_refl) as Hx; unfold settled in *;
    slot_case x u; cbn; naive_solver
  | cbn; rewrite ?lookup_insert_eq; use_lookups; done ].

Ltac inv_intro w Hc Ht :=
  let Hp := fresh in
  intros w [Hc Ht];
  pose proof (proj1 (consistent_pointwise w) Hc) as Hp; clear Hc; rename Hp into Hc.

Lemma get_user_data_inv tr t u :
  hoare (Inv tr) (get_user_data t u)
    (fun s w => Inv tr w /\ user_data_store w !! u = Some s).
Proof.
  inv_intro w Hc Ht.
  unfold get_user_data, check_and_unblock_if_trusted.
  open_world w; steps.
  all: (split; [split|]).
  all: solve [inv_solve u Hc Ht].
Qed.

Lemma check_and_unblock_if_trusted_inv tr t u T :
  hoare (Inv tr) (check_and_unblock_if_trusted t u T) (fun _ => Inv tr).
Proof.
  inv_intro w Hc Ht.
  unfold check_and_unblock_if_trusted.
  destruct w; steps.
  all: split.
  all: solve [inv_solve u Hc Ht].
Qed.


Ltac invat_intro w Hc Ht Hs :=
  let Hp := fresh in
  intros w [[Hc Ht] Hs];
  pose proof (proj1 (consistent_pointwise w) Hc) as Hp; clear Hc; rename Hp into Hc.

Lemma InvAt_user_id tr u s w : InvAt tr u s w -> user_id s = u.
Proof.
  intros [[Hc _] Hs]. pose proof (proj1 (consistent_pointwise w) Hc u) as Hu.
  rewrite Hs in Hu. by apply Hu.
Qed.

Lemma unblock_inv tr u s :
  hoare (InvAt tr u s) (unblock u s)
    (fun s' w => InvAt tr u s' w /\ blocked_until_timestamp s' = None).
Proof.
  intros w H. pose proof (InvAt_user_id _ _ _ _ H) as Hid. revert w H.
  invat_intro w Hc Ht Hs. unfold unblock.
  destruct w; steps. cbn in Hs. rewrite Hid.
  split; [split; [split|]|done].
  all: solve [inv_solve u Hc Ht].
Qed.

Lemma unblock_user_db_inv tr u :
  hoare (Inv tr) (unblock_user_db u) (fun _ => Inv tr).
Proof.
  inv_intro w Hc Ht. destruct w; steps. split.
  all: solve [inv_solve u Hc Ht].
Qed.

Lemma check_rate_command_inv tr now u s :
  hoare (InvAt tr u s) (check_rate_command now u s) (fun _ => Inv tr).
Proof.
  invat_intro w Hc Ht Hs. unfold check_rate_command.
  destruct w; steps; cbn in Hs. all: split.
  all: solve [inv_solve u Hc Ht].
Qed.

(** The invariant after a change confined to slot [u]. *)
Lemma Inv_update_slot tr u w w' :
  Inv tr w ->
  (forall x, x <> u ->
     user_data_store w' !! x = user_data_store w !! x /\
     db_blocked_users w' !! x = db_blocked_users w !! x) ->
  slot_ok u (user_data_store w' !! u) (db_blocked_users w' !! u) ->
  (tr = Some u -> settled (user_data_store w' !! u)) ->
  Inv tr w'.
Proof.
  intros [Hc Ht] Hfr Hu Hs. split.
  - apply consistent_pointwise. intros x. destruct (decide (x = u)) as [->|Hx]; [done|].
    destruct (Hfr x Hx) as [-> ->]. by apply consistent_pointwise.
  - intros x ->. destruct (decide (x = u)) as [->|Hx]; [by apply Hs|].
    destruct (Hfr x Hx) as [-> _]. by apply Ht.
Qed.

Lemma InvAt_slot tr u s w :
  InvAt tr u s w ->
  user_id s = u /\
  (blocked_until_timestamp s = None -> db_blocked_users w !! u = None) /\
  (forall b, blocked_until_timestamp s = Some b ->
     1 <= violations s \/ violations s = -1).
Proof.
  intros [[Hc _] Hs]. pose proof (proj1 (consistent_pointwise w) Hc u) as Hu.
  rewrite Hs in Hu. by apply Hu.
Qed.

Lemma check_general_inv tr now u inc s :
  tr <> Some u ->
  blocked_until_timestamp s = None ->
  hoare (InvAt tr u s) (check_general now u inc s) (fun _ => Inv tr).
Proof.
  intros Htr Hb w H.
  destruct (InvAt_slot _ _ _ _ H) as (Hid & Hdb & _). specialize (Hdb Hb).
  destruct H as [HI Hs].
  destruct (check_general_spec now u inc s w) as (Hfr & _ & _ & Hcase).
  set (r := check_general now u inc s w) in *. cbv beta.
  assert (Hgoal : forall s',
    user_data_store r.2 !! u = Some s' -> user_id s' = u ->
    (blocked_until_timestamp s' = None /\ db_blocked_users r.2 !! u = None) \/
    (exists b, blocked_until_timestamp s' = Some b /\ 1 <= violations s' /\
       db_blocked_users r.2 !! u = Some (Some b, violations s')) ->
    (forall x, x <> u -> db_blocked_users r.2 !! x = db_blocked_users w !! x) ->
    Inv tr r.2).
  { intros s' Hs' Hid' Hblk Hdbfr.
    apply (Inv_update_slot tr u w); [done| |..].
    - intros x Hx. split; [by apply Hfr|by apply Hdbfr].
    - rewrite Hs'. split.
      + intros ? [= <-]. split; [done|].
        destruct Hblk as [[Hn Hd]|(b & Hbb & Hv & Hd)].
        * split; [done|]. intros b E. congruence.
        * split; [intros E; congruence|]. intros b' _. by left.
      + intros bu v E. destruct Hblk as [[Hn Hd]|(b & Hbb & Hv & Hd)];
          [congruence|]. rewrite Hd in E. injection E as <- <-. split; [eauto|by left].
    - intros E. congruence. }
  destruct Hcase as [(_ & _ & Hst & _ & Hd & _) | [(_ & _ & Hst & _ & Hd & _)
                    | (_ & _ & _ & Hst & _ & Hd & _)]].
  - apply (Hgoal _ Hst).
    + unfold counted, pruned. by destruct inc.
    + left. rewrite Hd. split; [|done]. unfold counted, pruned. by destruct inc.
    + intros x Hx. by rewrite Hd.
  - destruct (escalated_fields (settings w) now (pruned now s))
      as (Hid' & _ & _ & _ & _ & Hv).
    apply (Hgoal _ Hst); [by rewrite Hid'| |].
    + cbn [violations pruned set_requests_timestamps] in Hv.
      destruct (decide (Z.pos (LIMIT_VIOLATIONS_BEFORE_BLOCK (settings w))
                        <= violations s + 1)) as [Hl|Hl];
        [destruct (decide (block_end_representable (settings w) now)) as [Hf|Hf]|].
      * right.
        destruct (escalated_hit (settings w) now (pruned now s) Hl Hf) as (Hbu & _).
        eexists. split; [exact Hbu|]. rewrite Hv. split; [lia|].
        rewrite Hd, !bool_decide_eq_true_2 by done. cbn. by rewrite lookup_insert_eq.
      * left. rewrite (escalated_overflow _ _ (pruned now s)) by done.
        rewrite Hd, (bool_decide_eq_false_2 (block_end_representable _ _)) by done.
        rewrite andb_false_r. by split.
      * left. rewrite (escalated_miss _ _ (pruned now s)) by done.
        rewrite Hd, bool_decide_eq_false_2 by done. by split.
    + intros x Hx. rewrite Hd.
      destruct (_ && _); [by rewrite lookup_insert_ne|done].
  - apply (Hgoal _ Hst); [done| |].
    + left. by rewrite Hd.
    + intros x Hx. by rewrite Hd.
Qed.

(** ** Composition: every operation keeps the invariant *)

Lemma hoare_pure {A} (phi : Prop) (P : World -> Prop) (Q : A -> World -> Prop) (c : M A) :
  (phi -> hoare P c Q) -> hoare (fun w => P w /\ phi) c Q.
Proof. intros H w [HP Hphi]. by apply H. Qed.

Lemma hoare_sb_inv {A} tr (c : M A) :
  (forall w, same_blocks w (snd (c w))) ->
  hoare (Inv tr) c (fun _ => Inv tr).
Proof. intros Hc w HI. eapply Inv_same_blocks; [apply Hc|done]. Qed.

Lemma hoare_sb_invat {A} tr u s (c : M A) :
  (forall w, same_blocks w (snd (c w))) ->
  hoare (InvAt tr u s) c (fun _ => InvAt tr u s).
Proof.
  intros Hc w [HI Hs]. split.
  - eapply Inv_same_blocks; [apply Hc|done].
  - eapply lookup_same_blocks; [apply Hc|done].
Qed.

Lemma reset_cache_same_blocks w :
  same_blocks w
    (snd (modify (fun w => with_settings (set_trusted_cache None (settings w)) w) w)).
Proof. by destruct w. Qed.

Lemma add_trusted_user_db_same_blocks u w :
  same_blocks w (snd (add_trusted_user_db u w)).
Proof. by destruct w. Qed.

Lemma remove_trusted_user_db_same_blocks u w :
  same_blocks w (snd (remove_trusted_user_db u w)).
Proof. by destruct w. Qed.

Lemma _send_message_rl_same_blocks u key w :
  same_blocks w (snd (_send_message_rl u key w)).
Proof. by destruct w. Qed.

Lemma hoare_gets_keep {A} (P : World -> Prop) (f : World -> A) :
  hoare P (gets f) (fun _ => P).
Proof. by intros w HP. Qed.

Lemma hoare_inv_ret {A} tr (a : A) : hoare (Inv tr) (ret a) (fun _ => Inv tr).
Proof. by apply hoare_ret. Qed.

Lemma hoare_invat_ret {A} tr u s (a : A) :
  hoare (InvAt tr u s) (ret a) (fun _ => Inv tr).
Proof. apply hoare_ret. by intros w [H _]. Qed.

Lemma get_user_data_inv' tr t u :
  hoare (Inv tr) (get_user_data t u) (fun s => InvAt tr u s).
Proof. apply get_user_data_inv. Qed.

Lemma get_user_data_keeps tr t u :
  hoare (Inv tr) (get_user_data t u) (fun _ => Inv tr).
Proof.
  eapply hoare_weaken; [apply get_user_data_inv| done |]. by intros s w [H _].
Qed.

Lemma check_rate_limits_inv tr t0 now uid ct inc :
  tr <> Some uid ->
  hoare (Inv tr) (check_rate_limits t0 now uid ct inc) (fun _ => Inv tr).
Proof.
  intros Htr. unfold check_rate_limits.
  eapply hoare_bind; [apply get_user_data_inv'|]. intros s.
  eapply hoare_bind;
    [apply hoare_sb_invat, TRUSTED_USERS_SET_same_blocks|]. intros T.
  case_decide; [apply hoare_invat_ret|]. cbv zeta.
  destruct (blocked_until_timestamp s) as [bu|] eqn:Hb.
  - case_decide; [apply hoare_invat_ret|].
    eapply hoare_bind; [apply unblock_inv|]. intros s'. cbv beta.
    apply hoare_pure. intros Hb'.
    case_decide; [apply check_rate_command_inv|by apply check_general_inv].
  - case_decide; [apply check_rate_command_inv|by apply check_general_inv].
Qed.

Lemma is_user_blocked_inv tr t0 now uid :
  hoare (Inv tr) (is_user_blocked t0 now uid) (fun _ => Inv tr).
Proof.
  unfold is_user_blocked.
  eapply hoare_bind; [apply get_user_data_inv'|]. intros s.
  destruct (blocked_until_timestamp s) as [bu|]; [|apply hoare_invat_ret].
  case_decide.
  - eapply hoare_bind;
      [apply hoare_sb_invat, _send_message_rl_same_blocks|]. intros ?.
    apply hoare_invat_ret.
  - eapply hoare_bind; [apply unblock_inv|]. intros s'. cbv beta.
    apply hoare_ret. by intros w [[HI _] _].
Qed.

Lemma owner_only_inv tr td caller (func : M unit) :
  hoare (Inv tr) func (fun _ => Inv tr) ->
  hoare (Inv tr) (owner_only td caller func) (fun _ => Inv tr).
Proof.
  intros Hf. unfold owner_only.
  eapply hoare_bind; [apply hoare_gets_keep|]. intros st. cbv beta.
  assert (Hdeny : hoare (Inv tr) (get_user_data td caller;;; ret ()) (fun _ => Inv tr)).
  { eapply hoare_bind; [apply get_user_data_keeps|]. intros ?. apply hoare_inv_ret. }
  destruct (BOT_OWNER_USER_ID st); [|done]. by case_decide.
Qed.

Lemma add_trusted_command_handler_inv tr t1 t2 caller target :
  hoare (Inv tr) (add_trusted_command_handler t1 t2 caller target) (fun _ => Inv tr).
Proof.
  unfold add_trusted_command_handler.
  eapply hoare_bind; [apply get_user_data_keeps|]. intros ?.
  eapply hoare_bind; [apply hoare_sb_inv, TRUSTED_USERS_SET_same_blocks|]. intros T.
  case_decide; [apply hoare_inv_ret|].
  eapply hoare_bind; [apply hoare_sb_inv, add_trusted_user_db_same_blocks|]. intros ?.
  eapply hoare_bind; [apply hoare_sb_inv, reset_cache_same_blocks|]. intros ?.
  eapply hoare_bind; [apply hoare_sb_inv, TRUSTED_USERS_SET_same_blocks|]. intros T'.
  case_decide; [|apply hoare_inv_ret].
  eapply hoare_bind; [apply hoare_sb_inv, TRUSTED_USERS_SET_same_blocks|]. intros T''.
  apply check_and_unblock_if_trusted_inv.
Qed.

Lemma remove_trusted_command_handler_inv tr t1 caller target :
  hoare (Inv tr) (remove_trusted_command_handler t1 caller target) (fun _ => Inv tr).
Proof.
  unfold remove_trusted_command_handler.
  eapply hoare_bind; [apply get_user_data_keeps|]. intros ?.
  eapply hoare_bind; [apply hoare_gets_keep|]. intros st. cbv beta.
  case_decide; [apply hoare_inv_ret|].
  eapply hoare_bind; [apply hoare_sb_inv, TRUSTED_USERS_SET_same_blocks|]. intros T.
  case_decide; [|apply hoare_inv_ret].
  eapply hoare_bind; [apply hoare_sb_inv, remove_trusted_user_db_same_blocks|]. intros ?.
  eapply hoare_bind; [apply hoare_sb_inv, reset_cache_same_blocks|]. intros ?.
  eapply hoare_bind; [apply hoare_sb_inv, TRUSTED_USERS_SET_same_blocks|]. intros ?.
  apply hoare_inv_ret.
Qed.

(** What a fetch does to the slot of its own user. *)
Lemma get_user_data_slot t uid w s w0 :
  get_user_data t uid w = (s, w0) ->
  (db_blocked_users w0 !! uid = db_blocked_users w !! uid \/
   db_blocked_users w0 !! uid = None) /\
  ((forall s0, user_data_store w !! uid = Some s0 -> user_id s0 = uid) ->
   user_id s = uid).
Proof.
  unfold get_user_data, check_and_unblock_if_trusted.
  open_world w; steps; intros [= <- <-]; cbn;
    rewrite ?lookup_insert_eq, ?lookup_delete_eq; use_lookups; cbn;
    (split; [by eauto|]); intros Hid; try done; by apply Hid.
Qed.

Lemma ban_tail_inv tr bu t target :
  hoare (Inv tr)
    (block_user_db target (Some bu) (-1) ;;;
     (target_user_s_data <~ get_user_data t target ;;
      store_user target
        (reset_chat_histories
           (set_state NONE
              (set_violations (-1)
                 (set_blocked_until_timestamp (Some bu) target_user_s_data))))))
    (fun _ => Inv tr).
Proof.
  intros w HI.
  set (w1 := snd (block_user_db target (Some bu) (-1) w)).
  assert (Hw1s : user_data_store w1 = user_data_store w) by (by destruct w).
  assert (Hw1d : db_blocked_users w1 = <[target := (Some bu, -1)]> (db_blocked_users w))
    by (by destruct w).
  unfold bind at 1. change (block_user_db target (Some bu) (-1) w) with (tt, w1).
  cbv iota beta. unfold bind at 1.
  destruct (get_user_data t target w1) as [s w2] eqn:Hg.
  destruct (get_user_data_frame _ _ _ _ _ Hg) as (Hs2 & _ & _ & _ & _ & Hfs & Hfd & _).
  destruct (get_user_data_slot _ _ _ _ _ Hg) as (Hd2 & Hid).
  assert (Hids : user_id s = target).
  { apply Hid. intros s0 Hs0. rewrite Hw1s in Hs0.
    destruct HI as [Hc _]. by apply (proj1 (consistent_pointwise w) Hc target). }
  set (s' := reset_chat_histories _).
  destruct (reset_chat_histories_fields
              (set_state NONE (set_violations (-1)
                 (set_blocked_until_timestamp (Some bu) s))))
    as (Hi' & _ & _ & _ & _ & _ & Hv' & Hb' & _).
  fold s' in Hi', Hv', Hb'. cbn in Hi', Hv', Hb'.
  assert (Hfin : forall w3, store_user target s' w2 = (tt, w3) ->
            user_data_store w3 = <[target := s']> (user_data_store w2) /\
            db_blocked_users w3 = db_blocked_users w2).
  { intros w3 [= <-]. by destruct w2. }
  destruct (store_user target s' w2) as [[] w3] eqn:Hst. cbn [fst snd].
  destruct (Hfin w3 eq_refl) as [Hs3 Hd3].
  apply (Inv_update_slot tr target w); [done| | |].
  - intros x Hx. rewrite Hs3, Hd3, lookup_insert_ne by done.
    rewrite Hfs, Hfd by done. rewrite Hw1s, Hw1d. by rewrite lookup_insert_ne.
  - rewrite Hs3, Hd3, lookup_insert_eq. split.
    + intros ? [= <-]. rewrite Hi', Hb', Hv'. split; [done|].
      split; [done|]. intros b _. by right.
    + intros b v E. destruct Hd2 as [Hd2|Hd2]; rewrite Hd2 in E; [|done].
      rewrite Hw1d, lookup_insert_eq in E. injection E as <- <-.
      split; [eauto|by right].
  - intros _. rewrite Hs3, lookup_insert_eq. exists s'. split; [done|].
    rewrite Hb'. done.
Qed.

Lemma store_user_same_block_inv tr u s s' :
  user_id s' = user_id s ->
  blocked_until_timestamp s' = blocked_until_timestamp s ->
  violations s' = violations s ->
  hoare (InvAt tr u s) (store_user u s') (fun _ => InvAt tr u s').
Proof.
  intros Hi Hb Hv w H. destruct (InvAt_slot _ _ _ _ H) as (Hid & Hdb & Hbv).
  destruct H as [HI Hs].
  assert (Hst : user_data_store (snd (store_user u s' w)) = <[u := s']> (user_data_store w))
    by (by destruct w).
  assert (Hd : db_blocked_users (snd (store_user u s' w)) = db_blocked_users w)
    by (by destruct w).
  split; [|by rewrite Hst, lookup_insert_eq].
  apply (Inv_update_slot tr u w); [done| | |].
  - intros x Hx. by rewrite Hst, Hd, lookup_insert_ne.
  - rewrite Hst, Hd, lookup_insert_eq. split.
    + intros ? [= <-]. rewrite Hi, Hb, Hv. by repeat split.
    + destruct HI as [Hc _]. apply (proj1 (consistent_pointwise w) Hc u).
  - intros E. rewrite Hst, lookup_insert_eq. exists s'. split; [done|].
    rewrite Hb, Hv. destruct HI as [_ Ht]. destruct (Ht u E) as (s0 & Hs0 & Hset).
    rewrite Hs in Hs0. by injection Hs0 as <-.
Qed.

Lemma _save_user_persistent_settings_to_db_same_blocks u p w :
  same_blocks w (snd (_save_user_persistent_settings_to_db u p w)).
Proof. by destruct w. Qed.

Lemma set_language_inv tr u v s :
  hoare (InvAt tr u s) (set_language u v s) (fun _ => Inv tr).
Proof.
  unfold set_language. case_decide; [apply hoare_invat_ret|].
  eapply hoare_bind; [by apply store_user_same_block_inv|]. intros ?.
  eapply hoare_bind;
    [apply hoare_sb_invat, _save_user_persistent_settings_to_db_same_blocks|].
  intros ?. apply hoare_invat_ret.
Qed.

Lemma set_gemini_model_inv tr u v s :
  hoare (InvAt tr u s) (set_gemini_model u v s) (fun _ => Inv tr).
Proof.
  unfold set_gemini_model. case_decide; [apply hoare_invat_ret|].
  eapply hoare_bind; [by apply store_user_same_block_inv|]. intros ?.
  eapply hoare_bind;
    [apply hoare_sb_invat, _save_user_persistent_settings_to_db_same_blocks|].
  intros ?. apply hoare_invat_ret.
Qed.

Lemma handler_session_update_inv tr t u st chat sst hist flux pm mg :
  hoare (Inv tr) (handler_session_update t u st chat sst hist flux pm mg)
    (fun _ => Inv tr).
Proof.
  unfold handler_session_update.
  eapply hoare_bind; [apply get_user_data_inv'|]. intros s.
  eapply hoare_weaken; [by apply (store_user_same_block_inv tr u s)|done|].
  by intros ? w [H _].
Qed.

Lemma ban_user_command_handler_inv tr t1 t2 t3 t4 caller target :
  hoare (Inv tr) (ban_user_command_handler t1 t2 t3 t4 caller target)
    (fun _ => Inv tr).
Proof.
  unfold ban_user_command_handler.
  eapply hoare_bind; [apply get_user_data_keeps|]. intros ?.
  eapply hoare_bind; [apply hoare_gets_keep|]. intros st. cbv beta.
  case_decide; [apply hoare_inv_ret|].
  case_decide; [apply hoare_inv_ret|].
  eapply hoare_bind; [apply hoare_gets_keep|]. intros info. cbv beta zeta.
  pose proof (ban_tail_inv tr (t3 + timedelta_days (365 * 100)) t4 target) as Hban.
  destruct info as [[[u|] v]|]; [| |done].
  - case_decide; [|done]. case_decide; [apply hoare_inv_ret|done].
  - case_decide; [apply hoare_inv_ret|done].
Qed.

Lemma unban_user_command_handler_inv tr t1 t2 t3 caller target :
  hoare (Inv tr) (unban_user_command_handler t1 t2 t3 caller target)
    (fun _ => Inv tr).
Proof.
  unfold unban_user_command_handler.
  eapply hoare_bind; [apply get_user_data_keeps|]. intros ?.
  eapply hoare_bind; [apply hoare_gets_keep|]. intros info. cbv beta zeta.
  assert (Hnb : hoare (Inv tr)
    (unblock_user_db target;;;
     cached <~ gets (fun w => user_data_store w !! target);;
     match cached with
     | Some s => unblock target s;;; ret ()
     | None => ret ()
     end) (fun _ => Inv tr)).
  { eapply hoare_bind; [apply unblock_user_db_inv|]. intros ?.
    eapply hoare_bind; [apply hoare_gets|]. intros cached. cbv beta.
    destruct cached as [s|].
    - eapply hoare_bind.
      + eapply hoare_weaken; [apply (unblock_inv tr target s)| |done].
        intros w [HI E]. by split.
      + intros s'. cbv beta. apply hoare_ret. by intros w [[HI _] _].
    - apply hoare_ret. by intros w [HI _]. }
  destruct info as [[[u|] v]|]; [|apply hoare_inv_ret|done].
  case_decide; [done|].
  eapply hoare_bind; [apply get_user_data_inv'|]. intros s.
  eapply hoare_bind; [apply unblock_inv|]. intros s'. cbv beta.
  apply hoare_ret. by intros w [[HI _] _].
Qed.

Lemma success_payment_handler_inv tr t1 t2 t3 uid :
  hoare (Inv tr) (success_payment_handler t1 t2 t3 uid) (fun _ => Inv tr).
Proof.
  unfold success_payment_handler.
  eapply hoare_bind; [apply get_user_data_inv'|]. intros s.
  eapply hoare_bind; [apply hoare_sb_invat, TRUSTED_USERS_SET_same_blocks|]. intros ?.
  eapply hoare_bind with (Q := fun _ => Inv tr).
  { destruct (blocked_until_timestamp s); [|apply hoare_invat_ret].
    eapply hoare_bind; [apply unblock_inv|]. intros s'. cbv beta.
    apply hoare_ret. by intros w [[HI _] _]. }
  intros ?.
  eapply hoare_bind; [apply hoare_sb_inv, TRUSTED_USERS_SET_same_blocks|]. intros T.
  eapply hoare_bind with (Q := fun _ => Inv tr).
  { case_decide; [|apply hoare_inv_ret].
    eapply hoare_bind; [apply hoare_sb_inv, add_trusted_user_db_same_blocks|]. intros ?.
    apply hoare_sb_inv, reset_cache_same_blocks. }
  intros ?.
  eapply hoare_bind; [apply hoare_sb_inv, TRUSTED_USERS_SET_same_blocks|]. intros T'.
  eapply hoare_bind; [apply check_and_unblock_if_trusted_inv|]. intros ?.
  eapply hoare_bind; [apply hoare_gets_keep|]. intros st. cbv beta.
  destruct (BOT_OWNER_USER_ID st); [|apply hoare_inv_ret].
  case_decide; [apply hoare_inv_ret|].
  eapply hoare_bind; [apply get_user_data_keeps|]. intros ?.
  eapply hoare_bind; [apply hoare_sb_inv, TRUSTED_USERS_SET_same_blocks|]. intros ?.
  apply hoare_inv_ret.
Qed.

Lemma consistent_initial st : consistent (initial st).
Proof.
  apply consistent_pointwise. intros uid. cbn. rewrite !lookup_empty.
  split; [by intros|by intros ? ? ?].
Qed.

Lemma consistent_restart w : consistent w -> consistent (restart w).
Proof.
  intros Hc. pose proof (proj1 (consistent_pointwise w) Hc) as Hp.
  apply consistent_pointwise. intros uid. cbn. rewrite lookup_empty.
  split; [by intros|]. apply (Hp uid).
Qed.

Lemma exec_run_check t0 now uid ct inc w :
  exec (run (OpCheckRateLimits t0 now uid ct inc)) w
  = exec (check_rate_limits t0 now uid ct inc) w.
Proof.
  unfold exec, run, bind. by destruct (check_rate_limits t0 now uid ct inc w).
Qed.

Lemma run_inv tr o :
  (forall uid, tr = Some uid -> keeps_settled uid o) ->
  hoare (Inv tr) (run o) (fun _ => Inv tr).
Proof.
  intros Hk. destruct o; cbn [run].
  - eapply hoare_bind; [apply get_user_data_keeps|]. intros ?. apply hoare_inv_ret.
  - eapply hoare_bind; [|intros ?; apply hoare_inv_ret].
    apply check_rate_limits_inv. intros ->. by apply (Hk uid).
  - eapply hoare_bind; [apply is_user_blocked_inv|]. intros ?. apply hoare_inv_ret.
  - apply owner_only_inv, add_trusted_command_handler_inv.
  - apply owner_only_inv, remove_trusted_command_handler_inv.
  - apply owner_only_inv, ban_user_command_handler_inv.
  - apply owner_only_inv, unban_user_command_handler_inv.
  - apply success_payment_handler_inv.
  - eapply hoare_bind; [apply get_user_data_inv'|]. intros s.
    eapply hoare_bind; [apply set_language_inv|]. intros ?. apply hoare_inv_ret.
  - eapply hoare_bind; [apply get_user_data_inv'|]. intros s.
    eapply hoare_bind; [apply set_gemini_model_inv|]. intros ?. apply hoare_inv_ret.
  - apply handler_session_update_inv.
  - intros w [Hc Ht]. split; [by apply consistent_restart|].
    intros uid E. destruct (Hk uid E).
Qed.

(** Every operation keeps registry and store consistent. *)
Lemma run_consistent o w : consistent w -> consistent (exec (run o) w).
Proof.
  intros Hc. apply (run_inv None o); [by intros|]. by split.
Qed.

Lemma reachable_consistent w : reachable w -> consistent w.
Proof.
  induction 1 as [st|o w _ IH]; [apply consistent_initial|by apply run_consistent].
Qed.

Lemma reachable_run_all ops w : reachable w -> reachable (run_all ops w).
Proof.
  revert w. induction ops as [|o ops IH]; intros w Hw; [done|].
  cbn. apply IH. by constructor.
Qed.
(** * The claims *)




(** C7.  Window boundaries on the general path, for a user who is not
    trusted and not under a block at [now].  The capacity decision reads
    the two lists restricted to the timestamps [t] with [now - 24h < t];
    both lists are left pruned to exactly that window (plus [now] when the
    request is counted); the per-minute count is the number of per-user
    timestamps with [now - 60s < t]; a timestamp on a boundary is outside
    its window. *)
Theorem C7_window_boundaries_strict t0 now uid ct inc w s w0 :
  get_user_data t0 uid w = (s, w0) ->
  uid ∉ trusted_of w ->
  ct <> "rate" ->
  not_blocked_at now s ->
  let r := eval (check_rate_limits t0 now uid ct inc) w in
  let w' := exec (check_rate_limits t0 now uid ct inc) w in
  let user_window := within_day now (requests_timestamps s) in
  let ledger_window := within_day now (total_daily_requests_rl w) in
  let minute_window := within_minute now (requests_timestamps s) in
  let counted_now := if bool_decide (r = Returns true) && inc then [now] else [] in
  (forall t, t ∈ user_window <->
     now - timedelta_hours 24 < t /\ t ∈ requests_timestamps s) /\
  (forall t, t ∈ ledger_window <->
     now - timedelta_hours 24 < t /\ t ∈ total_daily_requests_rl w) /\
  (forall t, t ∈ minute_window <->
     now - timedelta_minutes 1 < t /\ t ∈ requests_timestamps s) /\
  now - timedelta_hours 24 ∉ user_window /\
  now - timedelta_hours 24 ∉ ledger_window /\
  now - timedelta_minutes 1 ∉ minute_window /\
  (r = Returns true <->
     Z.of_nat (length ledger_window) < Z.pos (MAX_REQUESTS_PER_DAY (settings w)) /\
     Z.of_nat (length user_window)
       < Z.pos (MAX_REQUESTS_PER_USER_PER_DAY (settings w)) /\
     Z.of_nat (length minute_window)
       < Z.pos (MAX_REQUESTS_PER_MINUTE (settings w)) /\
     (forall last, last_request_timestamp s = Some last ->
        timedelta_seconds (Z.of_N (REQUEST_COOLDOWN_SECONDS (settings w)))
          <= now - last)) /\
  (exists s', user_data_store w' !! uid = Some s' /\
     requests_timestamps s' = user_window ++ counted_now) /\
  total_daily_requests_rl w' = ledger_window ++ counted_now.
Proof.
  intros Hg Hn Hct Hnb r w' uw lw mw cn.
  split; [intros t; apply elem_of_within_day|].
  split; [intros t; apply elem_of_within_day|].
  split; [intros t; apply elem_of_within_minute|].
  split; [subst uw; rewrite elem_of_within_day; lia|].
  split; [subst lw; rewrite elem_of_within_day; lia|].
  split; [subst mw; rewrite elem_of_within_minute; lia|].
  destruct (check_rate_limits_general _ _ _ _ inc _ _ _ Hg Hn Hct Hnb)
    as (_ & _ & _ & Hcase).
  fold r w' in Hcase.
  assert (Hreq : requests_timestamps (at_checks s) = requests_timestamps s)
    by (unfold at_checks; by destruct (blocked_until_timestamp s)).
  set (P := general_checks_pass (settings w) now (total_daily_requests_rl w) s) in *.
  assert (Hiff : forall b : Outcome bool, (b = Returns true <-> P) ->
    b = Returns true <->
     Z.of_nat (length lw) < Z.pos (MAX_REQUESTS_PER_DAY (settings w)) /\
     Z.of_nat (length uw)
       < Z.pos (MAX_REQUESTS_PER_USER_PER_DAY (settings w)) /\
     Z.of_nat (length mw)
       < Z.pos (MAX_REQUESTS_PER_MINUTE (settings w)) /\
     (forall last, last_request_timestamp s = Some last ->
        timedelta_seconds (Z.of_N (REQUEST_COOLDOWN_SECONDS (settings w)))
          <= now - last)) by (intros b Hb; exact Hb).
  destruct Hcase as [(Hp & Hr & Hs & Hl & _) | [(Hq & Hr & Hs & Hl & _)
                                               | (Hq & Hc & Hr & Hs & Hl & _)]].
  - subst cn. rewrite Hr. rewrite bool_decide_eq_true_2 by done. cbn [andb].
    split; [by apply Hiff|]. split; [|done].
    eexists. split; [exact Hs|]. unfold counted, pruned. rewrite Hreq.
    destruct inc; cbn; by rewrite ?app_nil_r.
  - assert (Hne : r <> Returns true) by (rewrite Hr; case_match; discriminate).
    subst cn. rewrite bool_decide_eq_false_2 by done. cbn [andb].
    rewrite !app_nil_r. split.
    + apply Hiff. split; [done|]. intros Hp. by apply pass_excludes_quota in Hp.
    + split; [|done]. eexists. split; [exact Hs|].
      destruct (escalated_fields (settings w) now (pruned now (at_checks s)))
        as (_ & _ & -> & _). cbn. by rewrite Hreq.
  - subst cn. rewrite Hr. rewrite bool_decide_eq_false_2 by done. cbn [andb].
    rewrite !app_nil_r. split.
    + apply Hiff. split; [done|]. intros (_ & _ & _ & Hcool).
      destruct Hc as (last & Hl1 & Hl2). specialize (Hcool _ Hl1). lia.
    + split; [|done]. eexists. split; [exact Hs|].
      unfold pruned. cbn. by rewrite Hreq.
Qed.

Lemma C7_window_boundaries_strict_witness :
  let w := four_violations_world in
  let now := sec 10 + timedelta_hours 24 in
  let s := eval (get_user_data now 7) w in
  let r := eval (check_rate_limits now now 7 "gemini" true) w in
  let w' := exec (check_rate_limits now now 7 "gemini" true) w in
  sec 10 ∈ requests_timestamps s /\
  sec 10 ∉ within_day now (requests_timestamps s) /\
  total_daily_requests_rl w'
    = within_day now (total_daily_requests_rl w)
      ++ (if bool_decide (r = Returns true) && true then [now] else []).
Proof.
  intros w now s r w'.
  pose proof (C7_window_boundaries_strict now now 7 "gemini" true w _ _
                (surjective_pairing _)) as H.
  destruct H as (_ & _ & _ & Hb & _ & _ & _ & _ & Hl).
  - apply (bool_decide_unpack _). by vm_compute.
  - done.
  - intros u E. by vm_compute in E.
  - split; [|split; [|exact Hl]].
    + apply (bool_decide_unpack _). by vm_compute.
    + replace (sec 10) with (now - timedelta_hours 24) by (subst now; lia).
      exact Hb.
Defined.
(** C4, as the code has it.  A failed quota check on the general path
    (global daily cap, per-user daily cap or per-minute cap reached), for
    a user who is not trusted and not under a block at [now]: the
    violation counter is one more than it was when the quota was checked
    (an expired block has been cleared, counter included, just before).
    When the counter thereby reaches the threshold and [now] plus the
    configured duration is a [datetime], the call returns false, sets the
    block to that sum, writes the block record (until, violations) to the
    store, puts the session in state [NONE] and empties both chat
    histories.  When the threshold is reached and the sum lies past
    [datetime.max], the call raises [OverflowError] instead: the violation
    is counted, and no block is set, no record written, state and
    histories left alone.  Below the threshold the call returns false and
    sets no block. *)
Theorem C4_violation_and_escalation t0 now uid ct inc w s w0 :
  get_user_data t0 uid w = (s, w0) ->
  uid ∉ trusted_of w ->
  ct <> "rate" ->
  not_blocked_at now s ->
  quota_exceeded (settings w) now (total_daily_requests_rl w) s ->
  let r := eval (check_rate_limits t0 now uid ct inc) w in
  let w' := exec (check_rate_limits t0 now uid ct inc) w in
  let before := violations (at_checks s) in
  let block_until :=
    now + timedelta_hours (Z.pos (USER_BLOCK_DURATION_HOURS (settings w))) in
  let no_block (s' : UserData) :=
    blocked_until_timestamp s' = None /\
    state s' = state s /\
    gemini_chat s' = gemini_chat s /\
    mistral_chat_history s' = mistral_chat_history s /\
    (consistent w -> db_blocked_users w' !! uid = None) in
  exists s',
    user_data_store w' !! uid = Some s' /\
    violations s' = before + 1 /\
    if decide (Z.pos (LIMIT_VIOLATIONS_BEFORE_BLOCK (settings w)) <= before + 1)
    then
      if decide (block_end_representable (settings w) now)
      then r = Returns false /\
           blocked_until_timestamp s' = Some block_until /\
           db_blocked_users w' !! uid = Some (Some block_until, before + 1) /\
           state s' = NONE /\
           gemini_chat s' = None /\
           mistral_chat_history s' = []
      else r = OverflowError /\ no_block s'
    else r = Returns false /\ no_block s'.
Proof.
  intros Hg Hn Hct Hnb Hq r w' before bu no_block.
  destruct (check_rate_limits_general _ _ _ _ inc _ _ _ Hg Hn Hct Hnb)
    as (_ & _ & _ & Hcase).
  fold r w' in Hcase.
  destruct Hcase as [(Hp & _) | [(_ & Hr & Hs & _ & Hdb & _) | (Hnq & _)]];
    [by apply pass_excludes_quota in Hp| |done].
  eexists. split; [exact Hs|].
  destruct (at_checks_fields s) as (_ & _ & _ & _ & _ & Hb1 & _).
  destruct (escalated_fields (settings w) now (pruned now (at_checks s)))
    as (_ & _ & _ & _ & _ & Hv).
  split; [exact Hv|].
  pose proof (escalated_block (settings w) now (pruned now (at_checks s)) Hb1) as He.
  cbn [violations pruned set_requests_timestamps state gemini_chat
       mistral_chat_history] in He.
  fold before in He, Hr, Hdb. fold bu in He, Hr, Hdb.
  assert (Hsame : state (at_checks s) = state s /\
                  gemini_chat (at_checks s) = gemini_chat s /\
                  mistral_chat_history (at_checks s) = mistral_chat_history s)
    by (unfold at_checks; by destruct (blocked_until_timestamp s)).
  destruct Hsame as (Hst & Hgc & Hmh). rewrite Hst, Hgc, Hmh in He.
  assert (Hrec : blocked_until_timestamp
                   (escalated (settings w) now (pruned now (at_checks s))) = None ->
                 consistent w -> db_blocked_users w' !! uid = None).
  { intros Hnone Hc.
    pose proof (run_consistent (OpCheckRateLimits t0 now uid ct inc) w Hc) as Hc'.
    rewrite exec_run_check in Hc'. fold w' in Hc'.
    destruct Hc' as (_ & _ & Hag & _). by apply (Hag uid _ Hs). }
  destruct (decide (Z.pos (LIMIT_VIOLATIONS_BEFORE_BLOCK (settings w)) <= before + 1))
    as [Hlim|Hlim]; [destruct (decide (block_end_representable (settings w) now)) as [Hfit|Hfit]|].
  - rewrite decide_True in He by done.
    rewrite !bool_decide_eq_true_2 in Hr, Hdb by done. cbn in Hr, Hdb.
    destruct He as (He1 & He2 & He3 & He4).
    repeat split; try done. by rewrite Hdb, lookup_insert_eq.
  - rewrite decide_False in He by tauto.
    rewrite bool_decide_eq_true_2,
      (bool_decide_eq_false_2 (block_end_representable _ _)) in Hr by done.
    cbn in Hr. destruct He as (He1 & He2 & He3 & He4).
    split; [done|]. subst no_block. cbv beta. repeat split; try done. by apply Hrec.
  - rewrite decide_False in He by tauto.
    rewrite bool_decide_eq_false_2 in Hr by done.
    cbn in Hr. destruct He as (He1 & He2 & He3 & He4).
    split; [done|]. subst no_block. cbv beta. repeat split; try done. by apply Hrec.
Qed.

(** C4 as stated fails for a block duration that takes [now + duration]
    past [datetime.max] (here 10^8 hours, a valid [PositiveInt]): the fifth
    violation reaches the threshold, the call raises [OverflowError], and
    the user is left with five violations and no block. *)
Lemma C4_counterexample_block_end_overflows :
  let w := four_violations_long_block_world in
  let r := eval (check_rate_limits (sec 204) (sec 204) 7 "gemini" true) w in
  let w' := exec (check_rate_limits (sec 204) (sec 204) 7 "gemini" true) w in
  bool_decide (7 ∈ trusted_of w) = false /\
  LIMIT_VIOLATIONS_BEFORE_BLOCK (settings w) = 5%positive /\
  USER_BLOCK_DURATION_HOURS (settings w) = 100000000%positive /\
  violations <$> user_data_store w !! 7 = Some 4 /\
  length <$> (requests_timestamps <$> user_data_store w !! 7) = Some 20%nat /\
  r = OverflowError /\
  violations <$> user_data_store w' !! 7 = Some 5 /\
  blocked_until_timestamp <$> user_data_store w' !! 7 = Some None /\
  db_blocked_users w' !! 7 = None.
Proof. vm_compute. repeat split; reflexivity. Qed.

Lemma C4_violation_and_escalation_witness :
  let w := four_violations_world in
  let w' := exec (check_rate_limits (sec 204) (sec 204) 7 "gemini" true) w in
  eval (check_rate_limits (sec 204) (sec 204) 7 "gemini" true) w = Returns false /\
  exists s',
    user_data_store w' !! 7 = Some s' /\
    violations s' = 5 /\
    blocked_until_timestamp s' = Some (sec 204 + timedelta_hours 1) /\
    db_blocked_users w' !! 7 = Some (Some (sec 204 + timedelta_hours 1), 5).
Proof.
  intros w w'.
  pose proof (C4_violation_and_escalation (sec 204) (sec 204) 7 "gemini" true w _ _
                (surjective_pairing _)) as H.
  destruct H as (s' & Hs & Hv & Hif).
  - apply (bool_decide_unpack _). by vm_compute.
  - done.
  - intros u E. by vm_compute in E.
  - right; left. by vm_compute.
  - assert (E : violations (at_checks (get_user_data (sec 204) 7 w).1) = 4)
      by (vm_compute; reflexivity).
    rewrite E in Hv, Hif.
    assert (E2 : LIMIT_VIOLATIONS_BEFORE_BLOCK (settings w) = 5%positive)
      by (vm_compute; reflexivity).
    assert (E3 : USER_BLOCK_DURATION_HOURS (settings w) = 1%positive)
      by (vm_compute; reflexivity).
    rewrite E2 in Hif. rewrite decide_True in Hif by lia.
    rewrite decide_True in Hif by (vm_compute; discriminate).
    rewrite E3 in Hif.
    destruct Hif as (Hr & Hb & Hdb & _).
    split; [exact Hr|]. exists s'. split; [exact Hs|].
    split; [exact Hv|]. split; [exact Hb|exact Hdb].
Defined.

(** C2, as the code has it.  With per-minute maximum 6, per-user daily
    maximum 20 and a cooldown of 2 seconds, for a user who is not trusted,
    not blocked and has no request history: after one allowed and counted
    general request at [T1], a second general check less than a second
    away is refused by the cooldown, with the cooldown notice and without a
    violation (the counter keeps its value, no block is set) - provided the
    global ledger, which now holds that first request, is still below the
    global daily maximum.  The global cap is tested before the cooldown. *)
Theorem C2_second_request_refused_by_cooldown
    t0 T1 t0' T2 uid ct ct' inc' w s w0 :
  MAX_REQUESTS_PER_MINUTE (settings w) = 6%positive ->
  MAX_REQUESTS_PER_USER_PER_DAY (settings w) = 20%positive ->
  REQUEST_COOLDOWN_SECONDS (settings w) = 2%N ->
  get_user_data t0 uid w = (s, w0) ->
  uid ∉ trusted_of w ->
  ct <> "rate" -> ct' <> "rate" ->
  blocked_until_timestamp s = None ->
  requests_timestamps s = [] ->
  last_request_timestamp s = None ->
  eval (check_rate_limits t0 T1 uid ct true) w = Returns true ->
  let w1 := exec (check_rate_limits t0 T1 uid ct true) w in
  - timedelta_seconds 1 < T2 - T1 < timedelta_seconds 1 ->
  Z.of_nat (length (within_day T2 (total_daily_requests_rl w1)))
    < Z.pos (MAX_REQUESTS_PER_DAY (settings w)) ->
  let r2 := eval (check_rate_limits t0' T2 uid ct' inc') w1 in
  let w2 := exec (check_rate_limits t0' T2 uid ct' inc') w1 in
  r2 = Returns false /\
  sent_rl w2 = sent_rl w1 ++ [(uid, "rate_limit_cooldown")] /\
  exists s2,
    user_data_store w2 !! uid = Some s2 /\
    violations s2 = violations s /\
    blocked_until_timestamp s2 = None.
Proof.
  intros Hm Hu Hc Hg Hn Hct Hct' Hb Hreq Hlast Hr1 w1 HT Hled r2 w2.
  assert (Hnb : not_blocked_at T1 s) by (intros u E; congruence).
  destruct (check_rate_limits_general _ _ _ _ true _ _ _ Hg Hn Hct Hnb)
    as (_ & Hset & _ & Hcase).
  fold w1 in Hset, Hcase.
  assert (Has : at_checks s = s) by (unfold at_checks; by rewrite Hb).
  rewrite Has in Hcase.
  destruct Hcase as [(_ & _ & Hs1 & _) | [(_ & Hr & _) | (_ & _ & Hr & _)]];
    [|unfold eval in *; repeat case_match; congruence..].
  destruct (get_user_data_frame _ _ _ _ _ Hg) as (_ & Hst0 & _).
  assert (Hst1 : settings w1 = set_trusted_cache (Some (trusted_of w)) (settings w))
    by (rewrite Hset; exact Hst0).
  assert (Htr : trusted_of w1 = trusted_of w).
  { apply trusted_of_cached. rewrite Hst1. by destruct (settings w). }
  set (s1 := counted T1 true s) in *.
  assert (Hn1 : uid ∉ trusted_of w1) by (by rewrite Htr).
  pose proof (get_user_data_cached_untrusted t0' uid w1 s1 Hs1 Hn1) as Hg1.
  assert (Hb1 : blocked_until_timestamp s1 = None) by exact Hb.
  assert (Hnb1 : not_blocked_at T2 s1) by (intros u E; congruence).
  destruct (check_rate_limits_general _ _ _ _ inc' _ _ _ Hg1 Hn1 Hct' Hnb1)
    as (_ & _ & _ & Hcase).
  fold r2 w2 in Hcase.
  assert (Has1 : at_checks s1 = s1) by (unfold at_checks; by rewrite Hb1).
  rewrite Has1 in Hcase.
  assert (Hreq1 : requests_timestamps s1 = [T1]).
  { unfold s1, counted. cbn. by rewrite Hreq. }
  assert (Hlast1 : last_request_timestamp s1 = Some T1) by done.
  assert (Hd : (length (within_day T2 [T1]) <= 1)%nat)
    by (unfold within_day; etrans; [apply length_filter|done]).
  assert (Hmi : (length (within_minute T2 [T1]) <= 1)%nat)
    by (unfold within_minute; etrans; [apply length_filter|done]).
  unfold general_checks_pass, quota_exceeded in Hcase.
  rewrite Hst1 in Hcase.
  cbn [MAX_REQUESTS_PER_DAY MAX_REQUESTS_PER_USER_PER_DAY MAX_REQUESTS_PER_MINUTE
       REQUEST_COOLDOWN_SECONDS set_trusted_cache] in Hcase.
  rewrite Hm, Hu, Hc, Hreq1, Hlast1 in Hcase.
  destruct Hcase as [((_ & _ & _ & Hcool) & _) | [(Hq & _)
                     | (_ & _ & Hr & Hs2 & _ & _ & Hsent)]].
  - specialize (Hcool T1 eq_refl).
    unfold timedelta_seconds, usec_per_second in *. lia.
  - lia.
  - split; [done|]. split; [done|]. eexists. split; [exact Hs2|]. by split.
Qed.

(** C2 as stated fails when the first request fills the global ledger: the
    second check is then refused by the global daily cap, which records a
    violation. *)
Lemma C2_counterexample_global_cap :
  let w := crowded_world in
  let w1 := exec (check_rate_limits (sec 1) (sec 1) 7 "gemini" true) w in
  let w2 := exec (check_rate_limits (sec 1 + 1) (sec 1 + 1) 7 "gemini" true) w1 in
  MAX_REQUESTS_PER_MINUTE (settings w) = 6%positive /\
  MAX_REQUESTS_PER_USER_PER_DAY (settings w) = 20%positive /\
  REQUEST_COOLDOWN_SECONDS (settings w) = 2%N /\
  bool_decide (7 ∈ trusted_of w) = false /\
  user_data_store w !! 7 = None /\
  eval (check_rate_limits (sec 1) (sec 1) 7 "gemini" true) w = Returns true /\
  eval (check_rate_limits (sec 1 + 1) (sec 1 + 1) 7 "gemini" true) w1 = Returns false /\
  violations <$> user_data_store w2 !! 7 = Some 1 /\
  sent_rl w2 = [(7, "rate_limit_total_daily")].
Proof. vm_compute. repeat split; reflexivity. Qed.

Lemma C2_second_request_refused_by_cooldown_witness :
  let w := initial default_settings in
  let w1 := exec (check_rate_limits (sec 1) (sec 1) 7 "gemini" true) w in
  let w2 := exec (check_rate_limits (sec 1 + 1) (sec 1 + 1) 7 "gemini" true) w1 in
  eval (check_rate_limits (sec 1) (sec 1) 7 "gemini" true) w = Returns true /\
  eval (check_rate_limits (sec 1 + 1) (sec 1 + 1) 7 "gemini" true) w1 = Returns false /\
  sent_rl w2 = sent_rl w1 ++ [(7, "rate_limit_cooldown")].
Proof.
  split; [by vm_compute|].
  pose proof (C2_second_request_refused_by_cooldown
                (sec 1) (sec 1) (sec 1 + 1) (sec 1 + 1) 7 "gemini" "gemini" true
                (initial default_settings) _ _
                eq_refl eq_refl eq_refl (surjective_pairing _)) as H.
  destruct H as (H1 & H2 & _).
  - apply (bool_decide_unpack _). by vm_compute.
  - done.
  - done.
  - by vm_compute.
  - by vm_compute.
  - by vm_compute.
  - by vm_compute.
  - by vm_compute.
  - by vm_compute.
  - split; [exact H1 | exact H2].
Defined.

(** C3, as the code has it.  For a trusted user [check_rate_limits] returns
    true for every category and every increment flag, sends nothing, and
    leaves the global ledger, the per-user timestamp list and both
    last-request timestamps as they were; it sets no block.  The violation
    counter is left as it was unless the cached session carried a block:
    the trust reconciliation of the fetch then clears that block and resets
    the counter to 0. *)
Theorem C3_trusted_user_passes t0 now uid ct inc w :
  uid ∈ trusted_of w ->
  let r := eval (check_rate_limits t0 now uid ct inc) w in
  let w' := exec (check_rate_limits t0 now uid ct inc) w in
  r = Returns true /\
  total_daily_requests_rl w' = total_daily_requests_rl w /\
  sent_rl w' = sent_rl w /\
  exists s',
    user_data_store w' !! uid = Some s' /\
    blocked_until_timestamp s' = None /\
    match user_data_store w !! uid with
    | Some s =>
        requests_timestamps s' = requests_timestamps s /\
        last_request_timestamp s' = last_request_timestamp s /\
        last_rate_request_timestamp s' = last_rate_request_timestamp s /\
        violations s' =
          match blocked_until_timestamp s with
          | Some _ => 0
          | None => violations s
          end
    | None =>
        requests_timestamps s' = [] /\
        last_request_timestamp s' = None /\
        last_rate_request_timestamp s' = None /\
        violations s' = 0
    end.
Proof.
  intros Ht r w'. subst r w'. unfold eval, exec.
  rewrite (check_rate_limits_trusted _ _ _ _ _ _ Ht). cbn [fst snd].
  pose proof (get_user_data_trusted t0 uid w Ht) as Hs. cbv zeta in Hs.
  unfold eval, exec in Hs.
  destruct (get_user_data t0 uid w) as [s w0] eqn:Hg. cbn [fst snd] in *.
  destruct (get_user_data_frame _ _ _ _ _ Hg) as (Hst & _ & Hl & Hsn & _).
  split; [done|]. split; [done|]. split; [done|].
  exists s. split; [done|].
  destruct (user_data_store w !! uid) as [s0|].
  - destruct Hs as [-> _].
    destruct (at_checks_fields s0) as (_ & _ & -> & -> & -> & -> & ->). done.
  - destruct Hs as [[p ->] _]. done.
Qed.

(** C3 as stated fails on the violation counter: a trusted user whom the
    owner has banned carries a cached block with the sentinel -1, and the
    next check resets the counter to 0. *)
Lemma C3_counterexample_counter_reset :
  let w := banned_trusted_world in
  let w' := exec (check_rate_limits (sec 1) (sec 1) 7 "gemini" true) w in
  bool_decide (7 ∈ trusted_of w) = true /\
  violations <$> user_data_store w !! 7 = Some (-1) /\
  eval (check_rate_limits (sec 1) (sec 1) 7 "gemini" true) w = Returns true /\
  violations <$> user_data_store w' !! 7 = Some 0.
Proof. vm_compute. repeat split; reflexivity. Qed.

Lemma C3_trusted_user_passes_witness :
  let w := banned_trusted_world in
  let w' := exec (check_rate_limits (sec 1) (sec 1) 7 "rate" false) w in
  eval (check_rate_limits (sec 1) (sec 1) 7 "rate" false) w = Returns true /\
  total_daily_requests_rl w' = total_daily_requests_rl w /\
  sent_rl w' = sent_rl w.
Proof.
  destruct (C3_trusted_user_passes (sec 1) (sec 1) 7 "rate" false
              banned_trusted_world) as (H1 & H2 & H3 & _).
  - apply (bool_decide_unpack _). by vm_compute.
  - by repeat split.
Defined.

(** C5, as the code has it.  For a trusted user every fetch returns the
    session held in the registry, and that session carries no block.  Its
    violation counter is 0 when the session was blocked or has just been
    created, and otherwise keeps its value: the reconciliation touches the
    counter only together with a block.  The store is left without an
    active block record for the user - without any record at all when
    registry and store agreed before the call, as they do in every state
    the process reaches. *)
Theorem C5_trusted_fetch_leaves_unblocked t uid w :
  uid ∈ trusted_of w ->
  let s := eval (get_user_data t uid) w in
  let w' := exec (get_user_data t uid) w in
  user_data_store w' !! uid = Some s /\
  blocked_until_timestamp s = None /\
  violations s =
    match user_data_store w !! uid with
    | Some s0 =>
        match blocked_until_timestamp s0 with
        | Some _ => 0
        | None => violations s0
        end
    | None => 0
    end /\
  (forall bu v, db_blocked_users w' !! uid = Some (bu, v) ->
     exists ut, bu = Some ut /\ ut <= t) /\
  (cache_store_agree w -> db_blocked_users w' !! uid = None).
Proof.
  intros Ht s w'.
  pose proof (get_user_data_trusted t uid w Ht) as Hs. cbv zeta in Hs.
  fold s w' in Hs.
  assert (Hg : get_user_data t uid w = (s, w')) by apply surjective_pairing.
  destruct (get_user_data_frame _ _ _ _ _ Hg) as (Hst & _).
  split; [done|].
  destruct (user_data_store w !! uid) as [s0|] eqn:Hs0.
  - destruct Hs as [-> Hdb].
    destruct (at_checks_fields s0) as (_ & _ & _ & _ & _ & Hb & Hv).
    split; [done|]. split; [done|].
    destruct (blocked_until_timestamp s0) as [u|] eqn:Hb0.
    + rewrite Hdb. split; [done|]. done.
    + destruct Hdb as [Hdb | (ut & v & Hw & Hle & Hw')].
      * rewrite Hdb. split; [done|]. done.
      * rewrite Hw'. split.
        { intros bu v' [= <- <-]. eauto. }
        intros Hagree. specialize (Hagree _ _ Hs0 Hb0). congruence.
  - destruct Hs as [[p ->] Hdb]. rewrite Hdb. by repeat split.
Qed.

(** C5 as stated fails on "zero violations": violations counted before
    trust was granted, below the blocking threshold, stay on the session. *)
Lemma C5_counterexample_violations_kept :
  let w := trusted_after_violation_world in
  bool_decide (7 ∈ trusted_of w) = true /\
  blocked_until_timestamp (eval (get_user_data (sec 30) 7) w) = None /\
  violations (eval (get_user_data (sec 30) 7) w) = 1.
Proof. vm_compute. repeat split; reflexivity. Qed.

Lemma C5_trusted_fetch_leaves_unblocked_witness :
  let w := banned_trusted_world in
  blocked_until_timestamp (eval (get_user_data (sec 1) 7) w) = None /\
  violations (eval (get_user_data (sec 1) 7) w) = 0.
Proof.
  destruct (C5_trusted_fetch_leaves_unblocked (sec 1) 7 banned_trusted_world)
    as (_ & H1 & H2 & _).
  - apply (bool_decide_unpack _). by vm_compute.
  - split; [exact H1|]. rewrite H2. by vm_compute.
Defined.

(** C8, as the code has it.  After a restart (registry, ledger and cache of
    the trusted set lost, store kept) the next fetch of a user returns a
    session with exactly the persisted language and model.  For a user who
    is not trusted at that moment an active block record - permanent, or
    with [now < until] - is loaded as it is (same timestamp, same violation
    count) and stays in the store, and an expired one is deleted and not
    loaded.  For a trusted user the record is deleted and not loaded,
    whatever its expiry. *)
Theorem C8_restart_round_trip t uid w p bu v :
  db_user_settings w !! uid = Some p ->
  db_blocked_users w !! uid = Some (bu, v) ->
  let s := eval (get_user_data t uid) (restart w) in
  let w' := exec (get_user_data t uid) (restart w) in
  let loaded :=
    blocked_until_timestamp s = bu /\ violations s = v /\
    db_blocked_users w' !! uid = Some (bu, v) in
  let dropped :=
    blocked_until_timestamp s = None /\ violations s = 0 /\
    db_blocked_users w' !! uid = None in
  user_data_store w' !! uid = Some s /\
  persistent_settings s = p /\
  db_user_settings w' !! uid = Some p /\
  if decide (uid ∈ trusted_of (restart w)) then dropped
  else match bu with
       | Some until => if decide (t < until) then loaded else dropped
       | None => loaded
       end.
Proof.
  intros Hp Hb. unfold get_user_data, restart.
  open_world w. rewrite lookup_empty. steps; rewrite ?lookup_insert_eq, ?lookup_delete_eq;
    use_lookups; done.
Qed.

(** C8 as stated fails for a user who is trusted when the process comes
    back: the active record is deleted instead of being loaded. *)
Lemma C8_counterexample_trusted_on_restart :
  let w := banned_world_now_trusting_7 in
  let until := timedelta_days (365 * 100) in
  let s := eval (get_user_data (sec 10) 7) (restart w) in
  let w' := exec (get_user_data (sec 10) 7) (restart w) in
  language <$> db_user_settings w !! 7 = Some "ru" /\
  db_blocked_users w !! 7 = Some (Some until, -1) /\
  sec 10 < until /\
  blocked_until_timestamp s = None /\
  violations s = 0 /\
  db_blocked_users w' !! 7 = None.
Proof. vm_compute. repeat split; reflexivity. Qed.

Lemma C8_restart_round_trip_witness :
  let s := eval (get_user_data (sec 10) 7) (restart banned_world) in
  language (persistent_settings s) = "ru" /\
  blocked_until_timestamp s = Some (timedelta_days (365 * 100)) /\
  violations s = -1.
Proof.
  pose proof (C8_restart_round_trip (sec 10) 7 banned_world
                (mkPersistent "ru" "gemini-2.5-flash-preview-05-20")
                (Some (timedelta_days (365 * 100))) (-1)) as H.
  destruct H as (_ & H1 & _ & H2).
  - by vm_compute.
  - by vm_compute.
  - rewrite decide_False in H2
      by (apply (bool_decide_unpack _); by vm_compute).
    rewrite decide_True in H2 by (by vm_compute).
    destruct H2 as (H2 & H3 & _). cbv zeta. rewrite H1. by repeat split.
Defined.
(** C1, as the code has it.  When the closure [handle_limit_violation]
    brings the counter of a user who is not trusted to the threshold at
    [now] and sets the block, the block lasts the configured duration: the
    session and the store carry [until = now + duration]; every check
    strictly before [until] returns false and changes nothing (no
    violation, no message); and the first general-path check at or after
    [until] clears that block, counter and store record included, and then
    goes on with the quota and cooldown checks of the same call.  It
    returns true exactly when those pass, and then leaves the user
    unblocked with no violation and no block record.  When the cooldown
    refuses the request, the user is left unblocked with no violation and
    no block record as well.  A user still over a quota is refused again
    and the new violation is counted from zero: the counter is 1, and a
    new block, with its record, is set only under a threshold of 1 (and
    the call raises instead of setting it when the end of the new block is
    no [datetime]). *)
Theorem C1_block_lasts_configured_duration now uid s key w s1 w1 :
  handle_limit_violation now uid s key w = (Returns (true, s1), w1) ->
  user_id s = uid ->
  uid ∉ trusted_of w1 ->
  let until :=
    now + timedelta_hours (Z.pos (USER_BLOCK_DURATION_HOURS (settings w))) in
  user_data_store w1 !! uid = Some s1 /\
  blocked_until_timestamp s1 = Some until /\
  db_blocked_users w1 !! uid = Some (Some until, violations s1) /\
  (forall t0 t ct inc, t < until ->
     check_rate_limits t0 t uid ct inc w1 = (Returns false, fill_cache w1)) /\
  (forall t0 t ct inc, until <= t -> ct <> "rate" ->
     let r := eval (check_rate_limits t0 t uid ct inc) w1 in
     let w2 := exec (check_rate_limits t0 t uid ct inc) w1 in
     let st := settings w1 in
     let ledger := total_daily_requests_rl w1 in
     let new_until := t + timedelta_hours (Z.pos (USER_BLOCK_DURATION_HOURS st)) in
     (r = Returns true <-> general_checks_pass st t ledger s1) /\
     exists s2,
       user_data_store w2 !! uid = Some s2 /\
       blocked_until_timestamp s2 <> Some until /\
       (forall v, db_blocked_users w2 !! uid <> Some (Some until, v)) /\
       (* the checks pass *)
       (general_checks_pass st t ledger s1 ->
          violations s2 = 0 /\
          blocked_until_timestamp s2 = None /\
          db_blocked_users w2 !! uid = None) /\
       (* a quota is exceeded *)
       (quota_exceeded st t ledger s1 ->
          violations s2 = 1 /\
          if decide (Z.pos (LIMIT_VIOLATIONS_BEFORE_BLOCK st) <= 1)
          then
            if decide (block_end_representable st t)
            then r = Returns false /\
                 blocked_until_timestamp s2 = Some new_until /\
                 db_blocked_users w2 !! uid = Some (Some new_until, 1)
            else r = OverflowError /\
                 blocked_until_timestamp s2 = None /\
                 db_blocked_users w2 !! uid = None
          else r = Returns false /\
               blocked_until_timestamp s2 = None /\
               db_blocked_users w2 !! uid = None) /\
       (* no quota is exceeded and the cooldown has not elapsed *)
       (~ general_checks_pass st t ledger s1 -> ~ quota_exceeded st t ledger s1 ->
          r = Returns false /\
          violations s2 = 0 /\
          blocked_until_timestamp s2 = None /\
          db_blocked_users w2 !! uid = None)).
Proof.
  intros Hh Hid Hn until.
  pose proof (handle_limit_violation_spec now uid s key w) as Hspec.
  cbv zeta in Hspec. rewrite Hh in Hspec. cbn [fst snd] in Hspec.
  destruct Hspec as (Hfst & Hs1 & _ & Hdb & _ & _ & Hset).
  destruct (bool_decide (Z.pos (LIMIT_VIOLATIONS_BEFORE_BLOCK (settings w))
                         <= violations s + 1)) eqn:Hreach;
    destruct (bool_decide (block_end_representable (settings w) now)) eqn:Hfit;
    cbn in Hfst, Hdb; try discriminate Hfst.
  apply bool_decide_eq_true_1 in Hreach, Hfit.
  injection Hfst as Hs1eq.
  destruct (escalated_hit (settings w) now s Hreach Hfit) as (Hbu & _).
  destruct (escalated_fields (settings w) now s) as (Hid1 & _ & _ & _ & _ & Hv).
  rewrite <- Hs1eq in Hbu, Hid1, Hv. fold until in Hbu.
  rewrite <- Hs1eq in Hs1.
  assert (Hg : forall t0, get_user_data t0 uid w1 = (s1, fill_cache w1))
    by (intros; by apply get_user_data_cached_untrusted).
  split; [done|]. split; [done|]. split.
  { by rewrite Hdb, lookup_insert_eq, Hv. }
  split.
  - intros t0 t ct inc Ht.
    rewrite (check_rate_limits_untrusted _ t _ ct inc _ _ _ (Hg t0) Hn).
    cbv zeta. rewrite Hbu. by rewrite decide_True.
  - intros t0 t ct inc Ht Hct r w2 st ledger new_until.
    assert (Hnb : not_blocked_at t s1) by (intros u E; congruence).
    destruct (check_rate_limits_general _ _ _ _ inc _ _ _ (Hg t0) Hn Hct Hnb)
      as (_ & _ & _ & Hcase).
    fold r w2 st ledger in Hcase.
    destruct (at_checks_fields s1) as (Hid2 & _ & _ & _ & _ & Hb2 & Hv2).
    rewrite Hbu in Hv2. rewrite Hbu, fill_cache_blocked in Hcase.
    rewrite Hid1, Hid, Hv2 in Hcase.
    assert (Hlater : new_until <> until).
    { subst new_until until st. rewrite Hset.
      unfold timedelta_hours, usec_per_second in *. lia. }
    destruct Hcase as [(Hp & Hr & Hs & _ & Hdb2 & _) | [(Hq & Hr & Hs & _ & Hdb2 & _)
                      | (Hq & Hc & Hr & Hs & _ & Hdb2 & _)]].
    + split; [by rewrite Hr|].
      eexists. split; [exact Hs|].
      assert (Hcb : blocked_until_timestamp (counted t inc (at_checks s1)) = None)
        by (unfold counted, pruned; destruct inc; exact Hb2).
      assert (Hcv : violations (counted t inc (at_checks s1)) = 0)
        by (unfold counted, pruned; destruct inc; exact Hv2).
      rewrite Hcb, Hcv, Hdb2, lookup_delete_eq.
      split; [done|]. split; [done|].
      split; [done|]. split; [|by intros Hnp].
      intros Hq. by apply pass_excludes_quota in Hp.
    + split.
      { rewrite Hr. split; [intros E; case_match; discriminate|].
        intros Hp. by apply pass_excludes_quota in Hp. }
      eexists. split; [exact Hs|].
      destruct (escalated_fields st t (pruned t (at_checks s1)))
        as (_ & _ & _ & _ & _ & Hv3).
      cbn [violations pruned set_requests_timestamps] in Hv3.
      rewrite Hv2 in Hv3.
      pose proof (escalated_block st t (pruned t (at_checks s1)) Hb2) as He.
      cbn [violations pruned set_requests_timestamps] in He.
      rewrite Hv2 in He. cbv zeta in He. fold new_until in He, Hdb2.
      change (0 + 1) with 1 in *.
      destruct (decide (Z.pos (LIMIT_VIOLATIONS_BEFORE_BLOCK st) <= 1)) as [Hl|Hl];
        [destruct (decide (block_end_representable st t)) as [Hf|Hf]|].
      * rewrite decide_True in He by done. destruct He as (He & _).
        rewrite !bool_decide_eq_true_2 in Hr, Hdb2 by done. cbn in Hr, Hdb2.
        rewrite He, Hdb2, lookup_insert_eq.
        split; [congruence|]. split; [congruence|].
        split; [intros Hp; by apply pass_excludes_quota in Hp|].
        split; [done|]. by intros _ Hnq.
      * rewrite decide_False in He by tauto. destruct He as (He & _).
        rewrite bool_decide_eq_true_2,
          (bool_decide_eq_false_2 (block_end_representable _ _)) in Hr, Hdb2 by done.
        cbn in Hr, Hdb2. rewrite He, Hdb2, lookup_delete_eq.
        split; [done|]. split; [done|].
        split; [intros Hp; by apply pass_excludes_quota in Hp|].
        split; [done|]. by intros _ Hnq.
      * rewrite decide_False in He by tauto. destruct He as (He & _).
        rewrite bool_decide_eq_false_2 in Hr, Hdb2 by done.
        cbn in Hr, Hdb2. rewrite He, Hdb2, lookup_delete_eq.
        split; [done|]. split; [done|].
        split; [intros Hp; by apply pass_excludes_quota in Hp|].
        split; [done|]. by intros _ Hnq.
    + split.
      { rewrite Hr. split; [done|]. intros (_ & _ & _ & Hcool).
        destruct Hc as (last & Hl1 & Hl2). specialize (Hcool _ Hl1). lia. }
      destruct (at_checks_fields s1) as (_ & _ & _ & Hlast & _).
      eexists. split; [exact Hs|]. cbn. rewrite Hb2, Hv2, Hdb2, lookup_delete_eq.
      split; [done|]. split; [done|].
      split; [done|]. split; [by intros Hq'|]. done.
Qed.

(** C1 as stated fails on "the request succeeds": a user blocked for
    exceeding the per-user daily maximum is, one hour later, unblocked by
    the first check and refused again by the same check, because the
    twenty requests are still inside the 24-hour window. *)
Lemma C1_counterexample_still_over_quota :
  let w := blocked_over_quota_world in
  let until := sec 204 + timedelta_hours 1 in
  let w' := exec (check_rate_limits (until + sec 1) (until + sec 1) 7 "gemini" true) w in
  bool_decide (7 ∈ trusted_of w) = false /\
  blocked_until_timestamp <$> user_data_store w !! 7 = Some (Some until) /\
  violations <$> user_data_store w !! 7 = Some 5 /\
  eval (check_rate_limits (until - sec 1) (until - sec 1) 7 "gemini" true) w
    = Returns false /\
  eval (check_rate_limits (until + sec 1) (until + sec 1) 7 "gemini" true) w
    = Returns false /\
  violations <$> user_data_store w' !! 7 = Some 1 /\
  sent_rl w' = sent_rl w ++ [(7, "rate_limit_daily")].
Proof. vm_compute. repeat split; reflexivity. Qed.

Lemma C1_block_lasts_configured_duration_witness :
  let w := four_violations_world in
  let s := eval (get_user_data (sec 204) 7) w in
  let w1 := snd (handle_limit_violation (sec 204) 7 s "rate_limit_daily" w) in
  let until := sec 204 + timedelta_hours 1 in
  let w2 := exec (check_rate_limits until until 7 "gemini" true) w1 in
  (blocked_until_timestamp <$> user_data_store w1 !! 7) = Some (Some until) /\
  check_rate_limits (until - 1) (until - 1) 7 "gemini" true w1
    = (Returns false, fill_cache w1) /\
  exists s2, user_data_store w2 !! 7 = Some s2 /\ violations s2 = 1.
Proof.
  intros w s w1 until w2.
  pose proof (C1_block_lasts_configured_duration (sec 204) 7 s "rate_limit_daily" w
                (escalated (settings w) (sec 204) s) w1) as H.
  destruct H as (H1 & H2 & _ & H3 & H4).
  - by vm_compute.
  - by vm_compute.
  - apply (bool_decide_unpack _). by vm_compute.
  - split; [|split].
    + fold w1 in H1. rewrite H1. cbn [fmap option_fmap option_map]. by rewrite H2.
    + apply H3. by vm_compute.
    + destruct (H4 until until "gemini" true) as (_ & s2 & Hs2 & _ & _ & _ & Hq & _).
      * by vm_compute.
      * discriminate.
      * exists s2. split; [exact Hs2|].
        destruct Hq as [Hv _]; [|exact Hv]. right; left. by vm_compute.
Defined.

(** C6.  In every state the process reaches - from a first start, through
    fetches, rate-limit checks, blocked-status checks, the owner's
    commands, payments, the other handlers and restarts - a session whose
    blocked-until timestamp is set has a violation counter of at least 1,
    or the sentinel -1 that only the manual ban writes. *)
Theorem C6_block_implies_violations w uid s u :
  reachable w ->
  user_data_store w !! uid = Some s ->
  blocked_until_timestamp s = Some u ->
  1 <= violations s \/ violations s = -1.
Proof.
  intros Hr Hs Hb. apply reachable_consistent in Hr.
  destruct Hr as (_ & _ & _ & Hbv & _). by apply (Hbv uid s u).
Qed.

Lemma C6_block_implies_violations_witness :
  exists s,
    user_data_store blocked_by_escalation_world !! 7 = Some s /\
    is_Some (blocked_until_timestamp s) /\
    (1 <= violations s \/ violations s = -1).
Proof.
  eexists. split; [by vm_compute|]. split; [by eexists|].
  eapply (C6_block_implies_violations blocked_by_escalation_world 7).
  - apply reachable_run_all. constructor.
  - by vm_compute.
  - by vm_compute.
Defined.

(** * Part III: further properties of the code *)

(** ** The reset methods of a session *)

Lemma clear_flux_data_eq s : clear_flux_data s = set_flux_data ∅ s.
Proof.
  unfold clear_flux_data. case_decide as H; [|done].
  destruct s; cbn in *. by rewrite H.
Qed.

Lemma clear_custom_donation_prompt_eq s :
  clear_custom_donation_prompt s = set_custom_donation_prompt_msg_id None s.
Proof.
  unfold clear_custom_donation_prompt.
  destruct s as [? ? ? ? ? ? ? ? ? ? ? ? [?|] ?]; done.
Qed.

Lemma reset_chat_histories_eq s :
  reset_chat_histories s = set_mistral_chat_history [] (set_gemini_chat None s).
Proof. unfold reset_chat_histories. by destruct s as [? ? ? ? ? ? ? ? ? [|? ?] ? ? ? ?]. Qed.

Lemma clear_media_groups_same s :
  processed_media_group_ids s = ∅ -> s = set_processed_media_group_ids ∅ s.
Proof. destruct s; cbn. by intros ->. Qed.

(** X1.  [reset_session_specific_data] leaves the session with state [NONE],
    no chat handle, no history, no session start, no image request, no
    donation prompt and no media groups, whatever it held before; the
    identifier, the persisted settings, the request timestamps, the
    violation counter and the block are those of before: resetting a
    session never lifts a block. *)
Theorem reset_session_specific_data_result s :
  reset_session_specific_data s =
    mkUserData (user_id s) (persistent_settings s) NONE None
      (requests_timestamps s) (last_request_timestamp s) (violations s)
      (blocked_until_timestamp s) None [] (last_rate_request_timestamp s)
      ∅ None ∅.
Proof.
  unfold reset_session_specific_data. cbv zeta.
  rewrite clear_custom_donation_prompt_eq, clear_flux_data_eq, reset_chat_histories_eq.
  match goal with
  | |- (if decide (processed_media_group_ids ?x = ∅) then _ else _) = _ =>
      transitivity (set_processed_media_group_ids ∅ x);
      [case_decide as H; [|done]; by apply clear_media_groups_same|]
  end.
  by destruct s as [? ? [] ? ? ? ? ? [?|] ? ? ? ? ?].
Qed.

(** X2.  The three reset methods are idempotent, and the full reset
    subsumes the two partial ones and [reset_chat_histories]. *)
Theorem reset_methods_idempotent s :
  clear_flux_data (clear_flux_data s) = clear_flux_data s /\
  clear_custom_donation_prompt (clear_custom_donation_prompt s)
    = clear_custom_donation_prompt s /\
  reset_chat_histories (reset_chat_histories s) = reset_chat_histories s /\
  reset_session_specific_data (reset_session_specific_data s)
    = reset_session_specific_data s /\
  reset_session_specific_data (clear_flux_data s) = reset_session_specific_data s /\
  reset_session_specific_data (clear_custom_donation_prompt s)
    = reset_session_specific_data s /\
  reset_session_specific_data (reset_chat_histories s) = reset_session_specific_data s.
Proof.
  rewrite !reset_session_specific_data_result.
  rewrite !clear_custom_donation_prompt_eq, !clear_flux_data_eq, !reset_chat_histories_eq.
  by destruct s.
Qed.

(** ** The list of active blocks *)

Lemma blocked_rows_fold now (l : list (Z * (option Z * Z))) (acc : gmap Z (option Z * Z)) k r :
  NoDup l.*1 ->
  (forall k', k' ∈ l.*1 -> acc !! k' = None) ->
  foldl
    (fun (blocked_users_info : gmap Z (option Z * Z)) row_data =>
       let '(uid, (unblock_time_utc, violations_val)) := row_data in
       match unblock_time_utc with
       | None => <[uid := (None, violations_val)]> blocked_users_info
       | Some ut =>
           if decide (now < ut)
           then <[uid := (Some ut, violations_val)]> blocked_users_info
           else blocked_users_info
       end) acc l !! k = Some r
  <-> ((k, r) ∈ l /\ forall ut, fst r = Some ut -> now < ut) \/ acc !! k = Some r.
Proof.
  revert acc. induction l as [|[k0 [ut0 v0]] l IH]; intros acc Hnd Hacc.
  - cbn. split; [by right|]. intros [[H _]|H]; [by apply elem_of_nil in H|done].
  - cbn [foldl]. apply NoDup_cons in Hnd as [Hk0 Hnd].
    assert (Hacc0 : acc !! k0 = None) by (apply Hacc; cbn; left).
    assert (Hin : forall r', (k0, r') ∈ l -> False).
    { intros r' Hr. apply Hk0. apply list_elem_of_fmap. by exists (k0, r'). }
    rewrite IH; [|done|].
    + rewrite elem_of_cons. destruct ut0 as [ut|]; [case_decide as Hlt|].
      * destruct (decide (k = k0)) as [->|Hne].
        -- rewrite lookup_insert_eq, Hacc0. split.
           ++ intros [[H _]|[= <-]]; [by apply Hin in H|]. left. split; [by left|].
              by intros ? [= <-].
           ++ intros [[[[= <-]|H] _]|?]; [by right|by apply Hin in H|done].
        -- rewrite lookup_insert_ne by done. split.
           ++ intros [[H1 H2]|H]; [left; split; [by right|done]|by right].
           ++ intros [[[[= ? ?]|H1] H2]|H]; [done|left; by split|by right].
      * split.
        -- intros [[H1 H2]|H]; [left; split; [by right|done]|by right].
        -- intros [[[[= ? ?]|H1] H2]|H]; [|left; by split|by right].
           subst. exfalso. apply Hlt. by apply H2.
      * destruct (decide (k = k0)) as [->|Hne].
        -- rewrite lookup_insert_eq, Hacc0. split.
           ++ intros [[H _]|[= <-]]; [by apply Hin in H|]. left. split; [by left|done].
           ++ intros [[[[= <-]|H] _]|?]; [by right|by apply Hin in H|done].
        -- rewrite lookup_insert_ne by done. split.
           ++ intros [[H1 H2]|H]; [left; split; [by right|done]|by right].
           ++ intros [[[[= ? ?]|H1] H2]|H]; [done|left; by split|by right].
    + intros k' Hk'.
      assert (k' <> k0) by (intros ->; done).
      assert (acc !! k' = None) by (apply Hacc; cbn; by right).
      destruct ut0 as [ut|]; [case_decide|]; by rewrite ?lookup_insert_ne.
Qed.

Lemma get_all_blocked_users_info_db_lookup now w uid r :
  eval (get_all_blocked_users_info_db now) w !! uid = Some r <->
  db_blocked_users w !! uid = Some r /\ (forall ut, fst r = Some ut -> now < ut).
Proof.
  unfold eval, get_all_blocked_users_info_db, bind, gets, ret. cbn [fst].
  rewrite blocked_rows_fold.
  - rewrite elem_of_map_to_list, lookup_empty. naive_solver.
  - apply NoDup_fst_map_to_list.
  - intros. apply lookup_empty.
Qed.

(** X3.  [get_all_blocked_users_info_db] changes nothing and lists exactly
    the users whose block record is active at the clock reading: a record
    without a timestamp, or with a timestamp strictly after it, is listed
    with its timestamp and violation count; a record that expires at or
    before the reading is left out (and stays in the store). *)
Theorem get_all_blocked_users_info_db_lists_active now w :
  exec (get_all_blocked_users_info_db now) w = w /\
  forall uid r,
    eval (get_all_blocked_users_info_db now) w !! uid = Some r <->
    db_blocked_users w !! uid = Some r /\ (forall ut, fst r = Some ut -> now < ut).
Proof. split; [done|]. apply get_all_blocked_users_info_db_lookup. Qed.

(** ** Relations that every step of an operation respects *)

Lemma keeps_ret {A} (R : World -> World -> Prop) (a : A) :
  (forall w, R w w) -> keeps R (ret a).
Proof. intros Hr w. apply Hr. Qed.

Lemma keeps_gets {A} (R : World -> World -> Prop) (f : World -> A) :
  (forall w, R w w) -> keeps R (gets f).
Proof. intros Hr w. apply Hr. Qed.

Lemma keeps_modify (R : World -> World -> Prop) (f : World -> World) :
  (forall w, R w (f w)) -> keeps R (modify f).
Proof. intros Hf w. apply Hf. Qed.

Lemma keeps_bind {A B} (R : World -> World -> Prop) (c : M A) (k : A -> M B) :
  (forall w1 w2 w3, R w1 w2 -> R w2 w3 -> R w1 w3) ->
  keeps R c -> (forall a, keeps R (k a)) -> keeps R (bind c k).
Proof.
  intros Ht Hc Hk w. unfold bind. specialize (Hc w).
  destruct (c w) as [a w1]. exact (Ht _ _ _ Hc (Hk a w1)).
Qed.

Lemma keeps_exec {A} (R : World -> World -> Prop) (c : M A) w :
  keeps R c -> R w (exec c w).
Proof. intros H. apply H. Qed.

Ltac keeps_walk Hrefl Htrans known leaf :=
  repeat first
    [ known
    | lazymatch goal with
      | |- keeps _ (ret _) => apply (keeps_ret _ _ Hrefl)
      | |- keeps _ (gets _) => apply (keeps_gets _ _ Hrefl)
      | |- keeps _ (bind _ _) => apply (keeps_bind _ _ _ Htrans); [|intros ?]
      | |- keeps _ (modify _) => apply keeps_modify; intros ?; leaf
      | |- keeps _ (match ?x with _ => _ end) => destruct x
      | |- keeps _ (let _ := _ in _) => cbv zeta
      end ].

Ltac unfold_leaves :=
  unfold store_user, _send_message_rl, block_user_db, unblock_user_db,
    get_blocked_user_info_db, get_all_trusted_users_db, add_trusted_user_db,
    remove_trusted_user_db, _save_user_persistent_settings_to_db,
    _load_user_persistent_settings_from_db.

Ltac unfold_ops :=
  unfold run, owner_only, add_trusted_command_handler,
    remove_trusted_command_handler, ban_user_command_handler,
    unban_user_command_handler, success_payment_handler, set_language,
    set_gemini_model, handler_session_update, check_session_expiry_core,
    block_checked, get_all_blocked_users_info_db,
    check_rate_limits, check_general, check_rate_command,
    handle_limit_violation, is_user_blocked, unblock,
    check_and_unblock_if_trusted;
  unfold_leaves.

(** *** The configuration *)

Lemma config_kept_refl w : config_kept w w.
Proof. done. Qed.

Lemma config_kept_trans w1 w2 w3 :
  config_kept w1 w2 -> config_kept w2 w3 -> config_kept w1 w3.
Proof. unfold config_kept, same_config. congruence. Qed.

Ltac config_leaf := idtac; unfold config_kept, same_config; cbn; reflexivity.

Lemma TRUSTED_USERS_SET_config_kept : keeps config_kept TRUSTED_USERS_SET.
Proof.
  unfold TRUSTED_USERS_SET; unfold_leaves.
  keeps_walk config_kept_refl config_kept_trans fail config_leaf.
Qed.

Lemma get_user_data_config_kept t uid : keeps config_kept (get_user_data t uid).
Proof.
  unfold get_user_data, check_and_unblock_if_trusted; unfold_leaves.
  keeps_walk config_kept_refl config_kept_trans
    ltac:(idtac; lazymatch goal with
                |- keeps _ TRUSTED_USERS_SET => apply TRUSTED_USERS_SET_config_kept
                end) config_leaf.
Qed.

Lemma run_config_kept o : keeps config_kept (run o).
Proof.
  destruct o; unfold_ops;
    keeps_walk config_kept_refl config_kept_trans
      ltac:(idtac; lazymatch goal with
                  | |- keeps _ TRUSTED_USERS_SET => apply TRUSTED_USERS_SET_config_kept
                  | |- keeps _ (get_user_data _ _) => apply get_user_data_config_kept
                  end) config_leaf.
Qed.

Lemma same_config_fields st st' :
  same_config st st' ->
  DEFAULT_LANGUAGE st' = DEFAULT_LANGUAGE st /\
  DEFAULT_GEMINI_MODEL st' = DEFAULT_GEMINI_MODEL st /\
  MAX_REQUESTS_PER_DAY st' = MAX_REQUESTS_PER_DAY st /\
  MAX_REQUESTS_PER_USER_PER_DAY st' = MAX_REQUESTS_PER_USER_PER_DAY st /\
  MAX_REQUESTS_PER_MINUTE st' = MAX_REQUESTS_PER_MINUTE st /\
  REQUEST_COOLDOWN_SECONDS st' = REQUEST_COOLDOWN_SECONDS st /\
  USER_BLOCK_DURATION_HOURS st' = USER_BLOCK_DURATION_HOURS st /\
  LIMIT_VIOLATIONS_BEFORE_BLOCK st' = LIMIT_VIOLATIONS_BEFORE_BLOCK st /\
  BOT_OWNER_USER_ID st' = BOT_OWNER_USER_ID st /\
  TRUSTED_USERS_ENV st' = TRUSTED_USERS_ENV st.
Proof. unfold same_config. destruct st, st'; cbn. by intros [= -> -> -> -> -> -> -> -> -> ->]. Qed.

Lemma reachable_config w :
  reachable w -> exists st, same_config st (settings w).
Proof.
  induction 1 as [st|o w _ [st IH]]; exists st.
  - unfold same_config. by destruct st.
  - pose proof (run_config_kept o w) as H. unfold config_kept, same_config in *.
    unfold exec. congruence.
Qed.

(** X4.  No operation changes the configuration: the limits, the cooldown,
    the block duration and threshold, the defaults, the owner and the
    configured trusted list are after any operation what they were before.
    Of the settings object only the cache of the trusted set changes. *)
Theorem operations_keep_configuration o w :
  let st := settings w in
  let st' := settings (exec (run o) w) in
  DEFAULT_LANGUAGE st' = DEFAULT_LANGUAGE st /\
  DEFAULT_GEMINI_MODEL st' = DEFAULT_GEMINI_MODEL st /\
  MAX_REQUESTS_PER_DAY st' = MAX_REQUESTS_PER_DAY st /\
  MAX_REQUESTS_PER_USER_PER_DAY st' = MAX_REQUESTS_PER_USER_PER_DAY st /\
  MAX_REQUESTS_PER_MINUTE st' = MAX_REQUESTS_PER_MINUTE st /\
  REQUEST_COOLDOWN_SECONDS st' = REQUEST_COOLDOWN_SECONDS st /\
  USER_BLOCK_DURATION_HOURS st' = USER_BLOCK_DURATION_HOURS st /\
  LIMIT_VIOLATIONS_BEFORE_BLOCK st' = LIMIT_VIOLATIONS_BEFORE_BLOCK st /\
  BOT_OWNER_USER_ID st' = BOT_OWNER_USER_ID st /\
  TRUSTED_USERS_ENV st' = TRUSTED_USERS_ENV st.
Proof. apply same_config_fields, (run_config_kept o w). Qed.

(** *** The global ledger *)

Lemma ledger_kept_refl w : ledger_kept w w.
Proof. done. Qed.

Lemma ledger_kept_trans w1 w2 w3 :
  ledger_kept w1 w2 -> ledger_kept w2 w3 -> ledger_kept w1 w3.
Proof. unfold ledger_kept. congruence. Qed.

Ltac ledger_leaf := idtac; unfold ledger_kept; cbn; reflexivity.

Lemma TRUSTED_USERS_SET_ledger_kept : keeps ledger_kept TRUSTED_USERS_SET.
Proof.
  unfold TRUSTED_USERS_SET; unfold_leaves.
  keeps_walk ledger_kept_refl ledger_kept_trans fail ledger_leaf.
Qed.

Lemma get_user_data_ledger_kept t uid : keeps ledger_kept (get_user_data t uid).
Proof.
  unfold get_user_data, check_and_unblock_if_trusted; unfold_leaves.
  keeps_walk ledger_kept_refl ledger_kept_trans
    ltac:(idtac; lazymatch goal with
                |- keeps _ TRUSTED_USERS_SET => apply TRUSTED_USERS_SET_ledger_kept
                end) ledger_leaf.
Qed.

Lemma run_ledger_kept o :
  match o with
  | OpCheckRateLimits _ _ _ _ _ | OpRestart => False
  | _ => True
  end ->
  keeps ledger_kept (run o).
Proof.
  destruct o; try done; intros _; unfold_ops;
    keeps_walk ledger_kept_refl ledger_kept_trans
      ltac:(idtac; lazymatch goal with
                  | |- keeps _ TRUSTED_USERS_SET => apply TRUSTED_USERS_SET_ledger_kept
                  | |- keeps _ (get_user_data _ _) => apply get_user_data_ledger_kept
                  end) ledger_leaf.
Qed.

Lemma length_within_day now l : (length (within_day now l) <= length l)%nat.
Proof. apply length_filter. Qed.

Lemma check_rate_limits_bounded t0 now uid ct inc w :
  ledger_bounded w -> ledger_bounded (exec (check_rate_limits t0 now uid ct inc) w).
Proof.
  unfold ledger_bounded. intros Hb.
  destruct (get_user_data t0 uid w) as [s w0] eqn:Hg.
  destruct (get_user_data_frame _ _ _ _ _ Hg) as (_ & Hst0 & Hl0 & _).
  assert (Hmax : forall w', settings w' = settings w0 ->
            MAX_REQUESTS_PER_DAY (settings w') = MAX_REQUESTS_PER_DAY (settings w)).
  { intros w' ->. by rewrite Hst0. }
  destruct (decide (uid ∈ trusted_of w)) as [Htr|Htr].
  { unfold exec. rewrite check_rate_limits_trusted, Hg by done. cbn [snd].
    by rewrite Hl0, Hmax. }
  assert (Hcases : not_blocked_at now s \/
            exists bu, blocked_until_timestamp s = Some bu /\ now < bu).
  { destruct (blocked_until_timestamp s) as [bu|] eqn:Hbu.
    - destruct (decide (now < bu)); [right; by exists bu|].
      left. intros u Hu. rewrite Hbu in Hu. injection Hu as <-. lia.
    - left. intros u Hu. by rewrite Hbu in Hu. }
  destruct Hcases as [Hnb|(bu & Hbu & Hlt)].
  - destruct (decide (ct = "rate")) as [->|Hct].
    + destruct (check_rate_limits_at_checks _ now _ "rate" inc _ _ _ Hg Htr Hnb)
        as (w1 & Heq & _ & _ & _ & Hst1 & Hl1 & _).
      unfold exec. rewrite Heq, decide_True by done.
      destruct (check_rate_command_spec now uid (at_checks s) w1)
        as (_ & Hst2 & _ & _ & Hl2 & _).
      rewrite Hl2, Hl1, Hmax; [done|congruence].
    + destruct (check_rate_limits_general _ _ _ _ inc _ _ _ Hg Htr Hct Hnb)
        as (_ & Hst1 & _ & Hcase).
      rewrite (Hmax _ Hst1).
      pose proof (length_within_day now (total_daily_requests_rl w)).
      destruct Hcase as [((Hp & _) & _ & _ & -> & _) | [(_ & _ & _ & -> & _)
                                                       | (_ & _ & _ & _ & -> & _)]];
        [|lia|lia].
      rewrite length_app. destruct inc; cbn [length]; lia.
  - unfold exec. rewrite (check_rate_limits_untrusted _ _ _ _ _ _ _ _ Hg Htr). cbv zeta.
    rewrite Hbu, decide_True by done. cbn [snd]. by rewrite Hl0, Hmax.
Qed.

Lemma run_bounded o w : ledger_bounded w -> ledger_bounded (exec (run o) w).
Proof.
  intros Hb.
  assert (Hkept : match o with
                  | OpCheckRateLimits _ _ _ _ _ | OpRestart => False
                  | _ => True
                  end -> ledger_bounded (exec (run o) w)).
  { intros Ho. pose proof (run_ledger_kept o Ho w) as Hl.
    destruct (same_config_fields _ _ (run_config_kept o w)) as (_ & _ & Hm & _).
    unfold ledger_bounded, ledger_kept, exec in *. by rewrite Hl, Hm. }
  destruct o; try (by apply Hkept).
  - rewrite exec_run_check. by apply check_rate_limits_bounded.
  - unfold ledger_bounded. cbn. lia.
Qed.

(** X5.  Only a rate-limit check and a restart change the global ledger of
    requests: a fetch, the blocked-status check, the owner's commands, a
    payment and the handlers' updates of a session leave it as it is. *)
Theorem only_checks_change_the_ledger o w :
  (forall t0 now uid ct inc, o <> OpCheckRateLimits t0 now uid ct inc) ->
  o <> OpRestart ->
  total_daily_requests_rl (exec (run o) w) = total_daily_requests_rl w.
Proof.
  intros H1 H2. apply (run_ledger_kept o).
  destruct o; try done. by eapply H1.
Qed.

Lemma only_checks_change_the_ledger_witness :
  let w := blocked_by_escalation_world in
  total_daily_requests_rl (exec (run (OpIsUserBlocked (sec 300) (sec 300) 7)) w)
    = total_daily_requests_rl w.
Proof.
  intros w. apply (only_checks_change_the_ledger (OpIsUserBlocked (sec 300) (sec 300) 7) w).
  - discriminate.
  - discriminate.
Defined.


(** X6.  In every state the process reaches, the global ledger holds at
    most [MAX_REQUESTS_PER_DAY] timestamps: no more requests are counted
    than the global daily maximum, whatever the order of the calls and the
    clock readings. *)
Theorem reachable_ledger_bounded w :
  reachable w ->
  Z.of_nat (length (total_daily_requests_rl w))
    <= Z.pos (MAX_REQUESTS_PER_DAY (settings w)).
Proof.
  induction 1 as [st|o w _ IH].
  - cbn. lia.
  - by apply run_bounded.
Qed.

Lemma reachable_ledger_bounded_witness :
  Z.of_nat (length (total_daily_requests_rl crowded_world))
    <= Z.pos (MAX_REQUESTS_PER_DAY (settings crowded_world)).
Proof.
  apply (reachable_ledger_bounded crowded_world).
  apply reachable_run_all. constructor.
Defined.


(** *** The durable list of trusted users *)

Lemma trust_list_kept_refl w : trust_list_kept w w.
Proof. done. Qed.

Lemma trust_list_kept_trans w1 w2 w3 :
  trust_list_kept w1 w2 -> trust_list_kept w2 w3 -> trust_list_kept w1 w3.
Proof. unfold trust_list_kept. congruence. Qed.

Ltac trust_leaf := idtac; unfold trust_list_kept; cbn; reflexivity.

Lemma TRUSTED_USERS_SET_trust_list_kept : keeps trust_list_kept TRUSTED_USERS_SET.
Proof.
  unfold TRUSTED_USERS_SET; unfold_leaves.
  keeps_walk trust_list_kept_refl trust_list_kept_trans fail trust_leaf.
Qed.

Lemma get_user_data_trust_list_kept t uid : keeps trust_list_kept (get_user_data t uid).
Proof.
  unfold get_user_data, check_and_unblock_if_trusted; unfold_leaves.
  keeps_walk trust_list_kept_refl trust_list_kept_trans
    ltac:(idtac; lazymatch goal with
                |- keeps _ TRUSTED_USERS_SET => apply TRUSTED_USERS_SET_trust_list_kept
                end) trust_leaf.
Qed.

Lemma run_trust_list_kept o :
  match o with
  | OpAddTrusted _ _ _ _ _ | OpRemoveTrusted _ _ _ _ | OpSuccessfulPayment _ _ _ _ => False
  | _ => True
  end ->
  keeps trust_list_kept (run o).
Proof.
  destruct o; try done; intros _; unfold_ops;
    keeps_walk trust_list_kept_refl trust_list_kept_trans
      ltac:(idtac; lazymatch goal with
                  | |- keeps _ TRUSTED_USERS_SET => apply TRUSTED_USERS_SET_trust_list_kept
                  | |- keeps _ (get_user_data _ _) => apply get_user_data_trust_list_kept
                  end) trust_leaf.
Qed.

(** X7.  The durable list of trusted users changes only through
    [/addtrusted], [/removetrusted] and a successful payment: a fetch, the
    checks of the rate limiter, [/ban], [/unban], the handlers' updates of a
    session and a restart leave it as it is. *)
Theorem only_grants_change_the_trust_list o w :
  (forall td t1 t2 caller target, o <> OpAddTrusted td t1 t2 caller target) ->
  (forall td t1 caller target, o <> OpRemoveTrusted td t1 caller target) ->
  (forall t1 t2 t3 uid, o <> OpSuccessfulPayment t1 t2 t3 uid) ->
  db_trusted_users (exec (run o) w) = db_trusted_users w.
Proof.
  intros H1 H2 H3. apply (run_trust_list_kept o).
  destruct o; try done; [by eapply H1|by eapply H2|by eapply H3].
Qed.

Lemma only_grants_change_the_trust_list_witness :
  let w := trusted_after_violation_world in
  db_trusted_users (exec (run (OpBan 50 50 50 50 50 1 7)) w) = db_trusted_users w.
Proof.
  intros w. apply (only_grants_change_the_trust_list (OpBan 50 50 50 50 50 1 7) w).
  - discriminate.
  - discriminate.
  - discriminate.
Defined.


(** *** The cache of the trusted set is never stale *)

Lemma hoare_modify (P : World -> Prop) (Q : unit -> World -> Prop) (f : World -> World) :
  (forall w, P w -> Q tt (f w)) -> hoare P (modify f) Q.
Proof. intros H w Hw. by apply H. Qed.

Lemma TRUSTED_USERS_SET_cache_fresh :
  hoare cache_fresh TRUSTED_USERS_SET (fun _ => cache_fresh).
Proof.
  intros w H. change (cache_fresh (fill_cache w)). rewrite fill_cache_eq.
  destruct (_trusted_users_set_cache (settings w)) as [T|] eqn:Hc.
  - rewrite (trusted_of_cached _ _ Hc). intros T' [= <-]. cbn. by apply H.
  - intros T' [= <-]. cbn. unfold trusted_of, eval, TRUSTED_USERS_SET, owner_set.
    destruct w as [st ? ? ? ? ? ?]; cbn in *. rewrite Hc. cbn.
    destruct (BOT_OWNER_USER_ID st); cbn; set_solver.
Qed.

Lemma add_then_reset_cache_fresh {B} t (k : M B) (P : World -> Prop) (Q : B -> World -> Prop) :
  hoare cache_fresh k Q ->
  hoare P
    (add_trusted_user_db t ;;;
     modify (fun w => with_settings (set_trusted_cache None (settings w)) w) ;;; k) Q.
Proof. intros Hk w _. apply Hk. by intros T. Qed.

Lemma remove_then_reset_cache_fresh {B} t (k : M B) (P : World -> Prop) (Q : B -> World -> Prop) :
  hoare cache_fresh k Q ->
  hoare P
    (remove_trusted_user_db t ;;;
     modify (fun w => with_settings (set_trusted_cache None (settings w)) w) ;;; k) Q.
Proof. intros Hk w _. apply Hk. by intros T. Qed.

Lemma add_reset_cache_fresh t (P : World -> Prop) :
  hoare P
    (add_trusted_user_db t ;;;
     modify (fun w => with_settings (set_trusted_cache None (settings w)) w))
    (fun _ => cache_fresh).
Proof. intros w _. by intros T. Qed.

Ltac fresh_leaf := idtac; let H := fresh in intros ? H; exact H.

Ltac hoare_walk P known leaf :=
  repeat first
    [ known
    | lazymatch goal with
      | |- hoare _ (ret _) _ => apply hoare_ret; intros ? ?; assumption
      | |- hoare _ (gets _) _ => apply hoare_gets_keep
      | |- hoare _ (bind _ _) _ => apply (hoare_bind P (fun _ => P)); [|intros ?]
      | |- hoare _ (modify _) _ => apply hoare_modify; leaf
      | |- hoare _ (match ?x with _ => _ end) _ => destruct x
      | |- hoare _ (let _ := _ in _) _ => cbv zeta
      end ].

Ltac fresh_known :=
  idtac;
  lazymatch goal with
  | |- hoare _ TRUSTED_USERS_SET _ => apply TRUSTED_USERS_SET_cache_fresh
  | |- hoare _ (bind (add_trusted_user_db _) (fun _ => bind (modify _) _)) _ =>
      apply add_then_reset_cache_fresh
  | |- hoare _ (bind (remove_trusted_user_db _) (fun _ => bind (modify _) _)) _ =>
      apply remove_then_reset_cache_fresh
  | |- hoare _ (bind (add_trusted_user_db _) (fun _ => modify _)) _ =>
      apply add_reset_cache_fresh
  end.

Lemma get_user_data_cache_fresh t uid :
  hoare cache_fresh (get_user_data t uid) (fun _ => cache_fresh).
Proof.
  unfold get_user_data, check_and_unblock_if_trusted.
  unfold store_user, block_user_db, unblock_user_db, get_blocked_user_info_db,
    _save_user_persistent_settings_to_db, _load_user_persistent_settings_from_db.
  hoare_walk cache_fresh fresh_known fresh_leaf.
Qed.

Lemma run_cache_fresh o : hoare cache_fresh (run o) (fun _ => cache_fresh).
Proof.
  destruct o;
    unfold run, owner_only, add_trusted_command_handler,
      remove_trusted_command_handler, ban_user_command_handler,
      unban_user_command_handler, success_payment_handler, set_language,
      set_gemini_model, handler_session_update,
      check_rate_limits, check_general, check_rate_command,
      handle_limit_violation, is_user_blocked, unblock,
      check_and_unblock_if_trusted;
    unfold store_user, _send_message_rl, block_user_db, unblock_user_db,
      get_blocked_user_info_db, _save_user_persistent_settings_to_db,
      _load_user_persistent_settings_from_db;
    hoare_walk cache_fresh
      ltac:(first [fresh_known
                  | lazymatch goal with
                    | |- hoare _ (get_user_data _ _) _ => apply get_user_data_cache_fresh
                    end])
      ltac:(first [fresh_leaf | by intros ? ? ?]).
Qed.

Lemma reachable_cache_fresh w : reachable w -> cache_fresh w.
Proof.
  induction 1 as [st|o w _ IH]; [by intros T|]. by apply run_cache_fresh.
Qed.

(** X8.  In every state the process reaches, the trusted set in force is
    the union of the durable list, the configured list and the owner as
    they are at that moment: every change of the durable list resets the
    cache, so the cached set is never stale. *)
Theorem reachable_trusted_set_current w uid :
  reachable w ->
  uid ∈ trusted_of w <->
    uid ∈ db_trusted_users w \/ uid ∈ TRUSTED_USERS_ENV (settings w)
    \/ BOT_OWNER_USER_ID (settings w) = Some uid.
Proof.
  intros Hr. destruct (_trusted_users_set_cache (settings w)) as [T|] eqn:Hc.
  - rewrite (trusted_of_cached _ _ Hc), (reachable_cache_fresh w Hr T Hc).
    unfold owner_set. destruct (BOT_OWNER_USER_ID (settings w)); set_solver.
  - by apply trusted_of_uncached.
Qed.

Lemma reachable_trusted_set_current_witness :
  let w := trusted_after_violation_world in
  7 ∈ trusted_of w <->
    7 ∈ db_trusted_users w \/ 7 ∈ TRUSTED_USERS_ENV (settings w)
    \/ BOT_OWNER_USER_ID (settings w) = Some 7.
Proof.
  intros w. apply (reachable_trusted_set_current w 7).
  apply reachable_step, reachable_run_all. constructor.
Defined.


(** ** The blocked-status check and the guard of the handlers *)

Lemma get_user_data_fill_cache t uid w :
  get_user_data t uid (fill_cache w) = get_user_data t uid w.
Proof.
  destruct (_trusted_users_set_cache (settings w)) as [T|] eqn:Hc.
  - by rewrite (fill_cache_cached _ _ Hc).
  - open_world w. rewrite Hc. unfold get_user_data, check_and_unblock_if_trusted.
    destruct owner; steps; done.
Qed.

Lemma fetched_unblocked_when_trusted t uid w :
  uid ∈ trusted_of w ->
  blocked_until_timestamp (eval (get_user_data t uid) w) = None.
Proof.
  intros Htr. pose proof (get_user_data_trusted t uid w Htr) as H. cbv zeta in H.
  destruct (user_data_store w !! uid) as [s0|].
  - destruct H as [-> _]. by destruct (at_checks_fields s0) as (_ & _ & _ & _ & _ & ? & _).
  - by destruct H as [[p ->] _].
Qed.

(** X9.  [is_user_blocked] answers [true] exactly when the fetched session
    carries a block that ends strictly after the clock reading.  It never
    touches the ledger of requests.  When it answers [true] it sends one
    [user_blocked] notice and changes nothing else; when it answers [false]
    it sends nothing, and the session it leaves has no block: a block found
    expired has been cleared, with the violation counter at 0 and the
    block record deleted. *)
Theorem is_user_blocked_result t now uid w :
  let s := eval (get_user_data t uid) w in
  let w0 := exec (get_user_data t uid) w in
  let r := eval (is_user_blocked t now uid) w in
  let w' := exec (is_user_blocked t now uid) w in
  (r = true <-> blocked_at now s) /\
  total_daily_requests_rl w' = total_daily_requests_rl w /\
  sent_rl w' = sent_rl w ++ (if r then [(uid, "user_blocked")] else []) /\
  (r = true ->
     user_data_store w' = user_data_store w0 /\
     db_blocked_users w' = db_blocked_users w0) /\
  (r = false ->
     exists s', user_data_store w' !! uid = Some s' /\
       blocked_until_timestamp s' = None /\
       (is_Some (blocked_until_timestamp s) ->
          s' = cleared s /\ violations s' = 0 /\
          db_blocked_users w' !! user_id s = None)).
Proof.
  intros s w0 r w'. subst s w0 r w'. unfold eval, exec, is_user_blocked, bind.
  destruct (get_user_data t uid w) as [s w0] eqn:Hg. cbn [fst snd].
  destruct (get_user_data_frame _ _ _ _ _ Hg) as (Hs & _ & Hl & Hsent & _).
  unfold blocked_at.
  destruct (blocked_until_timestamp s) as [bu|] eqn:Hb; [case_decide as Hlt|].
  - cbn. rewrite Hl, Hsent. repeat split; try done. by exists bu.
  - destruct (unblock_spec uid s w0) as (Hr & Hst & Hdb & _ & Hl' & Hsent' & _).
    destruct (unblock uid s w0) as [s' w1]. cbn [fst snd] in *. unfold ret. cbn [fst snd].
    rewrite Hl', Hl, Hsent', Hsent, app_nil_r. repeat split; try done.
    + intros (u & [= <-] & ?). lia.
    + intros _. exists (cleared s). rewrite Hst, lookup_insert_eq.
      repeat split; try done; by rewrite Hdb, lookup_delete_eq.
  - cbn. rewrite Hl, Hsent, app_nil_r. repeat split; try done.
    + by intros (u & ? & _).
    + intros _. exists s. repeat split; try done; by intros [? ?].
Qed.

Lemma is_user_blocked_active t now uid w s bu :
  user_data_store w !! uid = Some s ->
  uid ∉ trusted_of w ->
  blocked_until_timestamp s = Some bu ->
  now < bu ->
  is_user_blocked t now uid w
    = (true, with_sent_rl (sent_rl w ++ [(uid, "user_blocked")]) (fill_cache w)).
Proof.
  intros Hs Htr Hb Hlt. unfold is_user_blocked, bind.
  rewrite (get_user_data_cached_untrusted _ _ _ _ Hs Htr), Hb, decide_True by done.
  cbn. by rewrite fill_cache_sent.
Qed.

(** X10.  The guard [block_checked] keeps a blocked user out: for a user
    who is not trusted and whose cached session carries a block that ends
    after the clock reading, a message that is not one of the five commands
    allowed when blocked does not reach the handler.  The guard sends the
    [user_blocked] notice and fills the cache of the trusted set; the
    handler's code is not run, whatever it is. *)
Theorem block_checked_stops_blocked_user t now uid command_text func w s bu :
  user_data_store w !! uid = Some s ->
  uid ∉ trusted_of w ->
  blocked_until_timestamp s = Some bu ->
  now < bu ->
  command_text ∉ ALLOWED_COMMANDS_WHEN_BLOCKED ->
  block_checked t now uid command_text func w
    = (tt, with_sent_rl (sent_rl w ++ [(uid, "user_blocked")]) (fill_cache w)).
Proof.
  intros Hs Htr Hb Hlt Hc. unfold block_checked. cbv zeta.
  rewrite bool_decide_eq_false_2 by done. unfold bind.
  by rewrite (is_user_blocked_active _ _ _ _ _ _ Hs Htr Hb Hlt).
Qed.

Lemma block_checked_stops_blocked_user_witness :
  let w := blocked_by_escalation_world in
  let now := sec 204 + timedelta_minutes 30 in
  block_checked now now 7 "/gemini" (modify restart) w
    = (tt, with_sent_rl (sent_rl w ++ [(7, "user_blocked")]) (fill_cache w)).
Proof.
  intros w now.
  assert (Hs : is_Some (user_data_store w !! 7)) by (vm_compute; eauto).
  destruct Hs as [s Hs].
  apply (block_checked_stops_blocked_user now now 7 "/gemini" (modify restart) w s
           (sec 204 + timedelta_hours 1) Hs).
  - apply (bool_decide_unpack _). by vm_compute.
  - assert (E : (blocked_until_timestamp <$> user_data_store w !! 7)
                = Some (Some (sec 204 + timedelta_hours 1))) by (vm_compute; reflexivity).
    rewrite Hs in E. by injection E.
  - by vm_compute.
  - apply (bool_decide_unpack _). by vm_compute.
Defined.

(** X11.  The guard lets through every message of a trusted user and every
    one of the five commands allowed when blocked.  For an allowed command
    the blocked-status check is not made at all: the handler runs in the
    state as it is.  For a trusted user the handler runs in the state the
    fetch of the session leaves, in which any block of that user has been
    cleared. *)
Theorem block_checked_lets_through t now uid command_text func w :
  (command_text ∈ ALLOWED_COMMANDS_WHEN_BLOCKED ->
     block_checked t now uid command_text func w = func w) /\
  (command_text ∉ ALLOWED_COMMANDS_WHEN_BLOCKED -> uid ∈ trusted_of w ->
     block_checked t now uid command_text func w
       = func (exec (get_user_data t uid) w) /\
     exists s', user_data_store (exec (get_user_data t uid) w) !! uid = Some s' /\
                blocked_until_timestamp s' = None).
Proof.
  unfold block_checked. cbv zeta. split.
  - intros Hc. by rewrite bool_decide_eq_true_2.
  - intros Hc Htr. rewrite bool_decide_eq_false_2 by done.
    pose proof (fetched_unblocked_when_trusted t uid w Htr) as Hb.
    unfold is_user_blocked, bind, eval, exec in *.
    destruct (get_user_data t uid w) as [s w0] eqn:Hg. cbn [fst snd] in *.
    rewrite Hb. cbn. split; [done|].
    destruct (get_user_data_frame _ _ _ _ _ Hg) as (Hs & _). by exists s.
Qed.

Lemma block_checked_lets_through_witness :
  let w := banned_world in
  block_checked 5 5 7 "/donate" (modify restart) w = (tt, restart w) /\
  block_checked 5 5 1 "/gemini" (modify restart) w
    = (tt, restart (exec (get_user_data 5 1) w)).
Proof.
  intros w.
  destruct (block_checked_lets_through 5 5 7 "/donate" (modify restart) w) as [H1 _].
  destruct (block_checked_lets_through 5 5 1 "/gemini" (modify restart) w) as [_ H2].
  split.
  - apply H1. apply (bool_decide_unpack _). by vm_compute.
  - apply H2.
    + apply (bool_decide_unpack _). by vm_compute.
    + apply (bool_decide_unpack _). by vm_compute.
Defined.

(** ** Session expiry *)

Lemma trusted_of_with_store v w :
  trusted_of (with_user_data_store v w) = trusted_of w.
Proof. open_world w. destruct cache; [done|]. by destruct owner. Qed.

Lemma check_session_expiry_core_eq L t now uid w s w0 :
  get_user_data t uid w = (s, w0) ->
  check_session_expiry_core L t now uid w =
    if decide (uid ∈ trusted_of w) then (true, fill_cache w) else
    match session_start_timestamp s with
    | None => (true, w0)
    | Some session_start =>
        if decide (now - session_start <= timedelta_minutes (Z.pos L))
        then (true, w0)
        else (false, with_user_data_store (<[uid := expired s]> (user_data_store w0)) w0)
    end.
Proof.
  intros Hg. unfold check_session_expiry_core, bind at 1.
  rewrite TRUSTED_USERS_SET_eq. case_decide; [done|].
  unfold bind at 1. rewrite get_user_data_fill_cache, Hg.
  destruct (session_start_timestamp s) as [st|]; [|done].
  replace (timedelta_seconds (Z.pos L * 60)) with (timedelta_minutes (Z.pos L))
    by (unfold timedelta_seconds, timedelta_minutes; lia).
  by case_decide.
Qed.

(** X12.  [check_session_expiry_core] reports an expiry ([false]) exactly
    when the user is not trusted and the fetched session has a start that
    lies strictly more than the session lifetime before the clock reading.
    A session exactly as old as the lifetime is still alive; a session
    without a start, and any session of a trusted user, never expires. *)
Theorem check_session_expiry_core_result L t now uid w :
  let s := eval (get_user_data t uid) w in
  eval (check_session_expiry_core L t now uid) w = false <->
  uid ∉ trusted_of w /\
  exists session_start,
    session_start_timestamp s = Some session_start /\
    timedelta_minutes (Z.pos L) < now - session_start.
Proof.
  intros s. subst s. unfold eval.
  destruct (get_user_data t uid w) as [s w0] eqn:Hg.
  rewrite (check_session_expiry_core_eq _ _ _ _ _ _ _ Hg). cbn [fst].
  case_decide as Htr; [cbn; naive_solver|].
  destruct (session_start_timestamp s) as [st|]; [|cbn; naive_solver].
  case_decide; cbn.
  - split; [done|]. intros (_ & st' & [= <-] & ?). lia.
  - split; [|done]. intros _. split; [done|]. exists st. split; [done|lia].
Qed.

(** X13.  What an expiry does.  When [check_session_expiry_core] reports an
    expiry, the session is left in state [NONE] with no chat handle, an
    empty history and no session start, while its identifier, persisted
    settings, request timestamps, violation counter and block are those of
    the fetched session; no other user's session, no block record and
    neither the ledger nor the rate limiter's messages change; and the next
    check of that user, at any clock reading, reports no expiry. *)
Theorem check_session_expiry_core_expires L t now uid w :
  eval (check_session_expiry_core L t now uid) w = false ->
  let s := eval (get_user_data t uid) w in
  let w0 := exec (get_user_data t uid) w in
  let w' := exec (check_session_expiry_core L t now uid) w in
  exists s',
    user_data_store w' !! uid = Some s' /\
    state s' = NONE /\ gemini_chat s' = None /\ mistral_chat_history s' = [] /\
    session_start_timestamp s' = None /\
    user_id s' = user_id s /\ persistent_settings s' = persistent_settings s /\
    requests_timestamps s' = requests_timestamps s /\
    last_request_timestamp s' = last_request_timestamp s /\
    violations s' = violations s /\
    blocked_until_timestamp s' = blocked_until_timestamp s /\
    (forall u, u <> uid -> user_data_store w' !! u = user_data_store w0 !! u) /\
    db_blocked_users w' = db_blocked_users w0 /\
    total_daily_requests_rl w' = total_daily_requests_rl w /\
    sent_rl w' = sent_rl w /\
    forall L' t' now',
      eval (check_session_expiry_core L' t' now' uid) w' = true.
Proof.
  intros Hr s w0 w'.
  pose proof (proj1 (check_session_expiry_core_result L t now uid w) Hr)
    as (Htr & st & Hst & Hlt).
  subst s w0 w'. unfold eval, exec in *.
  destruct (get_user_data t uid w) as [s w0] eqn:Hg. cbn [fst snd] in *.
  destruct (get_user_data_frame _ _ _ _ _ Hg) as (Hs & _ & Hl & Hsent & _).
  destruct (get_user_data_trusted_of _ _ _ _ _ Hg) as [Htr0 _].
  rewrite (check_session_expiry_core_eq _ _ _ _ _ _ _ Hg).
  rewrite decide_False, Hst, decide_False by (done || lia). cbn [snd].
  set (w1 := with_user_data_store _ w0).
  assert (Hs1 : user_data_store w1 !! uid = Some (expired s))
    by (subst w1; cbn; by rewrite lookup_insert_eq).
  destruct (reset_chat_histories_fields s)
    as (Hi & Hp & _ & Hrq & Hlr & _ & Hv & Hb & _ & _).
  exists (expired s). split; [done|].
  assert (Hh : mistral_chat_history (expired s) = [])
    by (unfold expired; cbn; by rewrite reset_chat_histories_eq).
  repeat split; try done.
  - unfold expired. cbn. by rewrite reset_chat_histories_eq.
  - intros u Hu. subst w1. cbn. by rewrite lookup_insert_ne.
  - intros L' t' now'.
    assert (Htr1 : uid ∉ trusted_of w1).
    { replace (trusted_of w1) with (trusted_of w0); [by rewrite Htr0|].
      subst w1. by rewrite trusted_of_with_store. }
    pose proof (get_user_data_cached_untrusted t' uid w1 _ Hs1 Htr1) as Hg1.
    rewrite (check_session_expiry_core_eq _ _ _ _ _ _ _ Hg1).
    by rewrite decide_False by done.
Qed.

Lemma check_session_expiry_core_expires_witness :
  let w := chatting_world in
  let now := timedelta_minutes 120 + 1 in
  let w' := exec (check_session_expiry_core 120 now now 7) w in
  (state <$> user_data_store w !! 7) = Some GEMINI_MODE /\
  exists s',
    user_data_store w' !! 7 = Some s' /\ state s' = NONE /\
    session_start_timestamp s' = None.
Proof.
  intros w now w'. split; [vm_compute; reflexivity|].
  destruct (check_session_expiry_core_expires 120 now now 7 w)
    as (s' & Hs & Hst & _ & _ & Hss & _).
  - vm_compute. reflexivity.
  - by exists s'.
Defined.

(** X14.  Session expiry keeps the agreement between the registry and the
    store: from a consistent state it leads to a consistent state (every
    session in the slot of its own identifier, every block record dated, an
    unblocked cached session without a block record, a block only with
    violations or the sentinel of the manual ban). *)
Theorem check_session_expiry_core_consistent L t now uid w :
  consistent w -> consistent (exec (check_session_expiry_core L t now uid) w).
Proof.
  intros Hc.
  assert (H : hoare (Inv None) (check_session_expiry_core L t now uid)
                (fun _ => Inv None)).
  { unfold check_session_expiry_core.
    eapply hoare_bind; [apply hoare_sb_inv, TRUSTED_USERS_SET_same_blocks|]. intros T.
    case_decide; [apply hoare_inv_ret|].
    eapply hoare_bind; [apply get_user_data_inv'|]. intros s.
    destruct (session_start_timestamp s) as [st|]; [|apply hoare_invat_ret].
    case_decide; [apply hoare_invat_ret|]. cbv zeta.
    eapply hoare_bind.
    - apply (store_user_same_block_inv None uid s); cbn;
        by destruct (reset_chat_histories_fields s)
          as (? & _ & _ & _ & _ & _ & ? & ? & _).
    - intros ?. apply hoare_ret. by intros w1 [H1 _]. }
  by destruct (H w (conj Hc (fun u (E : None = Some u) => ltac:(discriminate E)))).
Qed.

Lemma check_session_expiry_core_consistent_witness :
  consistent (exec (check_session_expiry_core 120 (timedelta_minutes 121)
                      (timedelta_minutes 121) 7) chatting_world).
Proof.
  apply check_session_expiry_core_consistent.
  apply reachable_consistent, reachable_run_all. constructor.
Defined.

(** ** The owner's commands and the payment *)

Lemma trust_kept_refl w : trust_kept w w.
Proof. done. Qed.

Lemma trust_kept_trans w1 w2 w3 :
  trust_kept w1 w2 -> trust_kept w2 w3 -> trust_kept w1 w3.
Proof. unfold trust_kept. congruence. Qed.

Lemma trusted_of_ext w w' :
  settings w' = settings w -> db_trusted_users w' = db_trusted_users w ->
  trusted_of w' = trusted_of w.
Proof.
  destruct w as [st ? dbt ? ? ? ?], w' as [st' ? dbt' ? ? ? ?]. cbn. intros -> ->.
  unfold trusted_of, eval, TRUSTED_USERS_SET, bind, gets. cbn.
  by destruct (_trusted_users_set_cache st).
Qed.

Ltac trust_kept_leaf :=
  idtac; unfold trust_kept; apply trusted_of_ext; cbn; reflexivity.

Lemma TRUSTED_USERS_SET_trust_kept : keeps trust_kept TRUSTED_USERS_SET.
Proof. intros w. apply trusted_of_fill_cache. Qed.

Lemma get_user_data_trust_kept t uid : keeps trust_kept (get_user_data t uid).
Proof.
  intros w. destruct (get_user_data t uid w) as [s w0] eqn:Hg.
  by destruct (get_user_data_trusted_of _ _ _ _ _ Hg).
Qed.

Ltac trust_kept_known :=
  idtac;
  lazymatch goal with
  | |- keeps _ TRUSTED_USERS_SET => apply TRUSTED_USERS_SET_trust_kept
  | |- keeps _ (get_user_data _ _) => apply get_user_data_trust_kept
  end.

Ltac trust_kept_walk :=
  keeps_walk trust_kept_refl trust_kept_trans trust_kept_known trust_kept_leaf.

Lemma check_and_unblock_if_trusted_trust_kept t uid T :
  keeps trust_kept (check_and_unblock_if_trusted t uid T).
Proof. unfold check_and_unblock_if_trusted; unfold_leaves. trust_kept_walk. Qed.

Lemma unblock_trust_kept slot s : keeps trust_kept (unblock slot s).
Proof. unfold unblock; unfold_leaves. trust_kept_walk. Qed.

Lemma run_trust_kept o :
  match o with
  | OpAddTrusted _ _ _ _ _ | OpRemoveTrusted _ _ _ _ | OpSuccessfulPayment _ _ _ _
  | OpRestart => False
  | _ => True
  end ->
  keeps trust_kept (run o).
Proof.
  destruct o; try done; intros _; unfold_ops; trust_kept_walk.
Qed.

(** X15.  The trusted set in force changes only through [/addtrusted],
    [/removetrusted], a successful payment and a restart: after any other
    operation - a fetch, a check of the rate limiter, [/ban], [/unban], a
    handler's update of a session - the same users are trusted as
    before. *)
Theorem only_grants_change_the_trusted_set o w :
  (forall td t1 t2 caller target, o <> OpAddTrusted td t1 t2 caller target) ->
  (forall td t1 caller target, o <> OpRemoveTrusted td t1 caller target) ->
  (forall t1 t2 t3 uid, o <> OpSuccessfulPayment t1 t2 t3 uid) ->
  o <> OpRestart ->
  trusted_of (exec (run o) w) = trusted_of w.
Proof.
  intros H1 H2 H3 H4. apply (run_trust_kept o).
  destruct o; try done; [by eapply H1|by eapply H2|by eapply H3].
Qed.

Lemma only_grants_change_the_trusted_set_witness :
  let w := trusted_after_violation_world in
  trusted_of (exec (run (OpUnban 50 50 50 50 1 7)) w) = trusted_of w.
Proof.
  intros w. apply (only_grants_change_the_trusted_set (OpUnban 50 50 50 50 1 7) w).
  - discriminate.
  - discriminate.
  - discriminate.
  - discriminate.
Defined.


Lemma owner_only_owner td caller (func : M unit) w :
  BOT_OWNER_USER_ID (settings w) = Some caller ->
  owner_only td caller func w = func w.
Proof.
  intros H. unfold owner_only, bind, gets. rewrite H. by rewrite decide_True.
Qed.

Lemma owner_only_other td caller (func : M unit) w :
  BOT_OWNER_USER_ID (settings w) <> Some caller ->
  owner_only td caller func w = (tt, exec (get_user_data td caller) w).
Proof.
  intros H. unfold owner_only, bind, gets, exec, ret.
  destruct (BOT_OWNER_USER_ID (settings w)) as [o|].
  - rewrite decide_False by congruence. by destruct (get_user_data td caller w).
  - by destruct (get_user_data td caller w).
Qed.

(** X16.  The owner's commands are denied to everyone else.  When the
    caller is not the configured owner - or no owner is configured - the
    wrapped command is not run, whatever it is: the call only fetches the
    caller's session (for the language of the refusal).  The durable list
    of trusted users and the trusted set are as before, and no other
    user's session or block record changes. *)
Theorem owner_only_denies_others td caller func w :
  BOT_OWNER_USER_ID (settings w) <> Some caller ->
  let w' := exec (owner_only td caller func) w in
  w' = exec (get_user_data td caller) w /\
  db_trusted_users w' = db_trusted_users w /\
  trusted_of w' = trusted_of w /\
  forall u, u <> caller ->
    user_data_store w' !! u = user_data_store w !! u /\
    db_blocked_users w' !! u = db_blocked_users w !! u.
Proof.
  intros H w'.
  assert (E : w' = exec (get_user_data td caller) w)
    by (subst w'; unfold exec at 1; by rewrite owner_only_other).
  rewrite E. clear E w'.
  unfold exec. destruct (get_user_data td caller w) as [s w0] eqn:Hg.
  destruct (get_user_data_frame _ _ _ _ _ Hg) as (_ & _ & _ & _ & Hdb & Hst & Hbl & _).
  destruct (get_user_data_trusted_of _ _ _ _ _ Hg) as [Htr _].
  cbn [snd]. repeat split; try done; [by apply Hst|by apply Hbl].
Qed.

Lemma owner_only_denies_others_witness :
  let w := one_violation_world in
  let w' := exec (owner_only 50 7 (ban_user_command_handler 50 50 50 50 7 8)) w in
  w' = exec (get_user_data 50 7) w /\ db_trusted_users w' = db_trusted_users w.
Proof.
  intros w w'.
  destruct (owner_only_denies_others 50 7
              (ban_user_command_handler 50 50 50 50 7 8) w) as (H1 & H2 & _).
  - vm_compute. discriminate.
  - split; [exact H1|exact H2].
Defined.

Lemma trusted_of_uncached_eq w :
  _trusted_users_set_cache (settings w) = None ->
  trusted_of w
    = owner_set (settings w) ∪ (db_trusted_users w ∪ TRUSTED_USERS_ENV (settings w)).
Proof.
  intros Hc. unfold trusted_of, eval, TRUSTED_USERS_SET, owner_set.
  destruct w as [st ? ? ? ? ? ?]; cbn in *. rewrite Hc. cbn.
  destruct (BOT_OWNER_USER_ID st); cbn; set_solver.
Qed.

Lemma trusted_of_fresh w :
  cache_fresh w ->
  trusted_of w
    = owner_set (settings w) ∪ (db_trusted_users w ∪ TRUSTED_USERS_ENV (settings w)).
Proof.
  intros Hf. destruct (_trusted_users_set_cache (settings w)) as [T|] eqn:Hc.
  - rewrite (trusted_of_cached _ _ Hc). by apply Hf.
  - by apply trusted_of_uncached_eq.
Qed.

(** The state after the durable list has been changed to [dbt] and the cache
    reset and read again. *)
Lemma trusted_after_change dbt w :
  let w2 := with_settings (set_trusted_cache None (settings (with_db_trusted_users dbt w)))
              (with_db_trusted_users dbt w) in
  trusted_of w2 = owner_set (settings w) ∪ (dbt ∪ TRUSTED_USERS_ENV (settings w)) /\
  TRUSTED_USERS_SET w2 = (trusted_of w2, fill_cache w2) /\
  TRUSTED_USERS_SET (fill_cache w2) = (trusted_of w2, fill_cache w2) /\
  db_trusted_users (fill_cache w2) = dbt /\
  user_data_store (fill_cache w2) = user_data_store w /\
  db_blocked_users (fill_cache w2) = db_blocked_users w.
Proof.
  intros w2. split; [|split; [apply TRUSTED_USERS_SET_eq|split]].
  - rewrite trusted_of_uncached_eq by (subst w2; by destruct w).
    subst w2. destruct w as [st ? ? ? ? ? ?]. cbn. unfold owner_set. by destruct st.
  - rewrite (TRUSTED_USERS_SET_cached _ _ (cache_fill_cache w2)). done.
  - rewrite fill_cache_store, fill_cache_blocked, fill_cache_eq.
    subst w2. by destruct w.
Qed.

Lemma check_and_unblock_if_trusted_clears t uid T w :
  uid ∈ T ->
  let w' := exec (check_and_unblock_if_trusted t uid T) w in
  forall s', user_data_store w' !! uid = Some s' -> blocked_until_timestamp s' = None.
Proof.
  intros HT. unfold exec, check_and_unblock_if_trusted.
  rewrite decide_False by (intros H; by apply H). destruct w; steps;
    intros s'; rewrite ?lookup_insert_eq; use_lookups; by intros [= <-].
Qed.

Lemma add_trusted_command_handler_eq t1 t2 caller target w s w0 :
  get_user_data t1 caller w = (s, w0) ->
  add_trusted_command_handler t1 t2 caller target w =
    if decide (target ∈ trusted_of w) then (tt, w0) else
    let w2 := with_settings
                (set_trusted_cache None
                   (settings (with_db_trusted_users ({[target]} ∪ db_trusted_users w0) w0)))
                (with_db_trusted_users ({[target]} ∪ db_trusted_users w0) w0) in
    if decide (target ∈ trusted_of w2)
    then check_and_unblock_if_trusted t2 target (trusted_of w2) (fill_cache w2)
    else (tt, fill_cache w2).
Proof.
  intros Hg. unfold add_trusted_command_handler, bind at 1. rewrite Hg.
  destruct (get_user_data_trusted_of _ _ _ _ _ Hg) as [_ HT].
  unfold bind at 1. rewrite HT. case_decide; [done|].
  unfold bind at 1, add_trusted_user_db, modify at 1.
  unfold bind at 1, modify at 1. cbv zeta.
  destruct (trusted_after_change ({[target]} ∪ db_trusted_users w0) w0)
    as (_ & H2 & H3 & _).
  unfold bind at 1. cbv zeta in H2. rewrite H2. case_decide; [|done].
  unfold bind. cbv zeta in H3. by rewrite H3.
Qed.

(** X17.  After the owner's [/addtrusted] the target is trusted.  From a
    state whose cache of the trusted set is not stale (every reachable
    state) the trusted set afterwards is the one before plus the target.
    A target that was not trusted before is now in the durable list, and
    its cached session, if there is one, carries no block any more. *)
Theorem add_trusted_grants_trust td t1 t2 caller target w :
  BOT_OWNER_USER_ID (settings w) = Some caller ->
  cache_fresh w ->
  let w' := exec (run (OpAddTrusted td t1 t2 caller target)) w in
  trusted_of w' = {[target]} ∪ trusted_of w /\
  (target ∉ trusted_of w ->
     target ∈ db_trusted_users w' /\
     forall s', user_data_store w' !! target = Some s' ->
       blocked_until_timestamp s' = None).
Proof.
  intros Ho Hf w'. subst w'. unfold exec, run. rewrite owner_only_owner by done.
  destruct (get_user_data t1 caller w) as [s w0] eqn:Hg.
  destruct (get_user_data_frame _ _ _ _ _ Hg) as (_ & Hst0 & _ & _ & Hdb0 & _).
  destruct (get_user_data_trusted_of _ _ _ _ _ Hg) as [Htr0 _].
  rewrite (add_trusted_command_handler_eq _ _ _ _ _ _ _ Hg).
  case_decide as Hin; cbn [snd].
  { split; [|done]. rewrite Htr0. set_solver. }
  cbv zeta.
  destruct (trusted_after_change ({[target]} ∪ db_trusted_users w0) w0)
    as (H1 & _ & _ & H4 & _). cbv zeta in H1, H4.
  set (w2 := with_settings _ _) in *.
  assert (HT2 : trusted_of w2 = {[target]} ∪ trusted_of w).
  { rewrite H1, (trusted_of_fresh w Hf), Hdb0, Hst0.
    replace (owner_set (set_trusted_cache (Some (trusted_of w)) (settings w)))
      with (owner_set (settings w)) by (by destruct (settings w)).
    replace (TRUSTED_USERS_ENV (set_trusted_cache (Some (trusted_of w)) (settings w)))
      with (TRUSTED_USERS_ENV (settings w)) by (by destruct (settings w)).
    set_solver. }
  rewrite decide_True by (rewrite HT2; set_solver).
  pose proof (check_and_unblock_if_trusted_trust_kept t2 target (trusted_of w2)
                (fill_cache w2)) as Hk.
  unfold trust_kept in Hk. rewrite trusted_of_fill_cache in Hk.
  split; [by rewrite Hk|]. intros _. split.
  - assert (Hl : keeps trust_list_kept (check_and_unblock_if_trusted t2 target (trusted_of w2))).
    { unfold check_and_unblock_if_trusted; unfold_leaves.
      keeps_walk trust_list_kept_refl trust_list_kept_trans fail trust_leaf. }
    rewrite (Hl (fill_cache w2)), H4. set_solver.
  - apply check_and_unblock_if_trusted_clears. rewrite HT2. set_solver.
Qed.

Lemma add_trusted_grants_trust_witness :
  let w := blocked_by_escalation_world in
  let w' := exec (run (OpAddTrusted (sec 300) (sec 300) (sec 300) 1 7)) w in
  7 ∉ trusted_of w /\ 7 ∈ trusted_of w' /\ 7 ∈ db_trusted_users w' /\
  forall s', user_data_store w' !! 7 = Some s' -> blocked_until_timestamp s' = None.
Proof.
  intros w w'.
  assert (Hn : 7 ∉ trusted_of w) by (apply (bool_decide_unpack _); by vm_compute).
  destruct (add_trusted_grants_trust (sec 300) (sec 300) (sec 300) 1 7 w)
    as (H1 & H2).
  - by vm_compute.
  - apply reachable_cache_fresh, reachable_run_all. constructor.
  - destruct (H2 Hn) as [H3 H4]. fold w' in H1, H3, H4.
    split; [exact Hn|]. split; [rewrite H1; set_solver|]. by split.
Defined.

Lemma remove_trusted_command_handler_eq t1 caller target w s w0 :
  get_user_data t1 caller w = (s, w0) ->
  remove_trusted_command_handler t1 caller target w =
    if decide (Some target = BOT_OWNER_USER_ID (settings w)) then (tt, w0) else
    if decide (target ∈ trusted_of w) then
      (tt, fill_cache
             (with_settings
                (set_trusted_cache None
                   (settings (with_db_trusted_users (db_trusted_users w0 ∖ {[target]}) w0)))
                (with_db_trusted_users (db_trusted_users w0 ∖ {[target]}) w0)))
    else (tt, w0).
Proof.
  intros Hg. unfold remove_trusted_command_handler, bind at 1. rewrite Hg.
  destruct (get_user_data_frame _ _ _ _ _ Hg) as (_ & Hst0 & _).
  destruct (get_user_data_trusted_of _ _ _ _ _ Hg) as [_ HT].
  unfold bind at 1, gets at 1.
  replace (BOT_OWNER_USER_ID (settings w0)) with (BOT_OWNER_USER_ID (settings w))
    by (rewrite Hst0; by destruct (settings w)).
  case_decide; [done|].
  unfold bind at 1. rewrite HT. case_decide; [|done].
  unfold bind at 1, remove_trusted_user_db, modify at 1.
  unfold bind at 1, modify at 1. cbv zeta.
  destruct (trusted_after_change (db_trusted_users w0 ∖ {[target]}) w0)
    as (_ & H2 & _).
  unfold bind at 1. cbv zeta in H2. by rewrite H2.
Qed.

(** X18.  What the owner's [/removetrusted] can and cannot revoke.  From a
    state whose cache of the trusted set is not stale, after the command a
    user is trusted exactly when it was trusted before and is not the
    target, or is a target that the configured list [TRUSTED_USERS] names:
    trust given in the durable list is revoked, trust given by the
    configuration is not.  The owner itself cannot be removed: with the
    owner as target nothing changes. *)
Theorem remove_trusted_revokes_only_durable_trust td t1 caller target w :
  BOT_OWNER_USER_ID (settings w) = Some caller ->
  cache_fresh w ->
  let w' := exec (run (OpRemoveTrusted td t1 caller target)) w in
  (target = caller -> trusted_of w' = trusted_of w /\
                      db_trusted_users w' = db_trusted_users w) /\
  (target <> caller ->
     (target ∈ trusted_of w -> target ∉ db_trusted_users w') /\
     forall u, u ∈ trusted_of w' <->
       u ∈ trusted_of w /\ (u <> target \/ target ∈ TRUSTED_USERS_ENV (settings w))).
Proof.
  intros Ho Hf w'. subst w'. unfold exec, run. rewrite owner_only_owner by done.
  destruct (get_user_data t1 caller w) as [s w0] eqn:Hg.
  destruct (get_user_data_frame _ _ _ _ _ Hg) as (_ & Hst0 & _ & _ & Hdb0 & _).
  destruct (get_user_data_trusted_of _ _ _ _ _ Hg) as [Htr0 _].
  rewrite (remove_trusted_command_handler_eq _ _ _ _ _ _ Hg), Ho.
  split.
  - intros ->. by rewrite decide_True.
  - intros Hne. rewrite decide_False by congruence.
    case_decide as Hin; cbn [snd].
    + destruct (trusted_after_change (db_trusted_users w0 ∖ {[target]}) w0)
        as (H1 & _ & _ & H4 & _). cbv zeta in H1, H4.
      set (w2 := with_settings _ _) in *.
      rewrite H4, trusted_of_fill_cache, H1, (trusted_of_fresh w Hf), Hdb0, Hst0.
      replace (owner_set (set_trusted_cache (Some (trusted_of w)) (settings w)))
        with (owner_set (settings w)) by (by destruct (settings w)).
      replace (TRUSTED_USERS_ENV (set_trusted_cache (Some (trusted_of w)) (settings w)))
        with (TRUSTED_USERS_ENV (settings w)) by (by destruct (settings w)).
      assert (Hown : target ∉ owner_set (settings w))
        by (unfold owner_set; rewrite Ho; set_solver).
      split; [set_solver|]. intros u.
      destruct (decide (u = target)) as [->|]; set_solver.
    + rewrite Htr0. split; [done|]. intros u. split; [|tauto].
      intros Hu. split; [done|]. left. by intros ->.
Qed.

Lemma remove_trusted_revokes_only_durable_trust_witness :
  let w := trusted_after_violation_world in
  let w' := exec (run (OpRemoveTrusted (sec 30) (sec 30) 1 7)) w in
  7 ∈ trusted_of w /\ 7 ∉ trusted_of w' /\ 1 ∈ trusted_of w'.
Proof.
  intros w w'.
  assert (H7 : 7 ∈ trusted_of w) by (apply (bool_decide_unpack _); by vm_compute).
  assert (H1 : 1 ∈ trusted_of w) by (apply (bool_decide_unpack _); by vm_compute).
  destruct (remove_trusted_revokes_only_durable_trust (sec 30) (sec 30) 1 7 w)
    as (_ & H).
  - by vm_compute.
  - apply reachable_cache_fresh. apply reachable_step.
    apply reachable_run_all. constructor.
  - destruct H as [_ H]; [done|]. fold w' in H.
    split; [exact H7|]. split.
    + rewrite H. intros [_ [Hc|Hc]]; [exact (Hc eq_refl)|]. revert Hc.
      apply (bool_decide_unpack _). vm_compute. exact I.
    + apply H. split; [exact H1|]. left. discriminate.
Defined.

(** ** [/ban] and [/unban] *)

(** The fetch of a user who is not trusted and has no cached session. *)
Lemma get_user_data_miss_untrusted t uid w :
  user_data_store w !! uid = None ->
  uid ∉ trusted_of w ->
  let p := default (mkPersistent (DEFAULT_LANGUAGE (settings w))
                      (DEFAULT_GEMINI_MODEL (settings w)))
             (db_user_settings w !! uid) in
  let s := eval (get_user_data t uid) w in
  let w0 := exec (get_user_data t uid) w in
  match db_blocked_users w !! uid with
  | Some (Some bu, v) =>
      if decide (t < bu)
      then s = fresh_session uid p (Some bu) v /\ db_blocked_users w0 = db_blocked_users w
      else s = fresh_session uid p None 0 /\
           db_blocked_users w0 = delete uid (db_blocked_users w)
  | Some (None, v) =>
      s = fresh_session uid p None v /\ db_blocked_users w0 = db_blocked_users w
  | None => s = fresh_session uid p None 0 /\ db_blocked_users w0 = db_blocked_users w
  end.
Proof.
  intros Hs Hn. unfold get_user_data. open_world w. rewrite Hs.
  steps; use_lookups; try done.
Qed.

Lemma trusted_of_with_db_blocked v w :
  trusted_of (with_db_blocked_users v w) = trusted_of w.
Proof. apply trusted_of_ext; by destruct w. Qed.

Lemma trusted_of_with_user_data_store v w :
  trusted_of (with_user_data_store v w) = trusted_of w.
Proof. apply trusted_of_ext; by destruct w. Qed.

(** The part of [/ban] that sets the block, for a target that is not
    trusted. *)
Lemma ban_sets_block bu t target w :
  target ∉ trusted_of w ->
  t < bu ->
  let w' :=
    exec (block_user_db target (Some bu) (-1) ;;;
          (target_user_s_data <~ get_user_data t target ;;
           store_user target
             (reset_chat_histories
                (set_state NONE
                   (set_violations (-1)
                      (set_blocked_until_timestamp (Some bu) target_user_s_data)))))) w in
  trusted_of w' = trusted_of w /\
  db_blocked_users w' !! target = Some (Some bu, -1) /\
  exists s', user_data_store w' !! target = Some s' /\
    blocked_until_timestamp s' = Some bu /\ violations s' = -1 /\
    state s' = NONE /\ gemini_chat s' = None /\ mistral_chat_history s' = [].
Proof.
  intros Htr Hlt w'. subst w'. unfold exec, bind, block_user_db, modify.
  cbv beta iota.
  set (w1 := with_db_blocked_users _ w).
  assert (Htr1 : target ∉ trusted_of w1)
    by (subst w1; by rewrite trusted_of_with_db_blocked).
  assert (Hdb1 : db_blocked_users w1 !! target = Some (Some bu, -1))
    by (subst w1; destruct w; cbn; by rewrite lookup_insert_eq).
  destruct (get_user_data t target w1) as [s w2] eqn:Hg.
  destruct (get_user_data_trusted_of _ _ _ _ _ Hg) as [Htr2 _].
  assert (Hdb2 : db_blocked_users w2 = db_blocked_users w1).
  { destruct (user_data_store w1 !! target) as [s0|] eqn:Hs0.
    - rewrite (get_user_data_cached_untrusted _ _ _ _ Hs0 Htr1) in Hg.
      injection Hg as _ <-. apply fill_cache_blocked.
    - pose proof (get_user_data_miss_untrusted t target w1 Hs0 Htr1) as Hm.
      cbv zeta in Hm. rewrite Hdb1, decide_True in Hm by done.
      unfold exec in Hm. rewrite Hg in Hm. by destruct Hm. }
  unfold store_user, modify. cbn [snd].
  set (s' := reset_chat_histories _).
  split; [|split].
  - rewrite trusted_of_with_user_data_store, Htr2. subst w1.
    by rewrite trusted_of_with_db_blocked.
  - cbn. by rewrite Hdb2.
  - exists s'. split; [cbn; by rewrite lookup_insert_eq|].
    destruct (reset_chat_histories_fields
                (set_state NONE (set_violations (-1)
                   (set_blocked_until_timestamp (Some bu) s))))
      as (_ & _ & Hst & _ & _ & _ & Hv & Hb & Hc & Hh).
    by repeat split.
Qed.

Lemma ban_user_command_handler_bans t1 t2 t3 t4 caller target w s w0 :
  get_user_data t1 caller w = (s, w0) ->
  Some target <> BOT_OWNER_USER_ID (settings w) ->
  target <> caller ->
  (forall u, db_blocked_users w !! target = Some (Some u, -1) -> u <= t2) ->
  (forall v, db_blocked_users w !! target <> Some (None, v)) ->
  ban_user_command_handler t1 t2 t3 t4 caller target w =
    (block_user_db target (Some (ban_until t3)) (-1) ;;;
     (target_user_s_data <~ get_user_data t4 target ;;
      store_user target
        (reset_chat_histories
           (set_state NONE
              (set_violations (-1)
                 (set_blocked_until_timestamp (Some (ban_until t3))
                    target_user_s_data)))))) w0.
Proof.
  intros Hg Ho Hc Hact Hnull.
  destruct (get_user_data_frame _ _ _ _ _ Hg) as (_ & Hst0 & _ & _ & _ & _ & Hbl & _).
  unfold ban_user_command_handler, bind at 1. rewrite Hg.
  unfold bind at 1, gets at 1.
  replace (BOT_OWNER_USER_ID (settings w0)) with (BOT_OWNER_USER_ID (settings w))
    by (rewrite Hst0; by destruct (settings w)).
  rewrite decide_False, decide_False by done.
  unfold bind at 1, get_blocked_user_info_db, gets at 1. cbv zeta.
  rewrite (Hbl target Hc). fold (ban_until t3).
  destruct (db_blocked_users w !! target) as [[[u|] v]|] eqn:Hrec; [| |done].
  - case_decide as Hv; [|done]. subst v.
    rewrite decide_False; [done|]. specialize (Hact u eq_refl). lia.
  - by destruct (Hnull v).
Qed.

(** X19.  [/ban] by the owner blocks the target.  For a target that is
    neither the caller nor trusted and is not already under an active
    manual ban, in a state whose block records are all dated: afterwards
    the store holds the record (a hundred years from the clock reading,
    violations -1); the cached session carries the same block and the
    sentinel, is in state [NONE] and has lost its chat handle and history;
    every rate-limit check before the end of the ban is refused without a
    message, a counted request or a violation; and the list of active
    blocks shows the ban. *)
Theorem ban_blocks_the_target td t1 t2 t3 t4 caller target w :
  BOT_OWNER_USER_ID (settings w) = Some caller ->
  target <> caller ->
  target ∉ trusted_of w ->
  db_until_set w ->
  (forall u, db_blocked_users w !! target = Some (Some u, -1) -> u <= t2) ->
  t4 < ban_until t3 ->
  let w' := exec (run (OpBan td t1 t2 t3 t4 caller target)) w in
  db_blocked_users w' !! target = Some (Some (ban_until t3), -1) /\
  (exists s', user_data_store w' !! target = Some s' /\
     blocked_until_timestamp s' = Some (ban_until t3) /\ violations s' = -1 /\
     state s' = NONE /\ gemini_chat s' = None /\ mistral_chat_history s' = []) /\
  (forall t now ct inc, now < ban_until t3 ->
     check_rate_limits t now target ct inc w' = (Returns false, fill_cache w')) /\
  (forall now, now < ban_until t3 ->
     eval (get_all_blocked_users_info_db now) w' !! target
       = Some (Some (ban_until t3), -1)).
Proof.
  intros Ho Hne Htr Hdated Hact Hlt w'.
  destruct (get_user_data t1 caller w) as [s w0] eqn:Hg.
  destruct (get_user_data_trusted_of _ _ _ _ _ Hg) as [Htr0 _].
  assert (E : run (OpBan td t1 t2 t3 t4 caller target) w =
              (block_user_db target (Some (ban_until t3)) (-1) ;;;
               (target_user_s_data <~ get_user_data t4 target ;;
                store_user target
                  (reset_chat_histories
                     (set_state NONE
                        (set_violations (-1)
                           (set_blocked_until_timestamp (Some (ban_until t3))
                              target_user_s_data)))))) w0).
  { unfold run. rewrite owner_only_owner by done.
    apply (ban_user_command_handler_bans _ _ _ _ _ _ _ _ _ Hg); try done.
    - rewrite Ho. congruence.
    - intros v Hv. destruct (Hdated _ _ Hv) as [? [=]]. }
  assert (Htr0' : target ∉ trusted_of w0) by (by rewrite Htr0).
  pose proof (ban_sets_block (ban_until t3) t4 target w0 Htr0' Hlt) as H.
  cbv zeta in H. unfold exec in H. rewrite <- E in H. fold (exec (run (OpBan td t1 t2 t3 t4 caller target)) w) in H.
  fold w' in H. destruct H as (Htr' & Hdb & s' & Hs' & Hb & Hrest).
  split; [done|]. split; [by exists s'|]. split.
  - intros t now ct inc Hnow.
    assert (Hn' : target ∉ trusted_of w') by (rewrite Htr'; done).
    pose proof (get_user_data_cached_untrusted t target w' s' Hs' Hn') as Hg'.
    rewrite (check_rate_limits_untrusted _ _ _ _ _ _ _ _ Hg' Hn'). cbv zeta.
    by rewrite Hb, decide_True.
  - intros now Hnow. apply get_all_blocked_users_info_db_lookup. split; [done|].
    intros ut [= <-]. done.
Qed.

Lemma ban_blocks_the_target_witness :
  let w := one_violation_world in
  let w' := exec (run (OpBan (sec 50) (sec 50) (sec 50) (sec 50) (sec 50) 1 7)) w in
  check_rate_limits (sec 60) (sec 60) 7 "gemini" true w' = (Returns false, fill_cache w') /\
  db_blocked_users w' !! 7 = Some (Some (ban_until (sec 50)), -1).
Proof.
  intros w w'.
  destruct (ban_blocks_the_target (sec 50) (sec 50) (sec 50) (sec 50) (sec 50) 1 7 w)
    as (H1 & _ & H2 & _).
  - vm_compute. reflexivity.
  - discriminate.
  - apply (bool_decide_unpack _). vm_compute. exact I.
  - apply reachable_consistent, reachable_run_all. constructor.
  - intros u E. vm_compute in E. discriminate E.
  - vm_compute. reflexivity.
  - split; [|exact H1]. apply H2. vm_compute. reflexivity.
Defined.

Lemma consistent_after_fetch t uid w :
  consistent w -> consistent (exec (get_user_data t uid) w).
Proof.
  intros Hc. apply (get_user_data_keeps None t uid w). by split.
Qed.

Lemma unban_user_command_handler_eq t1 t2 t3 caller target w s w0 :
  get_user_data t1 caller w = (s, w0) ->
  unban_user_command_handler t1 t2 t3 caller target w =
    let not_banned : M unit :=
      unblock_user_db target ;;;
      cached <~ gets (fun w => user_data_store w !! target) ;;
      match cached with
      | Some s => unblock target s ;;; ret tt
      | None => ret tt
      end in
    match db_blocked_users w0 !! target with
    | None => not_banned w0
    | Some (None, _) => (tt, w0)
    | Some (Some u, _) =>
        if decide (u < t2) then not_banned w0
        else (target_user_s_data <~ get_user_data t3 target ;;
              unblock target target_user_s_data ;;; ret tt) w0
    end.
Proof.
  intros Hg. unfold unban_user_command_handler, bind at 1. rewrite Hg.
  unfold bind at 1, get_blocked_user_info_db, gets at 1. cbv zeta.
  destruct (db_blocked_users w0 !! target) as [[[u|] v]|]; try done.
  by case_decide.
Qed.

Lemma unban_not_banned_clears target w :
  let w' :=
    snd ((unblock_user_db target ;;;
          cached <~ gets (fun w => user_data_store w !! target) ;;
          match cached with
          | Some s => unblock target s ;;; ret tt
          | None => ret tt
          end) w) in
  db_blocked_users w' !! target = None /\
  forall s', user_data_store w' !! target = Some s' ->
    blocked_until_timestamp s' = None /\ violations s' = 0.
Proof.
  unfold bind, unblock_user_db, modify, gets, unblock, store_user, ret.
  destruct w as [? ? ? dbb store ? ?]; cbn.
  destruct (store !! target) as [s|] eqn:Hs; cbn.
  - split.
    + destruct (decide (user_id s = target)) as [->|Hne].
      * by rewrite lookup_delete_eq.
      * by rewrite lookup_delete_ne, lookup_delete_eq.
    + intros s'. rewrite lookup_insert_eq. by intros [= <-].
  - rewrite lookup_delete_eq, Hs. by split.
Qed.

Lemma unban_user_command_handler_clears t1 t2 t3 caller target w :
  consistent w ->
  let w' := snd (unban_user_command_handler t1 t2 t3 caller target w) in
  db_blocked_users w' !! target = None /\
  forall s', user_data_store w' !! target = Some s' ->
    blocked_until_timestamp s' = None /\ violations s' = 0.
Proof.
  intros Hc w'. subst w'.
  pose proof (consistent_after_fetch t1 caller w Hc) as Hc0. unfold exec in Hc0.
  destruct (get_user_data t1 caller w) as [s w0] eqn:Hg. cbn [snd] in Hc0.
  rewrite (unban_user_command_handler_eq _ _ _ _ _ _ _ _ Hg). cbv zeta.
  destruct Hc0 as (Hwf & Hdated & _).
  destruct (db_blocked_users w0 !! target) as [[[u|] v]|] eqn:Hrec.
  - case_decide; [apply unban_not_banned_clears|].
    unfold bind. destruct (get_user_data t3 target w0) as [s2 w2] eqn:Hg2.
    destruct (get_user_data_frame _ _ _ _ _ Hg2) as (Hs2 & _).
    destruct (get_user_data_slot _ _ _ _ _ Hg2) as [_ Hid].
    specialize (Hid (fun s0 H0 => Hwf target s0 H0)).
    destruct (unblock_spec target s2 w2) as (_ & Hst & Hdb & _).
    destruct (unblock target s2 w2) as [s3 w3]. cbn [fst snd] in *. unfold ret. cbn [snd].
    rewrite Hst, Hdb, Hid, lookup_delete_eq, lookup_insert_eq. split; [done|].
    by intros s' [= <-].
  - destruct (Hdated _ _ Hrec) as [? [=]].
  - apply unban_not_banned_clears.
Qed.

(** X20.  [/unban] by the owner always leaves the target clear.  From a
    consistent state, after the command the store holds no block record of
    the target, and the cached session of the target, if there is one, has
    no block and a violation counter of 0 - also when the target was not
    banned at all: violations counted so far are forgotten. *)
Theorem unban_clears_the_target td t1 t2 t3 caller target w :
  BOT_OWNER_USER_ID (settings w) = Some caller ->
  consistent w ->
  let w' := exec (run (OpUnban td t1 t2 t3 caller target)) w in
  db_blocked_users w' !! target = None /\
  forall s', user_data_store w' !! target = Some s' ->
    blocked_until_timestamp s' = None /\ violations s' = 0.
Proof.
  intros Ho Hc w'. subst w'. unfold exec, run. rewrite owner_only_owner by done.
  by apply unban_user_command_handler_clears.
Qed.

Lemma unban_clears_the_target_witness :
  let w := banned_world in
  let w' := exec (run (OpUnban (sec 5) (sec 5) (sec 5) (sec 5) 1 7)) w in
  db_blocked_users w !! 7 = Some (Some (timedelta_days (365 * 100)), -1) /\
  db_blocked_users w' !! 7 = None.
Proof.
  intros w w'. split; [vm_compute; reflexivity|].
  apply (unban_clears_the_target (sec 5) (sec 5) (sec 5) (sec 5) 1 7 w).
  - vm_compute. reflexivity.
  - apply reachable_consistent, reachable_run_all. constructor.
Defined.

(** ** A successful payment *)

Lemma payment_tail_keeps t3 uid (st : BotSettings) :
  keeps trust_kept
    (match BOT_OWNER_USER_ID st with
     | Some owner_id =>
         if decide (owner_id = 0) then ret tt
         else get_user_data t3 uid ;;; TRUSTED_USERS_SET ;;; ret tt
     | None => ret tt
     end).
Proof. trust_kept_walk. Qed.

(** The session of [uid] is cached and carries no block. *)
Lemma fetch_keeps_unblocked t uid w :
  uid ∈ trusted_of w ->
  let w' := exec (get_user_data t uid) w in
  exists s', user_data_store w' !! uid = Some s' /\ blocked_until_timestamp s' = None.
Proof.
  intros Htr w'. subst w'. pose proof (fetched_unblocked_when_trusted t uid w Htr) as Hb.
  unfold eval, exec in *. destruct (get_user_data t uid w) as [s w0] eqn:Hg.
  destruct (get_user_data_frame _ _ _ _ _ Hg) as (Hs & _). by exists s.
Qed.

Lemma check_and_unblock_if_trusted_keeps_unblocked t uid T w s :
  user_data_store w !! uid = Some s ->
  blocked_until_timestamp s = None ->
  user_data_store (exec (check_and_unblock_if_trusted t uid T) w) !! uid = Some s.
Proof.
  intros Hs Hb. unfold exec, check_and_unblock_if_trusted.
  destruct w; cbn in Hs; steps; use_lookups; congruence.
Qed.

Lemma success_payment_handler_trusted_unblocked t1 t2 t3 uid w :
  let w' := snd (success_payment_handler t1 t2 t3 uid w) in
  uid ∈ trusted_of w' /\
  exists s', user_data_store w' !! uid = Some s' /\ blocked_until_timestamp s' = None.
Proof.
  intros w'. subst w'.
  set (G := fun w' : World =>
              uid ∈ trusted_of w' /\
              exists s', user_data_store w' !! uid = Some s' /\
                         blocked_until_timestamp s' = None).
  change (G (snd (success_payment_handler t1 t2 t3 uid w))).
  unfold success_payment_handler.
  unfold bind at 1. destruct (get_user_data t1 uid w) as [s w0] eqn:Hg.
  destruct (get_user_data_frame _ _ _ _ _ Hg) as (Hs0 & _).
  destruct (get_user_data_trusted_of _ _ _ _ _ Hg) as [_ HT0].
  unfold bind at 1. rewrite HT0.
  (* the block of the fetched session is lifted *)
  unfold bind at 1.
  set (lift := match blocked_until_timestamp s with
               | Some _ => unblock uid s ;;; ret tt
               | None => ret tt
               end).
  assert (Hlift : exists s1, user_data_store (snd (lift w0)) !! uid = Some s1 /\
                             blocked_until_timestamp s1 = None).
  { subst lift. destruct (blocked_until_timestamp s) as [bu|] eqn:Hb.
    - unfold bind, ret. destruct (unblock_spec uid s w0) as (_ & Hst & _).
      destruct (unblock uid s w0) as [s1 w1]. cbn [fst snd] in *.
      exists (cleared s). by rewrite Hst, lookup_insert_eq.
    - by exists s. }
  destruct (lift w0) as [[] w1]. cbn [snd] in Hlift.
  destruct Hlift as (s1 & Hs1 & Hb1).
  (* trust is granted *)
  unfold bind at 1. rewrite TRUSTED_USERS_SET_eq.
  unfold bind at 1.
  set (grant := if decide (uid ∉ trusted_of w1) then _ else _).
  assert (Hgrant : uid ∈ trusted_of (snd (grant (fill_cache w1))) /\
                   user_data_store (snd (grant (fill_cache w1))) = user_data_store w1).
  { subst grant. case_decide as Hin.
    - unfold bind, add_trusted_user_db, modify. cbn [snd].
      split.
      + rewrite trusted_of_uncached by (by destruct (fill_cache w1)).
        left. destruct (fill_cache w1); cbn. set_solver.
      + cbn. apply fill_cache_store.
    - cbn [ret snd]. rewrite trusted_of_fill_cache, fill_cache_store. split; [|done].
      by destruct (decide (uid ∈ trusted_of w1)). }
  destruct (grant (fill_cache w1)) as [[] w2]. cbn [snd] in Hgrant.
  destruct Hgrant as [Htr2 Hst2].
  unfold bind at 1. rewrite TRUSTED_USERS_SET_eq.
  unfold bind at 1.
  pose proof (check_and_unblock_if_trusted_trust_kept t2 uid (trusted_of w2)
                (fill_cache w2)) as Hk3.
  assert (Hs2 : user_data_store (fill_cache w2) !! uid = Some s1)
    by (by rewrite fill_cache_store, Hst2).
  pose proof (check_and_unblock_if_trusted_keeps_unblocked t2 uid (trusted_of w2)
                (fill_cache w2) s1 Hs2 Hb1) as Hs3.
  unfold exec in Hs3.
  destruct (check_and_unblock_if_trusted t2 uid (trusted_of w2) (fill_cache w2))
    as [[] w3]. cbn [snd] in *.
  unfold trust_kept in Hk3. rewrite trusted_of_fill_cache in Hk3.
  assert (Htr3 : uid ∈ trusted_of w3) by (by rewrite Hk3).
  unfold bind at 1, gets at 1.
  pose proof (payment_tail_keeps t3 uid (settings w3) w3) as Hk4. unfold trust_kept in Hk4.
  subst G. cbv beta. split; [by rewrite Hk4|].
  destruct (BOT_OWNER_USER_ID (settings w3)) as [o|]; [|by exists s1].
  case_decide; [by exists s1|].
  unfold bind at 1.
  pose proof (fetch_keeps_unblocked t3 uid w3 Htr3) as (s4 & Hs4 & Hb4). unfold exec in Hs4.
  destruct (get_user_data t3 uid w3) as [s5 w4]. cbn [snd] in Hs4.
  unfold bind, ret. rewrite TRUSTED_USERS_SET_eq. cbn [snd].
  exists s4. by rewrite fill_cache_store.
Qed.

(** X21.  A successful payment leaves the payer trusted and unblocked.
    From a consistent state, after [success_payment_handler] the payer is
    in the trusted set, has a cached session without a block, and has no
    block record in the store. *)
Theorem payment_grants_trust_and_unblocks t1 t2 t3 uid w :
  consistent w ->
  let w' := exec (run (OpSuccessfulPayment t1 t2 t3 uid)) w in
  uid ∈ trusted_of w' /\
  db_blocked_users w' !! uid = None /\
  exists s', user_data_store w' !! uid = Some s' /\ blocked_until_timestamp s' = None.
Proof.
  intros Hc w'.
  assert (Hc' : consistent w') by (by apply run_consistent).
  assert (H : uid ∈ trusted_of w' /\
              exists s', user_data_store w' !! uid = Some s' /\
                         blocked_until_timestamp s' = None).
  2:{ destruct H as (Htr & s' & Hs' & Hb'). split; [done|]. split; [|by exists s'].
      destruct Hc' as (_ & _ & Hag & _). by apply (Hag uid s'). }
  subst w'. unfold exec, run.
  apply success_payment_handler_trusted_unblocked.
Qed.

Lemma payment_grants_trust_and_unblocks_witness :
  let w := blocked_by_escalation_world in
  let w' := exec (run (OpSuccessfulPayment (sec 300) (sec 300) (sec 300) 7)) w in
  7 ∉ trusted_of w /\ 7 ∈ trusted_of w' /\ db_blocked_users w' !! 7 = None.
Proof.
  intros w w'. split; [apply (bool_decide_unpack _); vm_compute; exact I|].
  destruct (payment_grants_trust_and_unblocks (sec 300) (sec 300) (sec 300) 7 w)
    as (H1 & H2 & _).
  - apply reachable_consistent, reachable_run_all. constructor.
  - split; [exact H1|exact H2].
Defined.

(** ** The fetch of a session *)

Lemma fill_cache_after_fetch t uid w s w0 :
  get_user_data t uid w = (s, w0) -> fill_cache w0 = w0.
Proof.
  intros Hg. destruct (get_user_data_frame _ _ _ _ _ Hg) as (_ & Hst & _).
  apply (fill_cache_cached w0 (trusted_of w)). rewrite Hst. by destruct (settings w).
Qed.

(** X22.  Fetching is idempotent.  From a consistent state, a second
    [get_user_data] for the same user, at any clock reading, returns the
    very session the first one returned and changes nothing: the
    reconciliation of trust and the loading from the store have nothing
    left to do. *)
Theorem get_user_data_idempotent t t' uid w :
  consistent w ->
  let s := eval (get_user_data t uid) w in
  let w0 := exec (get_user_data t uid) w in
  get_user_data t' uid w0 = (s, w0).
Proof.
  intros Hc s w0.
  pose proof (consistent_after_fetch t uid w Hc) as Hc0. fold w0 in Hc0.
  assert (Hg : get_user_data t uid w = (s, w0))
    by (subst s w0; unfold eval, exec; by destruct (get_user_data t uid w)).
  clearbody s w0.
  destruct (get_user_data_frame _ _ _ _ _ Hg) as (Hs & _).
  destruct (get_user_data_trusted_of _ _ _ _ _ Hg) as [Htr HT].
  pose proof (fill_cache_after_fetch _ _ _ _ _ Hg) as Hfill.
  destruct (decide (uid ∈ trusted_of w0)) as [Hin|Hin].
  - assert (Hb : blocked_until_timestamp s = None).
    { pose proof (fetched_unblocked_when_trusted t uid w) as H.
      unfold eval in H. rewrite Hg in H. apply H. by rewrite <- Htr. }
    assert (Hdb : db_blocked_users w0 !! uid = None)
      by (destruct Hc0 as (_ & _ & Hag & _); by apply (Hag uid s)).
    unfold get_user_data, bind at 1, gets at 1. rewrite Hs.
    unfold bind at 1. rewrite HT.
    unfold check_and_unblock_if_trusted.
    rewrite decide_False by (intros H; apply H; by rewrite <- Htr).
    unfold bind, gets, get_blocked_user_info_db, gets, ret.
    rewrite Hs, Hb, Hdb. cbn. by rewrite Hs.
  - by rewrite (get_user_data_cached_untrusted _ _ _ _ Hs Hin), Hfill.
Qed.

Lemma get_user_data_idempotent_witness :
  let w := banned_world in
  get_user_data (sec 9) 7 (exec (get_user_data (sec 5) 7) w)
    = (eval (get_user_data (sec 5) 7) w, exec (get_user_data (sec 5) 7) w).
Proof.
  apply (get_user_data_idempotent (sec 5) (sec 9) 7 banned_world).
  apply reachable_consistent, reachable_run_all. constructor.
Defined.

(** ** Isolation of the users *)

Lemma user_kept_refl uid w : user_kept uid w w.
Proof. done. Qed.

Lemma user_kept_trans uid w1 w2 w3 :
  user_kept uid w1 w2 -> user_kept uid w2 w3 -> user_kept uid w1 w3.
Proof. unfold user_kept. intros (-> & -> & ->) (-> & -> & ->). done. Qed.

Lemma get_user_data_user_kept t uid u :
  u <> uid -> keeps (user_kept u) (get_user_data t uid).
Proof.
  intros Hne w. destruct (get_user_data t uid w) as [s w0] eqn:Hg.
  destruct (get_user_data_frame _ _ _ _ _ Hg) as (_ & _ & _ & _ & _ & H1 & H2 & H3).
  cbn [snd]. split; [by apply H1|]. split; [by apply H2|by apply H3].
Qed.

Ltac user_kept_leaf :=
  idtac; unfold user_kept; cbn;
  rewrite ?lookup_insert_ne, ?lookup_delete_ne by done; done.

Ltac user_kept_walk u :=
  keeps_walk (user_kept_refl u) (user_kept_trans u)
    ltac:(idtac; lazymatch goal with
          | |- keeps _ TRUSTED_USERS_SET =>
              unfold TRUSTED_USERS_SET; unfold_leaves
          | |- keeps _ (get_user_data _ _) => by apply get_user_data_user_kept
          end)
    user_kept_leaf.

(** Everything a check does after the fetch, on a session of [uid]. *)
Lemma check_tail_user_kept now uid ct inc s u :
  u <> uid -> user_id s = uid ->
  keeps (user_kept u)
    (match blocked_until_timestamp s with
     | Some blocked_until =>
         if decide (now < blocked_until) then ret (Returns false)
         else s' <~ unblock uid s ;;
              (if decide (ct = "rate") then check_rate_command now uid s'
               else check_general now uid inc s')
     | None =>
         if decide (ct = "rate") then check_rate_command now uid s
         else check_general now uid inc s
     end).
Proof.
  intros Hne Hid.
  unfold check_general, check_rate_command, handle_limit_violation, unblock;
    unfold_leaves; cbn [user_id set_violations set_blocked_until_timestamp].
  rewrite Hid. user_kept_walk u.
Qed.

Lemma is_user_blocked_tail_user_kept now uid s u :
  u <> uid -> user_id s = uid ->
  keeps (user_kept u)
    (match blocked_until_timestamp s with
     | Some blocked_until =>
         if decide (now < blocked_until)
         then _send_message_rl uid "user_blocked" ;;; ret true
         else unblock uid s ;;; ret false
     | None => ret false
     end).
Proof.
  intros Hne Hid. unfold unblock; unfold_leaves.
  cbn [user_id set_violations set_blocked_until_timestamp].
  rewrite Hid. user_kept_walk u.
Qed.

Lemma fetched_user_id t uid w :
  slots_wf w -> user_id (fst (get_user_data t uid w)) = uid.
Proof.
  intros Hwf. destruct (get_user_data t uid w) as [s w0] eqn:Hg.
  destruct (get_user_data_slot _ _ _ _ _ Hg) as [_ Hid]. apply Hid.
  intros s0 H0. by apply (Hwf uid).
Qed.

(** X23.  The checks of the rate limiter are per user.  From a state in
    which every session sits in the slot of its own identifier, a
    rate-limit check or a blocked-status check made for one user leaves
    every other user's session, block record and persisted settings as
    they are.  (The global ledger is shared: that is how the global daily
    cap couples the users.) *)
Theorem checks_leave_other_users_alone t0 now uid ct inc u w :
  slots_wf w ->
  u <> uid ->
  user_kept u w (exec (check_rate_limits t0 now uid ct inc) w) /\
  user_kept u w (exec (is_user_blocked t0 now uid) w).
Proof.
  intros Hwf Hne.
  pose proof (fetched_user_id t0 uid w Hwf) as Hid.
  pose proof (get_user_data_user_kept t0 uid u Hne w) as H0.
  destruct (get_user_data t0 uid w) as [s w0] eqn:Hg. cbn [fst snd] in *.
  split.
  - apply (user_kept_trans u _ w0); [done|].
    unfold exec, check_rate_limits, bind at 1. rewrite Hg.
    destruct (get_user_data_trusted_of _ _ _ _ _ Hg) as [_ HT].
    unfold bind at 1. rewrite HT. case_decide; [done|]. cbv zeta.
    by apply check_tail_user_kept.
  - apply (user_kept_trans u _ w0); [done|].
    unfold exec, is_user_blocked, bind at 1. rewrite Hg.
    by apply is_user_blocked_tail_user_kept.
Qed.

Lemma checks_leave_other_users_alone_witness :
  let w := blocked_by_escalation_world in
  user_kept 7 w (exec (check_rate_limits (sec 300) (sec 300) 8 "gemini" true) w).
Proof.
  intros w.
  destruct (checks_leave_other_users_alone (sec 300) (sec 300) 8 "gemini" true 7 w)
    as [H _].
  - apply reachable_consistent, reachable_run_all. constructor.
  - discriminate.
  - exact H.
Defined.

(** ** Write-through of the persisted settings *)

Lemma written_through_at_W u s w : written_through_at u s w -> written_through w.
Proof. by intros [H _]. Qed.

Lemma written_through_update u w w' :
  written_through w ->
  (forall x, x <> u ->
     user_data_store w' !! x = user_data_store w !! x /\
     db_user_settings w' !! x = db_user_settings w !! x) ->
  (forall s, user_data_store w' !! u = Some s ->
     user_id s = u /\ db_user_settings w' !! u = Some (persistent_settings s)) ->
  written_through w'.
Proof.
  intros HW Hother Hu x s Hx. destruct (decide (x = u)) as [->|Hne]; [by apply Hu|].
  destruct (Hother x Hne) as [E1 E2]. rewrite E1 in Hx. rewrite E2. by apply HW.
Qed.

Lemma get_user_data_settings_row t uid w :
  (forall s0, user_data_store w !! uid = Some s0 ->
     db_user_settings w !! uid = Some (persistent_settings s0)) ->
  db_user_settings (exec (get_user_data t uid) w) !! uid
    = Some (persistent_settings (eval (get_user_data t uid) w)).
Proof.
  intros H. unfold get_user_data, check_and_unblock_if_trusted.
  open_world w. destruct (store !! uid) as [s0|] eqn:Hs.
  - specialize (H s0 eq_refl). steps; rewrite ?lookup_insert_eq; use_lookups; done.
  - clear H. steps; rewrite ?lookup_insert_eq; use_lookups; done.
Qed.

Lemma get_user_data_written_through t u :
  hoare written_through (get_user_data t u) (fun s => written_through_at u s).
Proof.
  intros w HW.
  pose proof (get_user_data_settings_row t u w) as Hrow.
  pose proof (fetched_user_id t u w) as Hid.
  unfold eval, exec in *.
  destruct (get_user_data t u w) as [s w0] eqn:Hg. cbn [fst snd] in *.
  destruct (get_user_data_frame _ _ _ _ _ Hg) as (Hs & _ & _ & _ & _ & H1 & _ & H3).
  assert (Hid' : user_id s = u) by (apply Hid; intros x sx Hx; by apply HW).
  assert (Hrow' : db_user_settings w0 !! u = Some (persistent_settings s))
    by (apply Hrow; intros s0 H0; by apply HW).
  split; [|done].
  apply (written_through_update u w); [done| |].
  - intros x Hx. split; [by apply H1|by apply H3].
  - intros s1. rewrite Hs. by intros [= <-].
Qed.

Lemma rows_kept_refl w : rows_kept w w.
Proof. done. Qed.

Lemma rows_kept_trans w1 w2 w3 : rows_kept w1 w2 -> rows_kept w2 w3 -> rows_kept w1 w3.
Proof. unfold rows_kept. intros [-> ->] [-> ->]. done. Qed.

Ltac rows_kept_leaf := idtac; unfold rows_kept; cbn; done.

Lemma TRUSTED_USERS_SET_rows_kept : keeps rows_kept TRUSTED_USERS_SET.
Proof.
  unfold TRUSTED_USERS_SET; unfold_leaves.
  keeps_walk rows_kept_refl rows_kept_trans fail rows_kept_leaf.
Qed.

Ltac rows_kept_walk :=
  unfold_leaves;
  keeps_walk rows_kept_refl rows_kept_trans
    ltac:(idtac; lazymatch goal with
          | |- keeps _ TRUSTED_USERS_SET => apply TRUSTED_USERS_SET_rows_kept
          end)
    rows_kept_leaf.

Lemma hoare_rows_kept {A} (c : M A) :
  keeps rows_kept c -> hoare written_through c (fun _ => written_through).
Proof.
  intros Hk w HW. destruct (Hk w) as [E1 E2]. intros x s. rewrite E1, E2. apply HW.
Qed.

Lemma hoare_rows_kept_at {A} u s (c : M A) :
  keeps rows_kept c ->
  hoare (written_through_at u s) c (fun _ => written_through_at u s).
Proof.
  intros Hk w (HW & Hid & Hrow). destruct (Hk w) as [E1 E2].
  split; [|split; [done|by rewrite E2]].
  intros x sx. rewrite E1, E2. apply HW.
Qed.

Lemma store_user_written_through_at u s s' :
  user_id s' = user_id s ->
  persistent_settings s' = persistent_settings s ->
  hoare (written_through_at u s) (store_user u s') (fun _ => written_through_at u s).
Proof.
  intros Hi Hp w (HW & Hid & Hrow). split; [|by split].
  apply (written_through_update u w _ HW); cbn.
  - intros x Hx. by rewrite lookup_insert_ne.
  - intros s1. rewrite lookup_insert_eq. intros [= <-]. rewrite Hi, Hp. by split.
Qed.

Lemma hoare_unblock_bind {B} u s s1 (k : UserData -> M B) (R : B -> World -> Prop) :
  user_id s1 = user_id s ->
  persistent_settings s1 = persistent_settings s ->
  hoare (written_through_at u s) (k (cleared s1)) R ->
  hoare (written_through_at u s) (bind (unblock u s1) k) R.
Proof.
  intros Hi Hp Hk w H. unfold bind.
  pose proof (store_user_written_through_at u s (cleared s1) Hi Hp w H) as H1.
  assert (E : unblock u s1 w
              = (cleared s1,
                 with_db_blocked_users
                   (delete (user_id (cleared s1))
                      (db_blocked_users (snd (store_user u (cleared s1) w))))
                   (snd (store_user u (cleared s1) w)))) by reflexivity.
  rewrite E. apply Hk. exact H1.
Qed.

Lemma check_and_unblock_if_trusted_rows t x T w :
  let w' := snd (check_and_unblock_if_trusted t x T w) in
  db_user_settings w' = db_user_settings w /\
  (user_data_store w' = user_data_store w \/
   exists s0, user_data_store w !! x = Some s0 /\
              user_data_store w' = <[x := cleared s0]> (user_data_store w)).
Proof.
  unfold check_and_unblock_if_trusted. destruct w; steps; cbn in *; split; try done;
    try (by left); right; eexists; split; reflexivity.
Qed.

Lemma check_and_unblock_if_trusted_written_through t x T :
  hoare written_through (check_and_unblock_if_trusted t x T) (fun _ => written_through).
Proof.
  intros w HW. destruct (check_and_unblock_if_trusted_rows t x T w) as [E2 [E1|(s0 & H0 & E1)]].
  - intros y s. rewrite E1, E2. apply HW.
  - apply (written_through_update x w _ HW).
    + intros y Hy. by rewrite E1, E2, lookup_insert_ne.
    + intros s. rewrite E1, E2, lookup_insert_eq. intros [= <-]. exact (HW _ _ H0).
Qed.

Lemma check_and_unblock_if_trusted_written_through_at t x T u s :
  hoare (written_through_at u s) (check_and_unblock_if_trusted t x T)
    (fun _ => written_through_at u s).
Proof.
  intros w (HW & Hid & Hrow). split; [by apply check_and_unblock_if_trusted_written_through|].
  split; [done|]. by destruct (check_and_unblock_if_trusted_rows t x T w) as [-> _].
Qed.

Lemma set_language_written_through u v s :
  hoare (written_through_at u s) (set_language u v s) (fun _ => written_through).
Proof.
  intros w (HW & Hid & Hrow). unfold set_language. case_decide; [done|].
  cbn. apply (written_through_update u w _ HW); cbn.
  - intros x Hx. rewrite lookup_insert_ne by done. by rewrite lookup_insert_ne by congruence.
  - intros s1. rewrite lookup_insert_eq. intros [= <-]. cbn. rewrite Hid.
    by rewrite lookup_insert_eq.
Qed.

Lemma set_gemini_model_written_through u v s :
  hoare (written_through_at u s) (set_gemini_model u v s) (fun _ => written_through).
Proof.
  intros w (HW & Hid & Hrow). unfold set_gemini_model. case_decide; [done|].
  cbn. apply (written_through_update u w _ HW); cbn.
  - intros x Hx. rewrite lookup_insert_ne by done. by rewrite lookup_insert_ne by congruence.
  - intros s1. rewrite lookup_insert_eq. intros [= <-]. cbn. rewrite Hid.
    by rewrite lookup_insert_eq.
Qed.

(** The branch of [/unban] for a target that is not banned. *)
Lemma unban_cached_written_through target (P : World -> Prop) :
  (forall w, P w -> written_through w) ->
  hoare P
    (cached <~ gets (fun w => user_data_store w !! target) ;;
     match cached with
     | Some s => unblock target s ;;; ret tt
     | None => ret tt
     end)
    (fun _ => written_through).
Proof.
  intros HP w Hw. apply HP in Hw. unfold bind at 1, gets.
  destruct (user_data_store w !! target) as [s|] eqn:Hs; [|done].
  destruct (Hw _ _ Hs) as [Hid Hrow].
  apply (hoare_unblock_bind target s s (fun _ => ret tt) (fun _ => written_through));
    [done|done| |by split].
  by intros w1 [H1 _].
Qed.

Ltac wt_close := idtac; let H := fresh in intros ? ? H; first [exact H | exact (proj1 H)].
Ltac wt_pre := idtac; let H := fresh in intros ? H; first [exact H | exact (proj1 H)].
Ltac wt_side := idtac; rewrite ?reset_chat_histories_eq; reflexivity.

Ltac wt_step :=
  lazymatch goal with
  | |- hoare _ (ret _) _ =>
      apply hoare_ret; let H := fresh in intros ? H; first [exact H | exact (proj1 H)]
  | |- hoare _ (bind (get_user_data _ _) _) _ =>
      eapply hoare_bind;
      [eapply hoare_weaken; [apply get_user_data_written_through|wt_pre|done]
      |intros ?; cbv beta]
  | |- hoare _ (bind (unblock _ _) _) _ =>
      apply hoare_unblock_bind; [wt_side|wt_side|cbv beta]
  | |- hoare _ (bind (set_language _ _ _) _) _ =>
      eapply hoare_bind; [apply set_language_written_through|intros ?]
  | |- hoare _ (bind (set_gemini_model _ _ _) _) _ =>
      eapply hoare_bind; [apply set_gemini_model_written_through|intros ?]
  | |- hoare _ (bind (gets (fun w => user_data_store w !! _)) _) _ =>
      apply unban_cached_written_through; wt_pre
  | |- hoare ?P (bind _ _) _ =>
      apply (hoare_bind P (fun _ => P)); [|intros ?]
  | |- hoare (written_through_at ?u ?s) (store_user ?u ?s') _ =>
      eapply hoare_weaken;
      [apply (store_user_written_through_at u s s'); wt_side|done|wt_close]
  | |- hoare written_through (check_and_unblock_if_trusted _ _ _) _ =>
      apply check_and_unblock_if_trusted_written_through
  | |- hoare (written_through_at _ _) (check_and_unblock_if_trusted _ _ _) _ =>
      eapply hoare_weaken;
      [apply check_and_unblock_if_trusted_written_through_at|done|wt_close]
  | |- hoare _ (match ?x with _ => _ end) _ => destruct x
  | |- hoare _ (let _ := _ in _) _ => cbv zeta
  | |- hoare written_through _ _ =>
      eapply hoare_weaken; [apply hoare_rows_kept; rows_kept_walk|done|wt_close]
  | |- hoare (written_through_at _ _) _ _ =>
      eapply hoare_weaken; [apply hoare_rows_kept_at; rows_kept_walk|done|wt_close]
  end.

Lemma run_written_through o : hoare written_through (run o) (fun _ => written_through).
Proof.
  destruct o;
    unfold run, owner_only, add_trusted_command_handler,
      remove_trusted_command_handler, ban_user_command_handler,
      unban_user_command_handler, success_payment_handler,
      handler_session_update, check_rate_limits, check_general,
      check_rate_command, handle_limit_violation, is_user_blocked;
    try (repeat wt_step; fail).
  intros w _ x s H. cbn in H. by rewrite lookup_empty in H.
Qed.

Lemma reachable_written_through w : reachable w -> written_through w.
Proof.
  induction 1 as [st|o w _ IH].
  - intros x s H. cbn in H. by rewrite lookup_empty in H.
  - by apply run_written_through.
Qed.

(** X24.  The persisted settings are written through.  In every state the
    process reaches, the language and the model of every cached session are
    exactly the row of [user_settings] for that user: no change of a
    setting is ever held back in memory. *)
Theorem reachable_settings_written_through w uid s :
  reachable w ->
  user_data_store w !! uid = Some s ->
  db_user_settings w !! uid = Some (persistent_settings s).
Proof. intros Hr Hs. by apply (reachable_written_through w Hr). Qed.

Lemma reachable_settings_written_through_witness :
  let w := banned_world in
  exists s, user_data_store w !! 7 = Some s /\
            db_user_settings w !! 7 = Some (persistent_settings s).
Proof.
  intros w.
  assert (Hs : is_Some (user_data_store w !! 7)) by (vm_compute; eauto).
  destruct Hs as [s Hs]. exists s. split; [exact Hs|].
  apply (reachable_settings_written_through w 7 s); [|exact Hs].
  apply reachable_run_all. constructor.
Defined.

Lemma fetch_after_restart_settings t uid w p :
  db_user_settings w !! uid = Some p ->
  persistent_settings (eval (get_user_data t uid) (restart w)) = p.
Proof.
  intros Hp. unfold get_user_data, restart.
  open_world w. rewrite lookup_empty. steps; use_lookups; done.
Qed.

Lemma run_set_language_eq t uid v w s w0 :
  get_user_data t uid w = (s, w0) ->
  exec (run (OpSetLanguage t uid v)) w = snd (set_language uid v s w0).
Proof.
  intros Hg. unfold exec, run, bind at 1. rewrite Hg.
  unfold bind, ret. by destruct (set_language uid v s w0).
Qed.

(** X25.  A change of language persists.  After the language of a user has
    been set to [v] in a reachable state, the cached session has language
    [v] and the model it had, the row of [user_settings] says the same, and
    after a restart the next fetch of that user returns a session with
    language [v] again, at any clock reading. *)
Theorem set_language_persists t uid v w :
  reachable w ->
  let s := eval (get_user_data t uid) w in
  let w' := exec (run (OpSetLanguage t uid v)) w in
  (exists s', user_data_store w' !! uid = Some s' /\
     language (persistent_settings s') = v /\
     gemini_model (persistent_settings s') = gemini_model (persistent_settings s) /\
     db_user_settings w' !! uid = Some (persistent_settings s')) /\
  forall t',
    language (persistent_settings (eval (get_user_data t' uid) (restart w'))) = v.
Proof.
  intros Hr s w'.
  assert (Hr' : reachable w') by (by constructor).
  assert (H : exists s', user_data_store w' !! uid = Some s' /\
     language (persistent_settings s') = v /\
     gemini_model (persistent_settings s') = gemini_model (persistent_settings s)).
  { subst s w'. unfold eval.
    destruct (get_user_data t uid w) as [s w0] eqn:Hg. cbn [fst].
    rewrite (run_set_language_eq _ _ _ _ _ _ Hg).
    destruct (get_user_data_frame _ _ _ _ _ Hg) as (Hs & _).
    unfold set_language. case_decide as Hl; cbn.
    - by exists s.
    - rewrite lookup_insert_eq. eexists. split; [done|]. by cbn. }
  destruct H as (s' & Hs' & Hl & Hm).
  pose proof (reachable_written_through w' Hr' uid s' Hs') as [_ Hrow].
  split; [by exists s'|].
  intros t'. by rewrite (fetch_after_restart_settings t' uid w' _ Hrow).
Qed.

Lemma set_language_persists_witness :
  let w := one_violation_world in
  let w' := exec (run (OpSetLanguage (sec 40) 7 "ru")) w in
  language (persistent_settings (eval (get_user_data (sec 50) 7) (restart w'))) = "ru".
Proof.
  intros w w'.
  destruct (set_language_persists (sec 40) 7 "ru" w) as [_ H].
  - apply reachable_run_all. constructor.
  - exact (H (sec 50)).
Defined.

(** ** The owner is never blocked *)

Lemma owner_clear_trusted o w : owner_clear o w -> o ∈ trusted_of w.
Proof.
  intros (Ho & Hc & _). destruct (_trusted_users_set_cache (settings w)) as [T|] eqn:E.
  - rewrite (trusted_of_cached _ _ E). by apply Hc.
  - apply trusted_of_uncached; [done|]. by right; right.
Qed.

Lemma owner_clear_fill_cache o w : owner_clear o w -> owner_clear o (fill_cache w).
Proof.
  intros H. pose proof (owner_clear_trusted o w H) as Htr.
  destruct H as (Ho & Hc & Hs & Hd). rewrite fill_cache_eq.
  split; [by destruct (settings w)|]. split; [by intros T [= <-]|]. by split.
Qed.

Lemma TRUSTED_USERS_SET_owner_clear o :
  hoare (owner_clear o) TRUSTED_USERS_SET (fun T w => owner_clear o w /\ o ∈ T).
Proof.
  intros w H. rewrite TRUSTED_USERS_SET_eq. cbn [fst snd].
  split; [by apply owner_clear_fill_cache|by apply owner_clear_trusted].
Qed.

Lemma gets_settings_owner_clear o :
  hoare (owner_clear o) (gets settings)
    (fun st w => owner_clear o w /\ BOT_OWNER_USER_ID st = Some o).
Proof. intros w H. split; [done|]. by destruct H. Qed.

Lemma get_user_data_owner_clear o t u :
  hoare (owner_clear o) (get_user_data t u)
    (fun s w => owner_clear o w /\ (u = o -> blocked_until_timestamp s = None)).
Proof.
  intros w H. pose proof (owner_clear_trusted o w H) as Htr.
  destruct H as (Ho & Hc & Hs & Hd).
  pose proof (fetched_unblocked_when_trusted t o w Htr) as Hb. unfold eval in Hb.
  destruct (get_user_data t u w) as [s w0] eqn:Hg. cbn [fst snd].
  destruct (get_user_data_frame _ _ _ _ _ Hg) as (Hs0 & Hst & _ & _ & _ & H1 & H2 & _).
  destruct (get_user_data_slot _ _ _ _ _ Hg) as [Hdb _].
  split; [|intros ->; by rewrite Hg in Hb].
  split; [rewrite Hst; by destruct (settings w)|].
  split; [rewrite Hst; by intros T [= <-]|].
  destruct (decide (u = o)) as [->|Hne].
  - rewrite Hg in Hb. cbn in Hb. split.
    + intros s1. rewrite Hs0. by intros [= <-].
    + destruct Hdb as [->| ->]; done.
  - rewrite (H1 o), (H2 o) by done. by split.
Qed.

Lemma unblock_owner_clear o u s :
  hoare (owner_clear o) (unblock u s)
    (fun s' w => owner_clear o w /\ blocked_until_timestamp s' = None).
Proof.
  intros w (Ho & Hc & Hs & Hd).
  destruct (unblock_spec u s w) as (Hr & Hst & Hdb & Hset & _).
  destruct (unblock u s w) as [s' w1]. cbn [fst snd] in *. subst s'.
  split; [|done]. unfold owner_clear. rewrite Hset, Hst, Hdb.
  split; [done|]. split; [done|]. split.
  - intros s1. destruct (decide (u = o)) as [->|Hne].
    + rewrite lookup_insert_eq. by intros [= <-].
    + rewrite lookup_insert_ne by done. apply Hs.
  - rewrite lookup_delete_None; by right.
Qed.

Lemma store_user_owner_clear o u s' :
  (u = o -> blocked_until_timestamp s' = None) ->
  hoare (owner_clear o) (store_user u s') (fun _ => owner_clear o).
Proof.
  intros Hb w (Ho & Hc & Hs & Hd). split; [done|]. split; [done|]. split; [|done].
  intros s1. cbn. destruct (decide (u = o)) as [->|Hne].
  - rewrite lookup_insert_eq. intros [= <-]. by apply Hb.
  - rewrite lookup_insert_ne by done. apply Hs.
Qed.

Lemma block_user_db_owner_clear o u b v :
  u <> o -> hoare (owner_clear o) (block_user_db u b v) (fun _ => owner_clear o).
Proof.
  intros Hne w (Ho & Hc & Hs & Hd). split; [done|]. split; [done|]. split; [done|].
  cbn. by rewrite lookup_insert_ne.
Qed.

Lemma unblock_user_db_owner_clear o u :
  hoare (owner_clear o) (unblock_user_db u) (fun _ => owner_clear o).
Proof.
  intros w (Ho & Hc & Hs & Hd). split; [done|]. split; [done|]. split; [done|].
  cbn. rewrite lookup_delete_None; by right.
Qed.

Lemma reset_cache_owner_clear o :
  hoare (owner_clear o)
    (modify (fun w => with_settings (set_trusted_cache None (settings w)) w))
    (fun _ => owner_clear o).
Proof.
  intros w (Ho & Hc & Hs & Hd).
  split; [cbn; revert Ho; by destruct (settings w)|]. by split.
Qed.

Lemma restart_owner_clear o :
  hoare (owner_clear o) (modify restart) (fun _ => owner_clear o).
Proof.
  intros w (Ho & Hc & Hs & Hd).
  split; [cbn; revert Ho; by destruct (settings w)|].
  split; [done|]. split; [|done]. intros s H. cbn in H. by rewrite lookup_empty in H.
Qed.

Lemma check_and_unblock_if_trusted_blocks t x T w :
  let w' := snd (check_and_unblock_if_trusted t x T w) in
  settings w' = settings w /\
  (db_blocked_users w' = db_blocked_users w \/
   db_blocked_users w' = delete x (db_blocked_users w)).
Proof.
  unfold check_and_unblock_if_trusted. destruct w; steps; split; try done;
    (by left) || (by right).
Qed.

Lemma check_and_unblock_if_trusted_owner_clear o t x T :
  hoare (owner_clear o) (check_and_unblock_if_trusted t x T) (fun _ => owner_clear o).
Proof.
  intros w (Ho & Hc & Hs & Hd).
  destruct (check_and_unblock_if_trusted_blocks t x T w) as [E1 E2].
  destruct (check_and_unblock_if_trusted_rows t x T w) as [_ E3].
  unfold owner_clear. rewrite E1. split; [done|]. split; [done|]. split.
  - destruct E3 as [->|(s0 & H0 & ->)]; [done|].
    intros s1. destruct (decide (x = o)) as [->|Hne].
    + rewrite lookup_insert_eq. by intros [= <-].
    + rewrite lookup_insert_ne by done. apply Hs.
  - destruct E2 as [->| ->]; [done|]. rewrite lookup_delete_None; by right.
Qed.

Lemma set_language_owner_clear o u v s :
  (u = o -> blocked_until_timestamp s = None) ->
  hoare (owner_clear o) (set_language u v s) (fun _ => owner_clear o).
Proof.
  intros Hb w H. unfold set_language. case_decide; [done|].
  assert (H1 : owner_clear o (snd (store_user u
            (set_persistent_settings
               (mkPersistent v (gemini_model (persistent_settings s))) s) w)))
    by (by apply store_user_owner_clear).
  exact H1.
Qed.

Lemma set_gemini_model_owner_clear o u v s :
  (u = o -> blocked_until_timestamp s = None) ->
  hoare (owner_clear o) (set_gemini_model u v s) (fun _ => owner_clear o).
Proof.
  intros Hb w H. unfold set_gemini_model. case_decide; [done|].
  assert (H1 : owner_clear o (snd (store_user u
            (set_persistent_settings
               (mkPersistent (language (persistent_settings s)) v) s) w)))
    by (by apply store_user_owner_clear).
  exact H1.
Qed.

(** The side conditions: the user written to is not the owner, or the
    session written carries no block. *)
Ltac oc_side :=
  idtac;
  let E := fresh "E" in
  intros E;
  first
    [ exfalso; solve [congruence | subst; contradiction | subst; tauto]
    | cbn; rewrite ?reset_chat_histories_eq; cbn;
      first [ reflexivity
            | assumption
            | match goal with
              | H : _ -> blocked_until_timestamp _ = None |- _ => exact (H E)
              end ] ].

Ltac oc_step o :=
  lazymatch goal with
  | |- hoare _ (ret _) _ => apply hoare_ret; let H := fresh in intros ? H; exact H
  | |- hoare _ (bind TRUSTED_USERS_SET _) _ =>
      eapply hoare_bind;
      [apply (TRUSTED_USERS_SET_owner_clear o)|intros ?; apply hoare_pure; intros ?]
  | |- hoare _ (bind (gets settings) _) _ =>
      eapply hoare_bind;
      [apply (gets_settings_owner_clear o)|intros ?; apply hoare_pure; intros ?]
  | |- hoare _ (bind (get_user_data _ _) _) _ =>
      eapply hoare_bind;
      [apply (get_user_data_owner_clear o)|intros ?; apply hoare_pure; intros ?]
  | |- hoare _ (bind (unblock _ _) _) _ =>
      eapply hoare_bind;
      [apply (unblock_owner_clear o)|intros ?; apply hoare_pure; intros ?]
  | |- hoare ?P (bind _ _) _ => apply (hoare_bind P (fun _ => P)); [|intros ?]
  | |- hoare _ (store_user _ _) _ => apply store_user_owner_clear; oc_side
  | |- hoare _ (block_user_db _ _ _) _ => apply block_user_db_owner_clear; oc_side
  | |- hoare _ (unblock_user_db _) _ => apply unblock_user_db_owner_clear
  | |- hoare _ (set_language _ _ _) _ => apply set_language_owner_clear; oc_side
  | |- hoare _ (set_gemini_model _ _ _) _ => apply set_gemini_model_owner_clear; oc_side
  | |- hoare _ (check_and_unblock_if_trusted _ _ _) _ =>
      apply check_and_unblock_if_trusted_owner_clear
  | |- hoare _ (gets _) _ => apply hoare_gets_keep
  | |- hoare _ (match ?x with _ => _ end) _ => destruct x
  | |- hoare _ (let _ := _ in _) _ => cbv zeta
  | |- hoare _ (modify _) _ =>
      first [ apply hoare_modify; (let H := fresh in intros ? H; exact H)
            | apply reset_cache_owner_clear
            | apply restart_owner_clear ]
  end.

Lemma run_owner_clear o op : hoare (owner_clear o) (run op) (fun _ => owner_clear o).
Proof.
  destruct op;
    unfold run, owner_only, add_trusted_command_handler,
      remove_trusted_command_handler, ban_user_command_handler,
      unban_user_command_handler, success_payment_handler,
      handler_session_update, check_rate_limits, check_general,
      check_rate_command, handle_limit_violation, is_user_blocked;
    unfold get_blocked_user_info_db, _send_message_rl, add_trusted_user_db,
      remove_trusted_user_db;
    repeat oc_step o.
Qed.

Lemma reachable_owner_clear w :
  reachable w -> forall o, BOT_OWNER_USER_ID (settings w) = Some o -> owner_clear o w.
Proof.
  induction 1 as [st|op w _ IH]; intros o Ho.
  - split; [done|]. split; [by destruct st|]. split; [|done].
    intros s H. cbn in H. by rewrite lookup_empty in H.
  - apply run_owner_clear. apply IH.
    destruct (same_config_fields _ _ (run_config_kept op w))
      as (_ & _ & _ & _ & _ & _ & _ & _ & E & _).
    unfold exec in Ho. by rewrite <- E.
Qed.

(** X26.  The owner is never blocked.  In every state the process reaches
    the configured owner is in the trusted set, has no block record in the
    store and, if it has a cached session, no block in it: no sequence of
    requests, bans or restarts can lock the owner out. *)
Theorem reachable_owner_never_blocked w o :
  reachable w ->
  BOT_OWNER_USER_ID (settings w) = Some o ->
  o ∈ trusted_of w /\
  db_blocked_users w !! o = None /\
  forall s, user_data_store w !! o = Some s -> blocked_until_timestamp s = None.
Proof.
  intros Hr Ho. pose proof (reachable_owner_clear w Hr o Ho) as H.
  split; [by apply owner_clear_trusted|]. by destruct H as (_ & _ & ? & ?).
Qed.

Lemma reachable_owner_never_blocked_witness :
  let w := run_all [OpBan 5 5 5 5 5 1 1; OpCheckRateLimits 6 6 1 "gemini" true]
             banned_world in
  1 ∈ trusted_of w /\ db_blocked_users w !! 1 = None.
Proof.
  intros w.
  destruct (reachable_owner_never_blocked w 1) as (H1 & H2 & _).
  - apply reachable_run_all, reachable_run_all. constructor.
  - vm_compute. reflexivity.
  - split; [exact H1|exact H2].
Defined.
(** ** Lifting a block *)









